(** * Experiment manager: identity, directory lifecycle and best-performance
    extraction

  A shallow embedding of [experiment-manager.py]: the [ExperimentManager]
  class (experiment and run identifiers, resumption, directory creation,
  parameter persistence) and the [WriteBestPerformances] callback.

  Conventions.
  - A Python [str] is a [string]; every character stands for the code
    point of the same number (0..255).  Everything [json.dumps] emits with
    its default [ensure_ascii=True] is ASCII, so [.encode('utf-8')] is the
    identity on the byte level.
  - A Python exception is a value of [exn]; a call that may raise returns
    a [result].  A method that mutates [self] or the outside world returns
    the state it leaves behind, also when it raises.
  - The file system is a finite map from absolute paths (component lists)
    to nodes; there are no symbolic links. *)

From Stdlib Require Import ZArith Lia Bool List Ascii String DecimalString.
From Stdlib Require Import SpecFloat.
From stdpp Require Import gmap strings.

Local Open Scope string_scope.
Local Open Scope Z_scope.

#[local] Arguments String.append !s1 s2 : simpl nomatch.

(** ** Exceptions and results *)

Inductive exn : Type :=
  | FileNotFoundError (errno : Z) (strerror : string) (filename : string)
  | FileExistsError (filename : string)
  | NotADirectoryError (filename : string)
  | IsADirectoryError (filename : string)
  | KeyError (key : string)
  | TypeError (msg : string)
  | ValueError (msg : string)
  | AttributeError (msg : string)
  | EmptyDataError (msg : string).

Inductive result (A : Type) : Type :=
  | Ok (a : A)
  | Raise (e : exn).

Arguments Ok {A} a.
Arguments Raise {A} e.

Definition is_ok {A} (r : result A) : bool :=
  match r with Ok _ => true | Raise _ => false end.

(** ** Python strings *)

Module PyStr.

Definition code (c : ascii) : Z := Z.of_N (N_of_ascii c).

Definition chr (z : Z) : ascii := ascii_of_N (Z.to_N z).

Fixpoint join (sep : string) (l : list string) : string :=
  match l with
  | [] => ""
  | [x] => x
  | x :: rest => x ++ sep ++ join sep rest
  end.

(** [s[:n]] *)
Fixpoint take (n : nat) (s : string) : string :=
  match n, s with
  | S n', String c s' => String c (take n' s')
  | _, _ => ""
  end.

(** [s[n:]] *)
Fixpoint drop (n : nat) (s : string) : string :=
  match n, s with
  | S n', String c s' => drop n' s'
  | _, _ => s
  end.

Fixpoint repeat (n : nat) (s : string) : string :=
  match n with
  | O => ""
  | S n' => s ++ repeat n' s
  end.

Definition hex_digit (d : Z) : ascii :=
  if d <? 10 then chr (48 + d) else chr (87 + d).

(** [str(z)] for an [int]: its decimal writing *)
Definition of_int (z : Z) : string := NilZero.string_of_int (Z.to_int z).

(** ['{:0wd}'.format(z)] for [0 <= z]: decimal, left-padded with zeros *)
Definition zero_pad (w : nat) (z : Z) : string :=
  let s := of_int z in
  repeat (w - String.length s) "0" ++ s.

(** ['{:04x}'.format(z)] for [0 <= z < 65536] *)
Definition hex4 (z : Z) : string :=
  String (hex_digit (z / 4096 mod 16))
    (String (hex_digit (z / 256 mod 16))
       (String (hex_digit (z / 16 mod 16)) (String (hex_digit (z mod 16)) ""))).

Definition hex_value (c : ascii) : option Z :=
  let n := code c in
  if (48 <=? n) && (n <=? 57) then Some (n - 48)
  else if (97 <=? n) && (n <=? 102) then Some (n - 87)
  else if (65 <=? n) && (n <=? 70) then Some (n - 55)
  else None.

Fixpoint int16_aux (s : string) (acc : Z) : option Z :=
  match s with
  | EmptyString => Some acc
  | String c s' =>
      match hex_value c with
      | Some d => int16_aux s' (16 * acc + d)
      | None => None
      end
  end.

(** [int(s, base=16)] on a string of hexadecimal digits, as [hexdigest]
    gives; [None] stands for the [ValueError] Python raises on an empty
    string or on another character. *)
Definition int16 (s : string) : option Z :=
  match s with
  | EmptyString => None
  | _ => int16_aux s 0
  end.

End PyStr.

(** ** Python floats and [float.__repr__]

    A [float] is a binary64 number [S754_finite s m e] of value
    [(-1)^s * m * 2^e] (a zero, an infinity or a NaN otherwise).  [repr]
    prints the shortest decimal string that reads back as the same number,
    the nearest to it among the shortest (the last digit even on a tie),
    all decided here on exact integers. *)

Module PyFloat.

(** The number [V / S] with the interval [LO / S .. HI / S] of the reals
    that round to it; its ends belong to it when the mantissa is even. *)
Record scaled := { V : Z; S_ : Z; LO : Z; HI : Z; incl : bool }.

Definition setup (m e : Z) : scaled :=
  let sh := Z.max 0 (- e) + 2 in
  let e' := e + sh in
  let v := m * 2 ^ e' in
  let lowgap :=
    if (m =? 2 ^ 52) && (-1074 <? e) then 2 ^ (e' - 2) else 2 ^ (e' - 1) in
  {| V := v; S_ := 2 ^ sh; LO := v - lowgap; HI := v + 2 ^ (e' - 1);
     incl := Z.even m |}.

(** [d * 10^q] against [X / S]. *)
Definition cmp_dec (f : scaled) (d q X : Z) : comparison :=
  if 0 <=? q then (d * 10 ^ q * S_ f ?= X) else (d * S_ f ?= X * 10 ^ (- q)).

Definition in_interval (f : scaled) (d q : Z) : bool :=
  match cmp_dec f d q (LO f), cmp_dec f d q (HI f) with
  | Gt, Lt => true
  | Eq, Lt | Gt, Eq | Eq, Eq => incl f
  | _, _ => false
  end.

(** [floor (v / 10^q)] *)
Definition floor_div_pow (f : scaled) (q : Z) : Z :=
  if 0 <=? q then V f / (10 ^ q * S_ f) else (V f * 10 ^ (- q)) / S_ f.

Fixpoint adjust_up (fuel : nat) (f : scaled) (p : Z) : Z :=
  match fuel with
  | O => p
  | S fuel' =>
      match cmp_dec f 1 (p + 1) (V f) with
      | Gt => p
      | _ => adjust_up fuel' f (p + 1)
      end
  end.

(** [floor (log10 v)]: an estimate from the binary exponent that is at most
    one too small, then corrected upwards. *)
Definition log10_floor (f : scaled) (m e : Z) : Z :=
  adjust_up 4 f (((Z.log2 m + e) * 30103) / 100000 - 1).

(** The midpoint of [d * 10^q] and [(d + 1) * 10^q] against [v]. *)
Definition midpoint_cmp (f : scaled) (d q : Z) : comparison :=
  if 0 <=? q then ((2 * d + 1) * 10 ^ q * S_ f ?= 2 * V f)
  else ((2 * d + 1) * S_ f ?= 2 * V f * 10 ^ (- q)).

(** The [n]-digit decimal of the interval nearest to [v], if there is one. *)
Definition pick (f : scaled) (p n : Z) : option (Z * Z) :=
  let q := p - n + 1 in
  let d := floor_div_pow f q in
  match in_interval f d q, in_interval f (d + 1) q with
  | false, false => None
  | true, false => Some (d, q)
  | false, true => Some (d + 1, q)
  | true, true =>
      match midpoint_cmp f d q with
      | Gt => Some (d, q)
      | Lt => Some (d + 1, q)
      | Eq => if Z.even d then Some (d, q) else Some (d + 1, q)
      end
  end.

(** Seventeen digits always identify a binary64 number. *)
Fixpoint shortest (fuel : nat) (f : scaled) (p n : Z) : Z * Z :=
  match fuel with
  | O => (floor_div_pow f (p - n + 1), p - n + 1)
  | S fuel' =>
      match pick f p n with
      | Some r => r
      | None => shortest fuel' f p (n + 1)
      end
  end.

Fixpoint strip_zeros (fuel : nat) (d q : Z) : Z * Z :=
  match fuel with
  | O => (d, q)
  | S fuel' =>
      if (d mod 10 =? 0) && negb (d =? 0) then strip_zeros fuel' (d / 10) (q + 1)
      else (d, q)
  end.

Definition exp_str (x : Z) : string :=
  let a := Z.abs x in
  (if x <? 0 then "-" else "+") ++ (if a <? 10 then "0" else "") ++ PyStr.of_int a.

(** The digits and the position of the decimal point, laid out as [repr]
    does: an exponent when the point is more than 16 places to the right of
    the first digit or more than 3 to the left. *)
Definition format_short (digits : string) (decpt : Z) : string :=
  let n := Z.of_nat (String.length digits) in
  if (decpt <=? -4) || (16 <? decpt) then
    PyStr.take 1 digits ++ (if 1 <? n then "." ++ PyStr.drop 1 digits else "")
      ++ "e" ++ exp_str (decpt - 1)
  else if decpt <=? 0 then
    "0." ++ PyStr.repeat (Z.to_nat (- decpt)) "0" ++ digits
  else if n <=? decpt then
    digits ++ PyStr.repeat (Z.to_nat (decpt - n)) "0" ++ ".0"
  else PyStr.take (Z.to_nat decpt) digits ++ "." ++ PyStr.drop (Z.to_nat decpt) digits.

(** [repr(x)] *)
Definition float_repr (x : spec_float) : string :=
  match x with
  | S754_zero s => if s then "-0.0" else "0.0"
  | S754_infinity s => if s then "-inf" else "inf"
  | S754_nan => "nan"
  | S754_finite s m e =>
      let f := setup (Zpos m) e in
      let p := log10_floor f (Zpos m) e in
      let '(d, q) := shortest 17 f p 1 in
      let '(d, q) := strip_zeros 20 d q in
      let digits := PyStr.of_int d in
      (if s then "-" else "")
        ++ format_short digits (Z.of_nat (String.length digits) + q)
  end.

Definition is_nan (x : spec_float) : bool :=
  match x with S754_nan => true | _ => false end.

End PyFloat.

(** ** SHA-256 (FIPS 180-4), as [hashlib.sha256] computes it *)

Module SHA256.

Definition w32 (x : Z) : Z := x mod 2 ^ 32.

Definition add32 (x y : Z) : Z := w32 (x + y).

Definition rotr (n x : Z) : Z :=
  Z.lor (Z.shiftr x n) (w32 (Z.shiftl x (32 - n))).

Definition Ch (x y z : Z) : Z :=
  Z.lxor (Z.land x y) (Z.land (Z.lxor x 0xffffffff) z).

Definition Maj (x y z : Z) : Z :=
  Z.lxor (Z.lxor (Z.land x y) (Z.land x z)) (Z.land y z).

Definition Sigma0 (x : Z) : Z := Z.lxor (Z.lxor (rotr 2 x) (rotr 13 x)) (rotr 22 x).
Definition Sigma1 (x : Z) : Z := Z.lxor (Z.lxor (rotr 6 x) (rotr 11 x)) (rotr 25 x).
Definition sigma0 (x : Z) : Z := Z.lxor (Z.lxor (rotr 7 x) (rotr 18 x)) (Z.shiftr x 3).
Definition sigma1 (x : Z) : Z := Z.lxor (Z.lxor (rotr 17 x) (rotr 19 x)) (Z.shiftr x 10).

(** The primes below [n], in increasing order. *)
Definition primes_below (n : nat) : list Z :=
  List.filter
    (fun p => forallb (fun d => negb (p mod d =? 0) || (p <=? d))
                      (map Z.of_nat (seq 2 (Z.to_nat (Z.sqrt p)))))
    (map Z.of_nat (seq 2 (n - 2))).

(** The integer part of the cube root, one bit at a time from bit [bits]
    downwards. *)
Fixpoint cube_root (bits : nat) (n r : Z) : Z :=
  match bits with
  | O => r
  | S bits' =>
      let r' := r + 2 ^ Z.of_nat bits' in
      cube_root bits' n (if r' * r' * r' <=? n then r' else r)
  end.

(** The first 32 bits of the fractional parts of the cube roots of the
    first 64 primes. *)
Definition K : list Z :=
  Eval vm_compute in
    map (fun p => w32 (cube_root 40 (p * 2 ^ 96) 0)) (primes_below 312).

(** The first 32 bits of the fractional parts of the square roots of the
    first 8 primes. *)
Definition H0 : list Z :=
  Eval vm_compute in map (fun p => w32 (Z.sqrt (p * 2 ^ 64))) (primes_below 20).

(** Big-endian bytes of [x], [n] of them. *)
Fixpoint be_bytes (n : nat) (x : Z) : list Z :=
  match n with
  | O => []
  | S n' => Z.shiftr x (8 * Z.of_nat n') mod 256 :: be_bytes n' x
  end.

Definition be_word (bs : list Z) : Z :=
  fold_left (fun acc b => 256 * acc + b) bs 0.

(** Message padding: a 1 bit, zeros up to 56 mod 64 bytes, then the bit
    length on 8 bytes. *)
Definition pad (msg : list Z) : list Z :=
  let len := Z.of_nat (length msg) in
  let zeros := Z.to_nat ((55 - len) mod 64) in
  msg ++ 0x80 :: List.repeat 0 zeros ++ be_bytes 8 (8 * len).

Fixpoint words (fuel : nat) (bs : list Z) : list Z :=
  match fuel, bs with
  | S fuel', b0 :: b1 :: b2 :: b3 :: rest =>
      be_word [b0; b1; b2; b3] :: words fuel' rest
  | _, _ => []
  end.

Definition nthw (l : list Z) (i : nat) : Z := nth i l 0.

(** The message schedule, kept most recent word first. *)
Fixpoint extend (n : nat) (rev_w : list Z) : list Z :=
  match n with
  | O => rev_w
  | S n' =>
      let w :=
        add32 (add32 (sigma1 (nthw rev_w 1)) (nthw rev_w 6))
              (add32 (sigma0 (nthw rev_w 14)) (nthw rev_w 15)) in
      extend n' (w :: rev_w)
  end.

Definition schedule (block : list Z) : list Z :=
  rev (extend 48 (rev block)).

Record regs := Regs { ra : Z; rb : Z; rc : Z; rd : Z; re : Z; rf : Z; rg : Z; rh : Z }.

Definition round (r : regs) (kw : Z * Z) : regs :=
  let '(k, w) := kw in
  let t1 := add32 (add32 (add32 (rh r) (Sigma1 (re r))) (Ch (re r) (rf r) (rg r)))
                  (add32 k w) in
  let t2 := add32 (Sigma0 (ra r)) (Maj (ra r) (rb r) (rc r)) in
  Regs (add32 t1 t2) (ra r) (rb r) (rc r) (add32 (rd r) t1) (re r) (rf r) (rg r).

Definition regs_of (h : list Z) : regs :=
  Regs (nthw h 0) (nthw h 1) (nthw h 2) (nthw h 3)
       (nthw h 4) (nthw h 5) (nthw h 6) (nthw h 7).

Definition compress (h : list Z) (block : list Z) : list Z :=
  let r := fold_left round (combine K (schedule block)) (regs_of h) in
  [ add32 (nthw h 0) (ra r); add32 (nthw h 1) (rb r);
    add32 (nthw h 2) (rc r); add32 (nthw h 3) (rd r);
    add32 (nthw h 4) (re r); add32 (nthw h 5) (rf r);
    add32 (nthw h 6) (rg r); add32 (nthw h 7) (rh r) ].

Fixpoint blocks (fuel : nat) (ws : list Z) (h : list Z) : list Z :=
  match fuel, ws with
  | S fuel', _ :: _ => blocks fuel' (skipn 16 ws) (compress h (firstn 16 ws))
  | _, _ => h
  end.

(** The eight state words after the whole message. *)
Definition digest_words (msg : list Z) : list Z :=
  let bs := pad msg in
  let ws := words (length bs) bs in
  blocks (length ws) ws H0.

Definition bytes_of_string (s : string) : list Z :=
  map PyStr.code (list_ascii_of_string s).

Definition hex_byte (b : Z) : string :=
  String (PyStr.hex_digit (b / 16)) (String (PyStr.hex_digit (b mod 16)) "").

(** [hashlib.sha256(data).hexdigest()] *)
Definition hexdigest (data : string) : string :=
  fold_right (fun b s => hex_byte b ++ s) ""
    (flat_map (be_bytes 4) (digest_words (bytes_of_string data))).

End SHA256.

(** ** [pathlib]: pure POSIX paths *)

Module PurePath.

(** A path as [pathlib] keeps it: the root ([/], [//] or none) and the
    names after it, none of them empty or a single dot. *)
Record t := mk { root : string; parts : list string }.

Definition slash : ascii := PyStr.chr 47.

(** [s.split('/')] *)
Fixpoint split (s : string) : list string :=
  match s with
  | EmptyString => [EmptyString]
  | String c s' =>
      if Ascii.eqb c slash then EmptyString :: split s'
      else
        match split s' with
        | x :: r => String c x :: r
        | [] => [String c EmptyString]
        end
  end.

Fixpoint leading_slashes (s : string) : nat :=
  match s with
  | String c s' => if Ascii.eqb c slash then S (leading_slashes s') else O
  | EmptyString => O
  end.

(** Exactly two leading slashes are kept; any other number is one. *)
Definition splitroot (s : string) : string :=
  match leading_slashes s with
  | O => ""
  | 2%nat => "//"
  | _ => "/"
  end.

Definition is_name (x : string) : bool :=
  negb (String.eqb x "") && negb (String.eqb x ".").

(** [PurePosixPath(s)] *)
Definition parse (s : string) : t :=
  mk (splitroot s) (List.filter is_name (split s)).

Definition is_absolute (p : t) : bool := negb (String.eqb (root p) "").

(** [p / s]: an absolute right operand replaces the left one. *)
Definition truediv (p : t) (s : string) : t :=
  let q := parse s in
  if is_absolute q then q else mk (root p) (parts p ++ parts q)%list.

(** [str(p)] *)
Definition str (p : t) : string :=
  match root p, parts p with
  | EmptyString, [] => "."
  | r, ps => r ++ PyStr.join "/" ps
  end.

End PurePath.

(** ** The file system *)

Module FS.

Inductive node : Type :=
  | Dir (mtime : Z)
  | File (content : string) (mtime : Z).

(** A location is the list of names from an entry up to the root: the
    parent of a location is its tail, the root is the empty list. *)
Abbreviation store := (gmap (list string) node).

Record t := mk { nodes : store; cwd : list string }.

(** The root directory always exists; its modification time is not kept. *)
Definition node_at (m : store) (l : list string) : option node :=
  match l with
  | [] => Some (Dir 0)
  | _ => m !! l
  end.

Definition ENOENT : Z := 2.

(** [os.strerror(errno.ENOENT)] *)
Definition strerror_ENOENT : string := "No such file or directory".

Definition not_found (fname : string) : exn :=
  FileNotFoundError ENOENT strerror_ENOENT fname.

(** Path resolution: every name is looked up in a directory, and [..]
    leads to its parent. *)
Fixpoint walk (m : store) (cur : list string) (comps : list string)
    (fname : string) : result (list string) :=
  match comps with
  | [] => Ok cur
  | c :: rest =>
      match node_at m cur with
      | None => Raise (not_found fname)
      | Some (File _ _) => Raise (NotADirectoryError fname)
      | Some (Dir _) =>
          walk m (if String.eqb c ".." then tl cur else c :: cur) rest fname
      end
  end.

Definition start (fs : t) (p : PurePath.t) : list string :=
  if PurePath.is_absolute p then [] else cwd fs.

Definition locate (fs : t) (p : PurePath.t) : result (list string) :=
  walk (nodes fs) (start fs p) (PurePath.parts p) (PurePath.str p).

(** [os.stat(p)] *)
Definition stat (fs : t) (p : PurePath.t) : result node :=
  match locate fs p with
  | Raise e => Raise e
  | Ok l =>
      match node_at (nodes fs) l with
      | Some n => Ok n
      | None => Raise (not_found (PurePath.str p))
      end
  end.

(** [p.exists()], also [os.path.lexists]: there are no links. *)
Definition exists_ (fs : t) (p : PurePath.t) : bool := is_ok (stat fs p).

(** [p.is_dir()] *)
Definition is_dir (fs : t) (p : PurePath.t) : bool :=
  match stat fs p with
  | Ok (Dir _) => true
  | _ => false
  end.

Definition is_dir_node (n : node) : bool :=
  match n with Dir _ => true | File _ _ => false end.

Definition mtime_of (n : node) : Z :=
  match n with Dir t => t | File _ t => t end.

(** [os.path.getmtime(s)] *)
Definition getmtime (fs : t) (s : string) : result Z :=
  match stat fs (PurePath.parse s) with
  | Ok n => Ok (mtime_of n)
  | Raise e => Raise e
  end.

(** A new entry changes the modification time of its directory. *)
Definition touch (m : store) (l : list string) (now : Z) : store :=
  match m !! l with
  | Some (Dir _) => <[l := Dir now]> m
  | _ => m
  end.

Definition add_entry (fs : t) (l : list string) (n : node) (now : Z) : t :=
  mk (touch (<[l := n]> (nodes fs)) (tl l) now) (cwd fs).

(** The last name of [p] can name a new entry. *)
Definition creatable (p : PurePath.t) : bool :=
  match rev (PurePath.parts p) with
  | [] => false
  | c :: _ => negb (String.eqb c "..")
  end.

(** [os.mkdir(p)] *)
Definition os_mkdir (fs : t) (now : Z) (p : PurePath.t) : result unit * t :=
  match locate fs p with
  | Raise e => (Raise e, fs)
  | Ok l =>
      match node_at (nodes fs) l with
      | Some _ => (Raise (FileExistsError (PurePath.str p)), fs)
      | None =>
          if creatable p then (Ok tt, add_entry fs l (Dir now) now)
          else (Raise (not_found (PurePath.str p)), fs)
      end
  end.

(** [p.mkdir(parents=False, exist_ok=True)] *)
Definition mkdir_leaf (fs : t) (now : Z) (p : PurePath.t) : result unit * t :=
  match os_mkdir fs now p with
  | (Ok u, fs') => (Ok u, fs')
  | (Raise (FileNotFoundError n s f), _) => (Raise (FileNotFoundError n s f), fs)
  | (Raise e, _) => if is_dir fs p then (Ok tt, fs) else (Raise e, fs)
  end.

(** [p.mkdir(parents=True, exist_ok=True)] for the path of root [r] and
    names [rev rparts]: when a parent is missing, the parent is made first
    and the directory itself after it. *)
Fixpoint mkdir_rev (fs : t) (now : Z) (r : string) (rparts : list string) :
    result unit * t :=
  let p := PurePath.mk r (rev rparts) in
  match os_mkdir fs now p with
  | (Ok u, fs') => (Ok u, fs')
  | (Raise (FileNotFoundError n s f), _) =>
      match rparts with
      | [] => (Raise (FileNotFoundError n s f), fs)
      | _ :: rparent =>
          match mkdir_rev fs now r rparent with
          | (Ok _, fs1) => mkdir_leaf fs1 now p
          | (Raise e, fs1) => (Raise e, fs1)
          end
      end
  | (Raise e, _) => if is_dir fs p then (Ok tt, fs) else (Raise e, fs)
  end.

Definition mkdir (fs : t) (now : Z) (p : PurePath.t) : result unit * t :=
  mkdir_rev fs now (PurePath.root p) (rev (PurePath.parts p)).

(** [with open(p, 'w') as f: f.write(content)] *)
Definition write_file (fs : t) (now : Z) (p : PurePath.t) (content : string) :
    result unit * t :=
  match locate fs p with
  | Raise e => (Raise e, fs)
  | Ok l =>
      match node_at (nodes fs) l with
      | Some (Dir _) => (Raise (IsADirectoryError (PurePath.str p)), fs)
      | Some (File _ _) =>
          (Ok tt, mk (<[l := File content now]> (nodes fs)) (cwd fs))
      | None =>
          if creatable p then (Ok tt, add_entry fs l (File content now) now)
          else (Raise (not_found (PurePath.str p)), fs)
      end
  end.

(** The content of the file [p], if [p] is a file. *)
Definition read_file (fs : t) (p : PurePath.t) : option string :=
  match stat fs p with
  | Ok (File c _) => Some c
  | _ => None
  end.

Definition normalize (cur : list string) (comps : list string) : list string :=
  fold_left (fun cur c => if String.eqb c ".." then tl cur else c :: cur) comps cur.

(** [p.resolve()]: the absolute path, without [..]; it does not depend on
    what exists. *)
Definition resolve (fs : t) (p : PurePath.t) : PurePath.t :=
  PurePath.mk (if PurePath.is_absolute p then PurePath.root p else "/")
              (rev (normalize (start fs p) (PurePath.parts p))).

(** The entries of the directory at [l], each with its node. *)
Definition entries (m : store) (l : list string) : list (string * node) :=
  omap (fun kn : list string * node =>
          match fst kn with
          | name :: l' => if decide (l' = l) then Some (name, snd kn) else None
          | [] => None
          end)
       (map_to_list m).

(** The names [os.scandir(dirname)] yields, only those of directories
    when [dironly]; none when [dirname] is not a directory. *)
Definition iterdir (fs : t) (dirname : string) (dironly : bool) : list string :=
  let p := PurePath.parse dirname in
  match locate fs p with
  | Ok l =>
      match node_at (nodes fs) l with
      | Some (Dir _) =>
          map fst
            (List.filter (fun e : string * node => negb dironly || is_dir_node (snd e))
                         (entries (nodes fs) l))
      | _ => []
      end
  | Raise _ => []
  end.

End FS.

(** ** [fnmatch]: shell patterns (CPython 3.9 and later) *)

Module Fnmatch.

Definition chars (s : string) : list ascii := list_ascii_of_string s.

Definition is_code (c : ascii) (n : Z) : bool := PyStr.code c =? n.

(** An element of a translated pattern.  A class lists its ranges; a single
    character is the range from it to itself. *)
Inductive token : Type :=
  | TStar
  | TAny
  | TLit (c : ascii)
  | TClass (negated : bool) (ranges : list (ascii * ascii)).

(** Where the class opened by a bracket ends: the index in [r] (the text
    after the bracket) of the closing bracket, a bracket at the very start
    or after a leading [!] being an ordinary member. *)
Fixpoint find_from (n : Z) (i : nat) (r : list ascii) : option nat :=
  match r with
  | [] => None
  | c :: r' => if is_code c n then Some i else find_from n (S i) r'
  end.

Definition find_at (n : Z) (from : nat) (r : list ascii) : option nat :=
  find_from n from (skipn from r).

Definition class_end (r : list ascii) : option nat :=
  let j := match r with c :: _ => if is_code c 33 then 1%nat else 0%nat | [] => 0%nat end in
  let j := match nth_error r j with
           | Some c => if is_code c 93 then S j else j
           | None => j
           end in
  find_at 93 j r.

(** The chunks between the hyphens that stand for ranges: the search for
    the next hyphen resumes three places after the last one. *)
Fixpoint chunks_from (fuel : nat) (stuff : list ascii) (i k : nat) :
    list (list ascii) :=
  match fuel with
  | O => []
  | S fuel' =>
      match find_at 45 k stuff with
      | Some k' =>
          firstn (k' - i) (skipn i stuff) :: chunks_from fuel' stuff (S k') (k' + 3)
      | None => [skipn i stuff]
      end
  end.

(** A hyphen at the very end is an ordinary member of the chunk before. *)
Fixpoint fix_last (cs : list (list ascii)) : list (list ascii) :=
  match cs with
  | [] => []
  | [c] => [c]
  | [c; []] => [(c ++ [PyStr.chr 45])%list]
  | c :: rest => c :: fix_last rest
  end.

Definition last_gt_first (a b : list ascii) : bool :=
  match rev a, b with
  | x :: _, y :: _ => PyStr.code y <? PyStr.code x
  | _, _ => false
  end.

(** Remove the empty ranges, from the last junction to the first. *)
Fixpoint merge_empty (cs : list (list ascii)) : list (list ascii) :=
  match cs with
  | [] => []
  | c :: rest =>
      match merge_empty rest with
      | [] => [c]
      | d :: rest' =>
          if last_gt_first c d then (removelast c ++ tl d)%list :: rest'
          else c :: d :: rest'
      end
  end.

Definition singles (s : list ascii) : list (ascii * ascii) :=
  map (fun c => (c, c)) s.

(** The ranges of the chunks: the junction of two chunks is the range from
    the last character of the one to the first of the other. *)
Fixpoint ranges_from (cur : list ascii) (rest : list (list ascii)) :
    list (ascii * ascii) :=
  match rest with
  | [] => singles cur
  | d :: rest' =>
      match rev cur, d with
      | lo :: c', hi :: d' =>
          (singles (rev c') ++ (lo, hi) :: ranges_from d' rest')%list
      | _, _ => (singles cur ++ ranges_from d rest')%list
      end
  end.

Definition ranges_of (cs : list (list ascii)) : list (ascii * ascii) :=
  match cs with
  | [] => []
  | c :: rest => ranges_from c rest
  end.

Definition class_of (stuff : list ascii) : token :=
  let cs :=
    match find_at 45 0 stuff with
    | None => [stuff]
    | Some _ =>
        let k := match stuff with
                 | c :: _ => if is_code c 33 then 2%nat else 1%nat
                 | [] => 1%nat
                 end in
        merge_empty (fix_last (chunks_from (S (length stuff)) stuff 0 k))
    end in
  match cs with
  | (c :: first) :: rest =>
      if is_code c 33 then TClass true (ranges_of (first :: rest))
      else TClass false (ranges_of cs)
  | _ => TClass false (ranges_of cs)
  end.

(** [fnmatch.translate], as a list of tokens. *)
Fixpoint translate (fuel : nat) (pat : list ascii) : list token :=
  match fuel with
  | O => []
  | S fuel' =>
      match pat with
      | [] => []
      | c :: rest =>
          if is_code c 42 then TStar :: translate fuel' rest
          else if is_code c 63 then TAny :: translate fuel' rest
          else if is_code c 91 then
            match class_end rest with
            | None => TLit c :: translate fuel' rest
            | Some j => class_of (firstn j rest) :: translate fuel' (skipn (S j) rest)
            end
          else TLit c :: translate fuel' rest
      end
  end.

Definition in_range (c : ascii) (r : ascii * ascii) : bool :=
  (PyStr.code (fst r) <=? PyStr.code c) && (PyStr.code c <=? PyStr.code (snd r)).

Definition token_matches (t : token) (c : ascii) : bool :=
  match t with
  | TStar | TAny => true
  | TLit c' => Ascii.eqb c c'
  | TClass negated ranges => xorb negated (existsb (in_range c) ranges)
  end.

(** The whole name against the tokens. *)
Fixpoint matches (ts : list token) (name : list ascii) : bool :=
  match ts with
  | [] => match name with [] => true | _ => false end
  | TStar :: ts' =>
      (fix star (name : list ascii) : bool :=
         matches ts' name
         || match name with
            | [] => false
            | _ :: name' => star name'
            end) name
  | t :: ts' =>
      match name with
      | [] => false
      | c :: name' => token_matches t c && matches ts' name'
      end
  end.

(** [fnmatch.fnmatchcase(name, pat)] *)
Definition fnmatchcase (name pat : string) : bool :=
  matches (translate (S (String.length pat)) (chars pat)) (chars name).

End Fnmatch.

(** ** [glob] *)

Module Glob.

(** [glob.has_magic] *)
Definition has_magic (s : string) : bool :=
  existsb (fun c => Fnmatch.is_code c 42 || Fnmatch.is_code c 63 || Fnmatch.is_code c 91)
          (Fnmatch.chars s).

(** [glob._ishidden] *)
Definition ishidden (s : string) : bool :=
  match s with
  | String c _ => Fnmatch.is_code c 46
  | EmptyString => false
  end.

Fixpoint ends_with_slash (s : string) : bool :=
  match s with
  | EmptyString => false
  | String c EmptyString => Ascii.eqb c PurePath.slash
  | String _ s' => ends_with_slash s'
  end.

(** [os.path.join(a, b)] for a relative [b] *)
Definition join (a b : string) : string :=
  if String.eqb a "" then b
  else if ends_with_slash a then a ++ b
  else a ++ "/" ++ b.

(** [glob._glob1]: the entries of [dirname] that match the pattern; the
    hidden ones only for a pattern that starts with a dot. *)
Definition glob1 (fs : FS.t) (dirname pattern : string) (dironly : bool) :
    list string :=
  let names := FS.iterdir fs dirname dironly in
  let names :=
    if ishidden pattern then names
    else List.filter (fun x => negb (ishidden x)) names in
  List.filter (fun x => Fnmatch.fnmatchcase x pattern) names.

(** [glob._glob0]: the one entry of that name, if it exists. *)
Definition glob0 (fs : FS.t) (dirname basename : string) : list string :=
  if FS.exists_ fs (PurePath.parse (join dirname basename)) then [basename]
  else [].

(** [os.path.split] gives the directory part of the path of root [r] and
    names [rev rdir ++ [basename]]. *)
Definition dirname_of (r : string) (rdir : list string) : string :=
  match rdir with
  | [] => r
  | _ => PurePath.str (PurePath.mk r (rev rdir))
  end.

(** [glob._iglob] on the text of the path of root [r] and names
    [rev rparts]: a directory part with wildcards is expanded first, and
    the last name is looked for in every directory found. *)
Fixpoint iglob (fs : FS.t) (r : string) (rparts : list string) (dironly : bool) :
    list string :=
  let pathname := PurePath.str (PurePath.mk r (rev rparts)) in
  if negb (has_magic pathname) then
    if FS.exists_ fs (PurePath.mk r (rev rparts)) then [pathname] else []
  else
    match rparts with
    | [] => []
    | basename :: rdir =>
        let dirname := dirname_of r rdir in
        if String.eqb dirname "" then glob1 fs "." basename dironly
        else
          let dirs :=
            if has_magic dirname then iglob fs r rdir true else [dirname] in
          flat_map
            (fun d =>
               map (join d)
                   (if has_magic basename then glob1 fs d basename dironly
                    else glob0 fs d basename))
            dirs
    end.

(** [glob.glob(str(p))] *)
Definition glob (fs : FS.t) (p : PurePath.t) : list string :=
  iglob fs (PurePath.root p) (rev (PurePath.parts p)) false.

End Glob.

(** ** JSON values and [json.dumps] *)

#[local] Unset Elimination Schemes.

(** A JSON-serializable Python value.  A [dict] lists its items in insertion
    order and has string keys; a [float] is an IEEE 754 binary64 number. *)
Inductive json : Type :=
  | JNull
  | JBool (b : bool)
  | JInt (z : Z)
  | JFloat (f : spec_float)
  | JStr (s : string)
  | JList (l : list json)
  | JDict (items : list (string * json)).

#[local] Set Elimination Schemes.

(** A dictionary: its items in insertion order. *)
Definition dict : Type := list (string * json).

Module PyDict.

(** [d[k]]: the value of the first item with key [k]. *)
Fixpoint get {A} (d : list (string * A)) (k : string) : option A :=
  match d with
  | [] => None
  | (k', v) :: rest => if String.eqb k' k then Some v else get rest k
  end.

Definition keys {A} (d : list (string * A)) : list string := map fst d.

(** Insert [x] before the first item whose key is not smaller: sorting by
    repeated insertion from the right is stable, as Python's [sorted]. *)
Fixpoint insert_item {A} (x : string * A) (l : list (string * A)) :
    list (string * A) :=
  match l with
  | [] => [x]
  | y :: rest =>
      if String.ltb (fst y) (fst x) then y :: insert_item x rest
      else x :: y :: rest
  end.

(** [sorted(d.items())], for a dictionary (whose keys are distinct, so
    that the comparison of two items is decided by their keys). *)
Definition sorted_items {A} (d : list (string * A)) : list (string * A) :=
  fold_right insert_item [] d.

End PyDict.

(** Python's truth value of a JSON-serializable value. *)
Definition truthy (v : json) : bool :=
match v with
| JNull => false
| JBool b => b
| JInt z => negb (z =? 0)
| JFloat (S754_zero _) => false
| JFloat _ => true
| JStr s => negb (String.eqb s "")
| JList [] => false
| JList _ => true
| JDict [] => false
| JDict _ => true
end.

Module JsonEncoder.

Definition newline : string := String (PyStr.chr 10) "".

(** One character of [json.encoder.py_encode_basestring_ascii]. *)
Definition escape_char (c : ascii) : string :=
  let n := PyStr.code c in
  if n =? 34 then "\" ++ String c ""
  else if n =? 92 then "\\"
  else if n =? 10 then "\n"
  else if n =? 13 then "\r"
  else if n =? 9 then "\t"
  else if n =? 12 then "\f"
  else if n =? 8 then "\b"
  else if (32 <=? n) && (n <=? 126) then String c ""
  else "\u" ++ PyStr.hex4 n.

Fixpoint escape (s : string) : string :=
  match s with
  | EmptyString => ""
  | String c s' => escape_char c ++ escape s'
  end.

Definition encode_string (s : string) : string :=
  String (PyStr.chr 34) (escape s ++ String (PyStr.chr 34) "").

(** ['\n' + ' ' * (indent * level)] *)
Definition newline_indent (indent level : nat) : string :=
  newline ++ PyStr.repeat (indent * level) " ".

(** A list or dictionary whose items are already rendered. *)
Definition container (open close : string) (indent : option nat)
    (level : nat) (items : list string) : string :=
  match items with
  | [] => open ++ close
  | _ =>
      match indent with
      | None => open ++ PyStr.join ", " items ++ close
      | Some n =>
          open ++ newline_indent n (S level)
               ++ PyStr.join ("," ++ newline_indent n (S level)) items
               ++ newline_indent n level ++ close
      end
  end.

Definition render_item (kv : string * string) : string :=
  encode_string (fst kv) ++ ": " ++ snd kv.

End JsonEncoder.

(** [json.encoder]'s [floatstr] with the default [allow_nan=True]. *)
Definition floatstr (f : spec_float) : string :=
  match f with
  | S754_nan => "NaN"
  | S754_infinity false => "Infinity"
  | S754_infinity true => "-Infinity"
  | _ => PyFloat.float_repr f
  end.

(** [json.dumps(v, sort_keys=sort_keys, indent=indent)] at nesting depth
    [level].  The items of a dictionary are rendered, then put in key
    order: a rendering does not depend on the position of its item, so
    this is the text the encoder yields from the sorted items. *)
Fixpoint dumps_at (sort_keys : bool) (indent : option nat) (level : nat)
    (v : json) : string :=
  match v with
  | JNull => "null"
  | JBool true => "true"
  | JBool false => "false"
  | JInt z => PyStr.of_int z
  | JFloat f => floatstr f
  | JStr s => JsonEncoder.encode_string s
  | JList l =>
      JsonEncoder.container "[" "]" indent level
        (map (dumps_at sort_keys indent (S level)) l)
  | JDict items =>
      let rendered :=
        map (fun kv => (fst kv, dumps_at sort_keys indent (S level) (snd kv)))
            items in
      JsonEncoder.container "{" "}" indent level
        (map JsonEncoder.render_item
             (if sort_keys then PyDict.sorted_items rendered else rendered))
  end.

Definition dumps (sort_keys : bool) (indent : option nat) (v : json) : string :=
  dumps_at sort_keys indent 0 v.

(** [hash_8 = lambda x: str(int(hashlib.sha256(str(json.dumps(x,
    sort_keys=True)).encode('utf-8')).hexdigest(), base=16))[:8]] *)
Definition hash_8 (x : json) : result string :=
  match PyStr.int16 (SHA256.hexdigest (dumps true None x)) with
  | Some n => Ok (PyStr.take 8 (PyStr.of_int n))
  | None => Raise (ValueError "invalid literal for int() with base 16")
  end.


(** ** [pandas]: the part of a data frame the callback uses

    The metrics log is written by Keras' [CSVLogger]: a header of distinct
    column names, then one row of numbers per epoch.  [read_csv] gives the
    frame of these rows, a missing value read as NaN. *)

Module Pandas.

Record DataFrame := mk { columns : list string; rows : list (list spec_float) }.

(** The log file as it stands on disk. *)
Inductive csv_source : Type :=
  | NoFile
  | CsvText (header : list string) (lines : list (list spec_float)).

Definition pad_row (n : nat) (r : list spec_float) : list spec_float :=
  firstn n (r ++ List.repeat S754_nan n)%list.

(** [pd.read_csv(path)]: a file without a header line has no columns to
    parse. *)
Definition read_csv (path : string) (src : csv_source) : result DataFrame :=
  match src with
  | NoFile => Raise (FS.not_found path)
  | CsvText [] _ => Raise (EmptyDataError "No columns to parse from file")
  | CsvText header lines =>
      Ok (mk header (map (pad_row (length header)) lines))
  end.

Fixpoint index_of (c : string) (cols : list string) : option nat :=
  match cols with
  | [] => None
  | c' :: rest =>
      if String.eqb c' c then Some O
      else match index_of c rest with Some i => Some (S i) | None => None end
  end.

Definition cell (i : nat) (r : list spec_float) : spec_float := nth i r S754_nan.

(** [df[c]]: the values of the column *)
Definition getitem (df : DataFrame) (c : string) : result (list spec_float) :=
  match index_of c (columns df) with
  | Some i => Ok (map (cell i) (rows df))
  | None => Raise (KeyError c)
  end.

Fixpoint set_cell (i : nat) (x : spec_float) (r : list spec_float) : list spec_float :=
  match i, r with
  | O, _ :: r' => x :: r'
  | S i', y :: r' => y :: set_cell i' x r'
  | _, [] => []
  end.

(** [df[c] = x] for a scalar [x]: the column is overwritten, or added after
    the others. *)
Definition setitem (df : DataFrame) (c : string) (x : spec_float) : DataFrame :=
  match index_of c (columns df) with
  | Some i => mk (columns df) (map (set_cell i x) (rows df))
  | None => mk (columns df ++ [c])%list (map (fun r => r ++ [x])%list (rows df))
  end.

Definition min_step (acc : option spec_float) (x : spec_float) : option spec_float :=
  if PyFloat.is_nan x then acc
  else
    match acc with
    | None => Some x
    | Some a => if SFltb x a then Some x else Some a
    end.

(** [series.min()]: NaN is skipped; the minimum of no number is NaN. *)
Definition series_min (vals : list spec_float) : spec_float :=
  match fold_left min_step vals None with
  | Some m => m
  | None => S754_nan
  end.

(** [series == x] *)
Definition series_eq (vals : list spec_float) (x : spec_float) : list bool :=
  map (fun v => SFeqb v x) vals.

Fixpoint select {A} (l : list A) (mask : list bool) : list A :=
  match l, mask with
  | x :: l', b :: mask' => if b then x :: select l' mask' else select l' mask'
  | _, _ => []
  end.

(** [df[mask]] *)
Definition getitem_mask (df : DataFrame) (mask : list bool) : DataFrame :=
  mk (columns df) (select (rows df) mask).

(** The records [df.to_json(orient='records')] serializes: one per row,
    from column name to value. *)
Definition records (df : DataFrame) : list (list (string * spec_float)) :=
  map (fun r => combine (columns df) r) (rows df).

End Pandas.

(** ** The program's state and its commands *)

(** What the program leaves outside itself: the file system and the lines
    it printed. *)
Record World := mkWorld { fs : FS.t; stdout : list string }.

Record datetime := mkDatetime {
  year : Z; month : Z; day : Z; hour : Z; minute : Z; second : Z }.

(** What the clocks say during a call: [datetime.datetime.now()] and the
    time stamp given to what the call creates or writes. *)
Record Clock := mkClock { now : datetime; timestamp : Z }.

(** A command of an object in state [S]: it may change the object and the
    world, and returns or raises. *)
Definition Py (S A : Type) : Type := S -> World -> result A * S * World.

Definition ret {S A} (a : A) : Py S A := fun s w => (Ok a, s, w).

Definition raise {S A} (e : exn) : Py S A := fun s w => (Raise e, s, w).

Definition bind {S A B} (m : Py S A) (k : A -> Py S B) : Py S B :=
  fun s w =>
    match m s w with
    | (Ok a, s', w') => k a s' w'
    | (Raise e, s', w') => (Raise e, s', w')
    end.

Declare Scope py_scope.
Delimit Scope py_scope with py.
Notation "x <- m ;; k" := (bind m (fun x => k))
  (at level 100, m at next level, right associativity) : py_scope.
Notation "m ;; k" := (bind m (fun _ => k))
  (at level 100, right associativity) : py_scope.

Definition lift {S A} (r : result A) : Py S A :=
  fun s w => (r, s, w).

Definition get_self {S} : Py S S := fun s w => (Ok s, s, w).

Definition set_self {S} (s' : S) : Py S unit := fun _ w => (Ok tt, s', w).

Definition get_fs {S} : Py S FS.t := fun s w => (Ok (fs w), s, w).

(** A file system operation. *)
Definition on_fs {S A} (op : FS.t -> result A * FS.t) : Py S A :=
  fun s w =>
    let '(r, fs') := op (fs w) in
    (r, s, mkWorld fs' (stdout w)).

(** [print(line)] *)
Definition print {S} (line : string) : Py S unit :=
  fun s w => (Ok tt, s, mkWorld (fs w) (stdout w ++ [line])%list).

Local Open Scope py_scope.

(** ** [WriteBestPerformances] *)

Record WriteBestPerformances := mkWriteBestPerformances {
  csv_path : string;
  output_path : string;
  watched_metric : string;
  start : option spec_float }.

Module BestPerformances.

(** [__init__(self, csv_path, output_path, watched_metric='loss')]; the
    attribute [start] does not exist yet. *)
Definition init (csv_path output_path : string) (watched_metric : option string) :
    WriteBestPerformances :=
  mkWriteBestPerformances csv_path output_path
    (match watched_metric with Some m => m | None => "loss" end) None.

(** [on_train_begin]: [self.start = timer()] *)
Definition on_train_begin (timer : spec_float) (self : WriteBestPerformances) :
    WriteBestPerformances :=
  mkWriteBestPerformances (csv_path self) (output_path self) (watched_metric self)
    (Some timer).

(** [on_train_end], with the reading [timer] of the clock and the log file
    [log] found at [self.csv_path].  The result is the path and the frame
    handed to [to_json(self.output_path, orient='records')]. *)
Definition on_train_end (timer : spec_float) (log : Pandas.csv_source)
    (self : WriteBestPerformances) : result (string * Pandas.DataFrame) :=
  match start self with
  | None =>
      Raise (AttributeError "'WriteBestPerformances' object has no attribute 'start'")
  | Some t0 =>
      let elapsed := SFsub 53 1024 timer t0 in
      match Pandas.read_csv (csv_path self) log with
      | Raise e => Raise e
      | Ok df =>
          let df := Pandas.setitem df "elapsed" elapsed in
          match Pandas.getitem df (watched_metric self) with
          | Raise e => Raise e
          | Ok col =>
              let min_loss_index := Pandas.series_eq col (Pandas.series_min col) in
              Ok (output_path self, Pandas.getitem_mask df min_loss_index)
          end
      end
  end.

End BestPerformances.

(** The callbacks [prepare] returns, each with the arguments it was built
    from. *)
Inductive callback : Type :=
  | CSVLogger (filename separator : string) (append : bool)
  | ModelCheckpoint (filepath : string) (save_best_only : bool) (kwargs : dict)
  | BestPerformancesCallback (cb : WriteBestPerformances).

(** ** [ExperimentManager] *)

Record ExperimentManager := mkExperimentManager {
  params : option dict;
  base_experiment_path : string;
  run_path : option PurePath.t;
  run_id : option string;
  experiment_id_folder : option string;
  monitored_param_keys : list string;
  checkpoint_params : dict }.

Definition with_params (self : ExperimentManager) (v : option dict) :=
  mkExperimentManager v (base_experiment_path self) (run_path self) (run_id self)
    (experiment_id_folder self) (monitored_param_keys self) (checkpoint_params self).

Definition with_run_path (self : ExperimentManager) (v : option PurePath.t) :=
  mkExperimentManager (params self) (base_experiment_path self) v (run_id self)
    (experiment_id_folder self) (monitored_param_keys self) (checkpoint_params self).

Definition with_run_id (self : ExperimentManager) (v : option string) :=
  mkExperimentManager (params self) (base_experiment_path self) (run_path self) v
    (experiment_id_folder self) (monitored_param_keys self) (checkpoint_params self).

Definition with_experiment_id_folder (self : ExperimentManager) (v : option string) :=
  mkExperimentManager (params self) (base_experiment_path self) (run_path self)
    (run_id self) v (monitored_param_keys self) (checkpoint_params self).

(** [__init__(self, exp_base_dir=None, monitored_param_keys=['model',
    'training'], checkpoint_params=None)] *)
Definition init (exp_base_dir : option string)
    (monitored_param_keys : option (list string))
    (checkpoint_params : option dict) : ExperimentManager :=
  mkExperimentManager None
    (match exp_base_dir with None => "experiments" | Some d => d end)
    None None None
    (match monitored_param_keys with None => ["model"; "training"] | Some ks => ks end)
    (match checkpoint_params with
     | None => [("mode", JStr "auto"); ("monitor", JStr "val_loss")]
     | Some cp => cp
     end).

(** [d[k]] on what may be [None] *)
Definition subscript (d : option dict) (k : string) : result json :=
  match d with
  | None => Raise (TypeError "'NoneType' object is not subscriptable")
  | Some items =>
      match PyDict.get items k with
      | Some v => Ok v
      | None => Raise (KeyError k)
      end
  end.

(** [supposed_run = Path(self.base_experiment_path) / experiment_id_folder
    / run_id_folder] *)
Definition supposed_run_path (self : ExperimentManager)
    (experiment_id_folder run_id_folder : string) : PurePath.t :=
  PurePath.truediv
    (PurePath.truediv (PurePath.parse (base_experiment_path self)) experiment_id_folder)
    run_id_folder.

(** [max(paths, key=os.path.getmtime)]: the first path of the greatest
    modification time. *)
Fixpoint max_by_mtime (fs : FS.t) (best : string) (best_key : Z)
    (paths : list string) : result string :=
  match paths with
  | [] => Ok best
  | p :: rest =>
      match FS.getmtime fs p with
      | Raise e => Raise e
      | Ok k =>
          if best_key <? k then max_by_mtime fs p k rest
          else max_by_mtime fs best best_key rest
      end
  end.

Definition latest (fs : FS.t) (paths : list string) : result string :=
  match paths with
  | [] => Raise (ValueError "max() arg is an empty sequence")
  | p :: rest =>
      match FS.getmtime fs p with
      | Raise e => Raise e
      | Ok k => max_by_mtime fs p k rest
      end
  end.

Definition resume_run (experiment_id_folder run_id_folder : string) :
    Py ExperimentManager string :=
  self <- get_self ;;
  let supposed_run := supposed_run_path self experiment_id_folder run_id_folder in
  fs <- get_fs ;;
  if FS.exists_ fs supposed_run then
    set_self (with_run_id self (Some run_id_folder)) ;;
    self <- get_self ;;
    set_self (with_experiment_id_folder self (Some experiment_id_folder)) ;;
    latest_checkpoint <-
      lift (latest fs
              (Glob.glob fs
                 (PurePath.truediv (PurePath.truediv supposed_run "models") "*"))) ;;
    print ("Latest checkpoint is: " ++ latest_checkpoint) ;;
    ret latest_checkpoint
  else
    raise (FileNotFoundError FS.ENOENT FS.strerror_ENOENT (PurePath.str supposed_run)).

(** The loop of [get_experiment_id]: [id_hash += '-{}'.format(hash_8(
    self.params[k]))] for every monitored key. *)
Fixpoint hash_keys (params : option dict) (keys : list string) (id_hash : string) :
    result string :=
  match keys with
  | [] => Ok id_hash
  | k :: rest =>
      match subscript params k with
      | Raise e => Raise e
      | Ok v =>
          match hash_8 v with
          | Raise e => Raise e
          | Ok h => hash_keys params rest (id_hash ++ "-" ++ h)
          end
      end
  end.

Definition get_experiment_id (self : ExperimentManager) : result string :=
  match experiment_id_folder self with
  | None =>
      match hash_keys (params self) (monitored_param_keys self) "" with
      | Raise e => Raise e
      | Ok id_hash => Ok ("exp-" ++ id_hash)
      end
  | Some folder => Ok folder
  end.

(** [d.strftime('%y-%m-%d--%H-%M')] *)
Definition strftime (d : datetime) : string :=
  PyStr.zero_pad 2 (year d mod 100) ++ "-" ++ PyStr.zero_pad 2 (month d) ++ "-"
    ++ PyStr.zero_pad 2 (day d) ++ "--" ++ PyStr.zero_pad 2 (hour d) ++ "-"
    ++ PyStr.zero_pad 2 (minute d).

Definition get_run_id (clk : Clock) (self : ExperimentManager) : string :=
  match run_id self with
  | Some id => id
  | None => "run--" ++ strftime (now clk)
  end.

(** [self.run_path / name], which needs [self.run_path] to be a path. *)
Definition under_run_path (self : ExperimentManager) (name : string) :
    result PurePath.t :=
  match run_path self with
  | Some p => Ok (PurePath.truediv p name)
  | None =>
      Raise (TypeError "unsupported operand type(s) for /: 'NoneType' and 'str'")
  end.

Definition get_log_error_path (self : ExperimentManager) := under_run_path self "errors.log".

Definition get_csv_path (self : ExperimentManager) := under_run_path self "training-logs.csv".

Definition get_best_model_path (self : ExperimentManager) := under_run_path self "models".

Definition get_param_path (self : ExperimentManager) := under_run_path self "hyperparameters.json".

Definition get_best_perf_path (self : ExperimentManager) := under_run_path self "performances.json".

Definition get_debug_path (self : ExperimentManager) : PurePath.t :=
  PurePath.truediv (PurePath.parse (base_experiment_path self)) "debug".

Definition get_run_path (clk : Clock) (self : ExperimentManager) : result PurePath.t :=
  match get_experiment_id self with
  | Raise e => Raise e
  | Ok exp_id =>
      let run_id := get_run_id clk self in
      Ok (PurePath.truediv
            (PurePath.truediv (PurePath.parse (base_experiment_path self)) exp_id)
            run_id)
  end.

(** What [json.dump(self.params, ...)] is given. *)
Definition params_json (self : ExperimentManager) : json :=
  match params self with
  | Some d => JDict d
  | None => JNull
  end.

Definition write_parameters (clk : Clock) : Py ExperimentManager unit :=
  self <- get_self ;;
  match experiment_id_folder self with
  | None =>
      path <- lift (get_param_path self) ;;
      on_fs (fun fs =>
               FS.write_file fs (timestamp clk) path
                 (dumps true (Some 2%nat) (params_json self)))
  | Some _ => ret tt
  end.

Definition make_experiment_path (clk : Clock) : Py ExperimentManager unit :=
  self <- get_self ;;
  debug <- lift (subscript (params self) "debug") ;;
  run_path' <- lift (if truthy debug then Ok (get_debug_path self)
                     else get_run_path clk self) ;;
  on_fs (fun fs => FS.mkdir fs (timestamp clk) run_path') ;;
  fs <- get_fs ;;
  let resolved := FS.resolve fs run_path' in
  set_self (with_run_path self (Some resolved)) ;;
  self <- get_self ;;
  print ("Now everything is happening in " ++ PurePath.str resolved) ;;
  models <- lift (get_best_model_path self) ;;
  on_fs (fun fs => FS.mkdir fs (timestamp clk) models) ;;
  write_parameters clk.

(** [self.params = OrderedDict(params)] *)
Definition set_parameter_files (params : dict) : Py ExperimentManager unit :=
  self <- get_self ;;
  set_self (with_params self (Some params)).

(** ['model.{epoch:02d}-{' + monitor + ':.4f}.hdf5'] *)
Definition template_path (self : ExperimentManager) : result string :=
  match PyDict.get (checkpoint_params self) "monitor" with
  | None => Raise (KeyError "monitor")
  | Some (JStr monitor) => Ok ("model.{epoch:02d}-{" ++ monitor ++ ":.4f}.hdf5")
  | Some _ => Raise (TypeError "can only concatenate str to str")
  end.

(** [ModelCheckpoint(filepath=filepath, save_best_only=True, **kwargs)]: a
    keyword may be given once. *)
Definition model_checkpoint (filepath : string) (kwargs : dict) : result callback :=
  if existsb (fun k => String.eqb k "filepath" || String.eqb k "save_best_only")
             (PyDict.keys kwargs)
  then Raise (TypeError "got multiple values for keyword argument")
  else Ok (ModelCheckpoint filepath true kwargs).

Definition prepare (clk : Clock) (params : dict) : Py ExperimentManager (list callback) :=
  set_parameter_files params ;;
  make_experiment_path clk ;;
  self <- get_self ;;
  csv <- lift (get_csv_path self) ;;
  let csv_callback := CSVLogger (PurePath.str csv) "," true in
  template <- lift (template_path self) ;;
  models <- lift (get_best_model_path self) ;;
  model_callback <-
    lift (model_checkpoint (PurePath.str (PurePath.truediv models template))
                           (checkpoint_params self)) ;;
  csv' <- lift (get_csv_path self) ;;
  perf <- lift (get_best_perf_path self) ;;
  let best_performances :=
    BestPerformancesCallback
      (BestPerformances.init (PurePath.str csv') (PurePath.str perf) None) in
  ret [csv_callback; model_callback; best_performances].

(** ** Notions the properties are stated with *)

Fixpoint distinct (ks : list string) : bool :=
  match ks with
  | [] => true
  | k :: rest => negb (existsb (String.eqb k) rest) && distinct rest
  end.

(** The keys of every dictionary are distinct, as in any Python [dict]. *)
Fixpoint well_formed (v : json) : bool :=
  match v with
  | JList l => forallb well_formed l
  | JDict items =>
      distinct (PyDict.keys items)
      && forallb (fun kv => well_formed (snd kv)) items
  | _ => true
  end.

Definition float_same (x y : spec_float) : bool :=
  match x, y with
  | S754_zero a, S754_zero b => Bool.eqb a b
  | S754_infinity a, S754_infinity b => Bool.eqb a b
  | S754_nan, S754_nan => true
  | S754_finite s m e, S754_finite s' m' e' =>
      Bool.eqb s s' && Pos.eqb m m' && Z.eqb e e'
  | _, _ => false
  end.

(** The same value whatever the order of the keys: two dictionaries are
    the same when they have as many items and every key of the one has the
    same value in the other.  Values of different types are different
    here: an [int] is not a [float]. *)
Fixpoint same_value (a b : json) : bool :=
  match a, b with
  | JNull, JNull => true
  | JBool x, JBool y => Bool.eqb x y
  | JInt x, JInt y => x =? y
  | JFloat x, JFloat y => float_same x y
  | JStr x, JStr y => String.eqb x y
  | JList l1, JList l2 =>
      (fix all2 (l1 l2 : list json) : bool :=
         match l1, l2 with
         | [], [] => true
         | x :: l1', y :: l2' => same_value x y && all2 l1' l2'
         | _, _ => false
         end) l1 l2
  | JDict d1, JDict d2 =>
      Nat.eqb (length d1) (length d2)
      && forallb (fun kv =>
                    match PyDict.get d2 (fst kv) with
                    | Some v' => same_value (snd kv) v'
                    | None => false
                    end) d1
  | _, _ => false
  end.

(** Two configurations agree on the monitored keys: each key has the same
    value in both, or is in neither. *)
Definition agree_on (keys : list string) (c1 c2 : dict) : bool :=
  forallb (fun k =>
             match PyDict.get c1 k, PyDict.get c2 k with
             | Some v1, Some v2 =>
                 same_value v1 v2 && well_formed v1 && well_formed v2
             | None, None => true
             | _, _ => false
             end) keys.

(** Keys in strictly increasing order. *)
Inductive increasing {A} : list (string * A) -> Prop :=
  | increasing_nil : increasing []
  | increasing_cons x l :
      Forall (fun y => String.ltb (fst x) (fst y) = true) l ->
      increasing l -> increasing (x :: l).

(** The hash segments as the identifier strings them: each after a hyphen. *)
Definition hyphenated (segs : list string) : string :=
  fold_right (fun h s => "-" ++ h ++ s) "" segs.

(** [h] is the hash segment of the value [v]: the first 8 characters of the
    decimal writing of the SHA-256 digest of its key-sorted serialization. *)
Definition segment_of (v : json) (h : string) : Prop :=
  exists n, PyStr.int16 (SHA256.hexdigest (dumps true None v)) = Some n
            /\ h = PyStr.take 8 (PyStr.of_int n).

Definition has_key (d : dict) (k : string) : bool :=
  match PyDict.get d k with Some _ => true | None => false end.

(** Every entry of [m] is still there in [m'], a directory still a
    directory and a file still a file. *)
Definition extends (m m' : FS.store) : Prop :=
  forall l n, m !! l = Some n ->
    exists n', m' !! l = Some n' /\ FS.is_dir_node n' = FS.is_dir_node n.

(** The two stores hold the same files, with the same contents and times. *)
Definition same_files (m m' : FS.store) : Prop :=
  forall l c t, m !! l = Some (FS.File c t) <-> m' !! l = Some (FS.File c t).

(** The file system [fs'] is [fs] with more or newer entries. *)
Definition grows (fs fs' : FS.t) : Prop :=
  extends (FS.nodes fs) (FS.nodes fs') /\ FS.cwd fs' = FS.cwd fs.

Definition same_minute (a b : datetime) : bool :=
  (year a =? year b) && (month a =? month b) && (day a =? day b)
  && (hour a =? hour b) && (minute a =? minute b).

(** The directory [make_experiment_path] works in. *)
Definition chosen_run_path (clk : Clock) (self : ExperimentManager) :
    result PurePath.t :=
  match subscript (params self) "debug" with
  | Raise e => Raise e
  | Ok debug =>
      if truthy debug then Ok (get_debug_path self) else get_run_path clk self
  end.

(** The callbacks [prepare] builds once the directories are made. *)
Definition callbacks_of (self : ExperimentManager) : result (list callback) :=
  match get_csv_path self with
  | Raise e => Raise e
  | Ok csv =>
      match template_path self with
      | Raise e => Raise e
      | Ok template =>
          match get_best_model_path self with
          | Raise e => Raise e
          | Ok models =>
              match model_checkpoint
                      (PurePath.str (PurePath.truediv models template))
                      (checkpoint_params self) with
              | Raise e => Raise e
              | Ok model_callback =>
                  match get_best_perf_path self with
                  | Raise e => Raise e
                  | Ok perf =>
                      Ok [ CSVLogger (PurePath.str csv) "," true;
                           model_callback;
                           BestPerformancesCallback
                             (BestPerformances.init (PurePath.str csv)
                                (PurePath.str perf) None) ]
                  end
              end
          end
      end
  end.

(** What [make_experiment_path] prints. *)
Definition notice (p : PurePath.t) : string :=
  "Now everything is happening in " ++ PurePath.str p.

(** [v] is a least number among [vals]: it is a number, and none of the
    numbers of [vals] is below it. *)
Definition is_least (vals : list spec_float) (v : spec_float) : bool :=
  negb (PyFloat.is_nan v)
  && forallb (fun x => PyFloat.is_nan x || SFleb v x) vals.

(** The frame [on_train_end] works on: the log with the elapsed time in
    every row. *)
Definition with_elapsed (header : list string) (lines : list (list spec_float))
    (elapsed : spec_float) : Pandas.DataFrame :=
  Pandas.setitem
    (Pandas.mk header (map (Pandas.pad_row (length header)) lines))
    "elapsed" elapsed.

(** The first of [keys] that the dictionary [d] does not have. *)
Fixpoint first_missing (d : dict) (keys : list string) : option string :=
  match keys with
  | [] => None
  | k :: rest => if has_key d k then first_missing d rest else Some k
  end.

Definition is_digit (c : ascii) : bool :=
  (48 <=? PyStr.code c) && (PyStr.code c <=? 57).

Definition all_digits (s : string) : bool :=
  forallb is_digit (list_ascii_of_string s).

(** The fields of a [datetime] are in the ranges Python gives them. *)
Definition valid_datetime (d : datetime) : bool :=
  (1 <=? year d) && (year d <=? 9999) && (1 <=? month d) && (month d <=? 12)
  && (1 <=? day d) && (day d <=? 31) && (0 <=? hour d) && (hour d <=? 23)
  && (0 <=? minute d) && (minute d <=? 59).

(** The same minute of the same day, in years that end in the same two
    digits. *)
Definition same_minute_of_century (a b : datetime) : bool :=
  (year a mod 100 =? year b mod 100) && (month a =? month b) && (day a =? day b)
  && (hour a =? hour b) && (minute a =? minute b).

(** [c] is the first of [paths] that has the greatest modification time:
    what comes before it is older, what comes after it is not newer. *)
Definition first_newest (fs : FS.t) (paths : list string) (c : string) : Prop :=
  exists l1 l2 t,
    paths = (l1 ++ c :: l2)%list
    /\ FS.getmtime fs c = Ok t
    /\ Forall (fun q => exists t', FS.getmtime fs q = Ok t' /\ t' < t) l1
    /\ Forall (fun q => exists t', FS.getmtime fs q = Ok t' /\ t' <= t) l2.

(** The methods that give a path under the run path. *)
Definition path_getters : list (ExperimentManager -> result PurePath.t) :=
  [get_log_error_path; get_csv_path; get_best_model_path; get_param_path;
   get_best_perf_path].

(** No character of [s] is a slash. *)
Definition no_slash (s : string) : bool :=
  forallb (fun c => negb (Ascii.eqb c PurePath.slash)) (list_ascii_of_string s).

(** ** Sample data *)

Module Sample.

Definition callback_t : Type := callback.

(** 0.001 *)
Definition lr : spec_float := S754_finite false 0x10624dd2f1a9fc (-62).

Definition config : dict :=
  [ ("debug", JBool false);
    ("training", JDict [("lr", JFloat lr); ("epochs", JInt 10)]);
    ("model", JDict [("units", JInt 64); ("act", JStr "relu")]) ].

(** The same configuration written in another order. *)
Definition config' : dict :=
  [ ("model", JDict [("act", JStr "relu"); ("units", JInt 64)]);
    ("comment", JStr "second try");
    ("training", JDict [("epochs", JInt 10); ("lr", JFloat lr)]);
    ("debug", JBool false) ].

Definition manager : ExperimentManager := init None None None.

Definition clock : Clock := mkClock (mkDatetime 2020 5 7 14 3 59) 100.

Definition later : Clock := mkClock (mkDatetime 2020 5 7 14 3 2) 130.

(** A home directory with nothing in it. *)
Definition empty_home : World :=
  mkWorld (FS.mk (list_to_map [(["home"], FS.Dir 1); (["u"; "home"], FS.Dir 1)])
                 ["u"; "home"]) [].

Definition dir_of (names : list string) : list string * FS.node :=
  (rev names, FS.Dir 1).

Definition file_of (names : list string) (content : string) (mtime : Z) :
    list string * FS.node :=
  (rev names, FS.File content mtime).

Definition run_name : string := "run--20-05-07--14-03".

(** A run made earlier, with two checkpoints and its parameters file. *)
Definition with_run : World :=
  mkWorld
    (FS.mk
       (list_to_map
          [ dir_of ["home"]; dir_of ["home"; "u"];
            dir_of ["home"; "u"; "experiments"];
            dir_of ["home"; "u"; "experiments"; "exp--1"];
            dir_of ["home"; "u"; "experiments"; "exp--1"; run_name];
            dir_of ["home"; "u"; "experiments"; "exp--1"; run_name; "models"];
            file_of ["home"; "u"; "experiments"; "exp--1"; run_name; "models";
                     "model.01-0.7000.hdf5"] "weights 1" 5;
            file_of ["home"; "u"; "experiments"; "exp--1"; run_name; "models";
                     "model.02-0.6000.hdf5"] "weights 2" 9;
            file_of ["home"; "u"; "experiments"; "exp--1"; run_name;
                     "hyperparameters.json"] "the original parameters" 2 ])
       ["u"; "home"])
    [].

(** A run directory [run[1]] whose [models] directory is empty, beside a
    run [run1] that has a checkpoint. *)
Definition with_bracket_run : World :=
  mkWorld
    (FS.mk
       (list_to_map
          [ dir_of ["home"]; dir_of ["home"; "u"];
            dir_of ["home"; "u"; "experiments"];
            dir_of ["home"; "u"; "experiments"; "exp--1"];
            dir_of ["home"; "u"; "experiments"; "exp--1"; "run[1]"];
            dir_of ["home"; "u"; "experiments"; "exp--1"; "run[1]"; "models"];
            dir_of ["home"; "u"; "experiments"; "exp--1"; "run1"];
            dir_of ["home"; "u"; "experiments"; "exp--1"; "run1"; "models"];
            file_of ["home"; "u"; "experiments"; "exp--1"; "run1"; "models";
                     "model.01-0.7000.hdf5"] "weights" 5 ])
       ["u"; "home"])
    [].

(** Numbers of a metrics log. *)
Definition f0_2 : spec_float := S754_finite false 0x1999999999999a (-55).
Definition f0_5 : spec_float := S754_finite false 0x10000000000000 (-53).
Definition f0_8 : spec_float := S754_finite false 0x1999999999999a (-53).
Definition f10 : spec_float := S754_finite false 0x14000000000000 (-49).
Definition f12_5 : spec_float := S754_finite false 0x19000000000000 (-49).
Definition f2_5 : spec_float := S754_finite false 0x14000000000000 (-51).

(** The log with rows [{loss: 0.5}, {loss: 0.2}, {loss: 0.2}, {loss: 0.8}]. *)
Definition log : Pandas.csv_source :=
  Pandas.CsvText ["loss"] [[f0_5]; [f0_2]; [f0_2]; [f0_8]].

(** A log with its header line and no row yet. *)
Definition header_only : Pandas.csv_source := Pandas.CsvText ["epoch"; "loss"] [].

Definition callback : WriteBestPerformances :=
  BestPerformances.init "training-logs.csv" "performances.json" None.

(** The callback once training has begun, at time 10.0. *)
Definition extractor : WriteBestPerformances :=
  BestPerformances.on_train_begin f10 callback.

(** The outcome of resuming the run made earlier. *)
Definition resumed : result string * ExperimentManager * World :=
  resume_run "exp--1" run_name manager with_run.

(** The outcome of a first [prepare] in the empty home directory. *)
Definition prepared : result (list callback_t) * ExperimentManager * World :=
  prepare clock config manager empty_home.

Definition callbacks : list callback_t :=
  match fst (fst prepared) with
  | Ok cbs => cbs
  | Raise _ => []
  end.

(** A configuration without the [training] entry. *)
Definition partial_config : dict :=
  [ ("debug", JBool false); ("model", JDict [("units", JInt 64)]) ].

(** A configuration for debugging, without the monitored keys. *)
Definition debug_config : dict := [ ("debug", JBool true) ].

(** The configuration [config] with the keys of every dictionary in
    another order. *)
Definition reordered_config : dict :=
  [ ("model", JDict [("act", JStr "relu"); ("units", JInt 64)]);
    ("training", JDict [("epochs", JInt 10); ("lr", JFloat lr)]);
    ("debug", JBool false) ].

(** A manager whose checkpoint parameters have no [monitor] entry. *)
Definition unmonitored : ExperimentManager :=
  init None None (Some [("mode", JStr "auto")]).

(** The callback that watches the elapsed time, once training has begun at
    time 10.0. *)
Definition elapsed_extractor : WriteBestPerformances :=
  BestPerformances.on_train_begin f10
    (BestPerformances.init "training-logs.csv" "performances.json" (Some "elapsed")).

(** A run directory [run1] whose [models] directory is empty. *)
Definition without_checkpoint : World :=
  mkWorld
    (FS.mk
       (list_to_map
          [ dir_of ["home"]; dir_of ["home"; "u"];
            dir_of ["home"; "u"; "experiments"];
            dir_of ["home"; "u"; "experiments"; "exp--1"];
            dir_of ["home"; "u"; "experiments"; "exp--1"; "run1"];
            dir_of ["home"; "u"; "experiments"; "exp--1"; "run1"; "models"] ])
       ["u"; "home"])
    [].

End Sample.

(** * Properties *)

Example sha256_empty :
SHA256.hexdigest "" =
"e3b0c44298fc1c149afbf4c8996fb92427ae41e4649b934ca495991b7852b855".
Proof. vm_compute. reflexivity. Qed.

Example sha256_abc :
SHA256.hexdigest "abc" =
"ba7816bf8f01cfea414140de5dae2223b00361a396177a9cb410ff61f20015ad".
Proof. vm_compute. reflexivity. Qed.

Example sha256_two_blocks :
SHA256.hexdigest "abcdbcdecdefdefgefghfghighijhijkijkljklmklmnlmnomnopnopq" =
"248d6a61d20638b8e5c026930c3e6039a33ce45964ff2167f6ecedd419db06c1".
Proof. vm_compute. reflexivity. Qed.



Example float_repr_samples :
  map PyFloat.float_repr
    [ S754_finite false 0x1999999999999a (-56);
      S754_finite false 0x1999999999999a (-55);
      S754_finite false 0x10000000000000 (-53);
      S754_finite true 0x14f8b588e368f1 (-69);
      S754_finite false 0x152d02c7e14af6 24;
      S754_finite false 0x10000000000001 (-2);
      S754_finite false 1 (-1074);
      S754_finite false 0x18000000000000 (-49) ]
  = [ "0.1"; "0.2"; "0.5"; "-1e-05"; "1e+23"; "1125899906842624.2";
      "5e-324"; "12.0" ].
Proof. vm_compute. reflexivity. Qed.

(** ** Strings and their order *)

Lemma append_assoc (a b c : string) : (a ++ b) ++ c = a ++ (b ++ c).
Proof. induction a as [|x a IH]; simpl; [reflexivity | now rewrite IH]. Qed.

Lemma append_nil_r (a : string) : a ++ "" = a.
Proof. induction a as [|x a IH]; simpl; [reflexivity | now rewrite IH]. Qed.

Lemma ascii_compare_N (a b : ascii) :
  Ascii.compare a b = N.compare (N_of_ascii a) (N_of_ascii b).
Proof. reflexivity. Qed.

Lemma ascii_compare_eq (a b : ascii) : Ascii.compare a b = Eq <-> a = b.
Proof.
  split.
  - apply Ascii.compare_eq_iff.
  - intros ->. rewrite ascii_compare_N. apply N.compare_refl.
Qed.

Lemma string_compare_refl (s : string) : String.compare s s = Eq.
Proof.
  induction s as [|c s IH]; simpl; [reflexivity|].
  now rewrite (proj2 (ascii_compare_eq c c) eq_refl).
Qed.

Lemma string_ltb_irrefl (s : string) : String.ltb s s = false.
Proof. unfold String.ltb. now rewrite string_compare_refl. Qed.

Lemma string_compare_lt_trans (a b c : string) :
  String.compare a b = Lt -> String.compare b c = Lt -> String.compare a c = Lt.
Proof.
  revert b c. induction a as [|x a IH]; intros [|y b] [|z c]; simpl;
    try discriminate; try reflexivity.
  rewrite !ascii_compare_N.
  destruct (N.compare_spec (N_of_ascii x) (N_of_ascii y)) as [E1|L1|G1];
    destruct (N.compare_spec (N_of_ascii y) (N_of_ascii z)) as [E2|L2|G2];
    try discriminate; intros H1 H2.
  - rewrite E1, E2, N.compare_refl. eauto.
  - assert ((N_of_ascii x ?= N_of_ascii z)%N = Lt) as ->
      by (apply N.compare_lt_iff; lia).
    reflexivity.
  - assert ((N_of_ascii x ?= N_of_ascii z)%N = Lt) as ->
      by (apply N.compare_lt_iff; lia).
    reflexivity.
  - assert ((N_of_ascii x ?= N_of_ascii z)%N = Lt) as ->
      by (apply N.compare_lt_iff; lia).
    reflexivity.
Qed.

Lemma string_ltb_trans (a b c : string) :
  String.ltb a b = true -> String.ltb b c = true -> String.ltb a c = true.
Proof.
  unfold String.ltb. intros H1 H2.
  destruct (String.compare a b) eqn:E1; try discriminate.
  destruct (String.compare b c) eqn:E2; try discriminate.
  now rewrite (string_compare_lt_trans _ _ _ E1 E2).
Qed.

Lemma string_ltb_total (a b : string) :
  String.ltb a b = false -> a <> b -> String.ltb b a = true.
Proof.
  unfold String.ltb. intros H Hne.
  rewrite String.compare_antisym.
  destruct (String.compare a b) eqn:E; simpl; try discriminate; try reflexivity.
  apply String.compare_eq_iff in E. contradiction.
Qed.

(** ** Sorting the items of a dictionary *)

Lemma get_cons {A} (k' : string) (v : A) (l : list (string * A)) (k : string) :
  PyDict.get ((k', v) :: l) k = if String.eqb k' k then Some v else PyDict.get l k.
Proof. reflexivity. Qed.

Lemma get_None_keys {A} (l : list (string * A)) (k : string) :
  PyDict.get l k = None <-> ~ In k (PyDict.keys l).
Proof.
  induction l as [|[k' v] l IH]; simpl.
  - tauto.
  - destruct (String.eqb_spec k' k) as [->|Hne]; split; intros H.
    + discriminate.
    + exfalso. apply H. now left.
    + intros [E|Hin]; [contradiction | now apply IH].
    + apply IH. intros Hin. apply H. now right.
Qed.

Lemma get_In {A} (l : list (string * A)) (k : string) (v : A) :
  In (k, v) l -> distinct (PyDict.keys l) = true -> PyDict.get l k = Some v.
Proof.
  induction l as [|[k' v'] l IH]; simpl; [tauto|].
  intros [E|Hin] Hd; apply andb_prop in Hd as [Hk Hd].
  - inversion E; subst. now rewrite String.eqb_refl.
  - destruct (String.eqb_spec k' k) as [->|Hne]; [|now apply IH].
    exfalso. apply negb_true_iff in Hk.
    assert (existsb (String.eqb k) (PyDict.keys l) = true) as Hex.
    { apply List.existsb_exists. exists k. split; [|apply String.eqb_refl].
      apply (List.in_map fst) in Hin. exact Hin. }
    congruence.
Qed.

Lemma distinct_NoDup (ks : list string) : distinct ks = true <-> List.NoDup ks.
Proof.
  induction ks as [|k ks IH]; simpl.
  - split; [constructor | reflexivity].
  - rewrite andb_true_iff, negb_true_iff, IH. split.
    + intros [Hk Hd]. constructor; [|exact Hd].
      intros Hin. assert (existsb (String.eqb k) ks = true) as Hex; [|congruence].
      apply List.existsb_exists. exists k. split; [exact Hin | apply String.eqb_refl].
    + intros Hnd. inversion Hnd as [|? ? Hk Hd]; subst. split; [|exact Hd].
      destruct (existsb (String.eqb k) ks) eqn:Hex; [|reflexivity].
      apply List.existsb_exists in Hex as (x & Hin & Hx).
      apply String.eqb_eq in Hx. subst. contradiction.
Qed.

Lemma keys_insert_item {A} (x : string * A) (l : list (string * A)) (k : string) :
  In k (PyDict.keys (PyDict.insert_item x l)) <-> k = fst x \/ In k (PyDict.keys l).
Proof.
  induction l as [|y l IH]; simpl.
  - intuition.
  - destruct (String.ltb (fst y) (fst x)); simpl; rewrite ?IH; intuition.
Qed.

Lemma keys_sorted_items {A} (l : list (string * A)) (k : string) :
  In k (PyDict.keys (PyDict.sorted_items l)) <-> In k (PyDict.keys l).
Proof.
  induction l as [|x l IH]; simpl; [tauto|].
  rewrite keys_insert_item, IH. intuition.
Qed.

Lemma get_insert_item {A} (k : string) (v : A) (l : list (string * A)) (k' : string) :
  ~ In k (PyDict.keys l) ->
  PyDict.get (PyDict.insert_item (k, v) l) k' =
  if String.eqb k k' then Some v else PyDict.get l k'.
Proof.
  induction l as [|[k0 v0] l IH]; simpl; intros Hk; [reflexivity|].
  destruct (String.ltb k0 k); simpl.
  - rewrite IH by tauto.
    destruct (String.eqb_spec k0 k') as [->|]; [|reflexivity].
    destruct (String.eqb_spec k k') as [->|]; [|reflexivity].
    exfalso. apply Hk. now left.
  - reflexivity.
Qed.

Lemma get_sorted_items {A} (l : list (string * A)) (k : string) :
  List.NoDup (PyDict.keys l) -> PyDict.get (PyDict.sorted_items l) k = PyDict.get l k.
Proof.
  induction l as [|[k0 v0] l IH]; simpl; intros Hnd; [reflexivity|].
  inversion Hnd as [|? ? Hk Hd]; subst.
  rewrite get_insert_item by (now rewrite keys_sorted_items).
  now rewrite IH.
Qed.

Lemma increasing_insert_item {A} (x : string * A) (l : list (string * A)) :
  increasing l -> ~ In (fst x) (PyDict.keys l) ->
  increasing (PyDict.insert_item x l).
Proof.
  induction 1 as [|y l Hy Hl IH]; simpl; intros Hk.
  - constructor; constructor.
  - destruct (String.ltb (fst y) (fst x)) eqn:E.
    + constructor; [|apply IH; tauto].
      apply List.Forall_forall. intros z Hz.
      assert (In (fst z) (PyDict.keys (PyDict.insert_item x l))) as Hin
        by (apply (List.in_map fst), Hz).
      apply keys_insert_item in Hin as [Ez|Hin].
      * now rewrite Ez.
      * unfold PyDict.keys in Hin. apply List.in_map_iff in Hin as (z' & Ez & Hz').
        rewrite <- Ez. rewrite List.Forall_forall in Hy. now apply Hy.
    + assert (String.ltb (fst x) (fst y) = true) as Hxy.
      { apply string_ltb_total; [exact E|]. intros Eq. apply Hk. left. now symmetry. }
      constructor; [|now constructor].
      constructor; [exact Hxy|].
      rewrite List.Forall_forall in *. intros z Hz.
      eapply string_ltb_trans; [exact Hxy | now apply Hy].
Qed.

Lemma increasing_sorted_items {A} (l : list (string * A)) :
  List.NoDup (PyDict.keys l) -> increasing (PyDict.sorted_items l).
Proof.
  induction l as [|x l IH]; simpl; intros Hnd; [constructor|].
  inversion Hnd as [|? ? Hk Hd]; subst.
  apply increasing_insert_item; [now apply IH|].
  now rewrite keys_sorted_items.
Qed.

Lemma get_below {A} (k : string) (l : list (string * A)) :
  Forall (fun y => String.ltb k (fst y) = true) l -> PyDict.get l k = None.
Proof.
  induction 1 as [|[k' v] l Hk Hl IH]; simpl; [reflexivity|].
  destruct (String.eqb_spec k' k) as [->|]; [|exact IH].
  simpl in Hk. now rewrite string_ltb_irrefl in Hk.
Qed.

(** Two dictionaries in key order with the same lookups are the same list. *)
Lemma increasing_ext {A} (l1 l2 : list (string * A)) :
  increasing l1 -> increasing l2 ->
  (forall k, PyDict.get l1 k = PyDict.get l2 k) -> l1 = l2.
Proof.
  intros H1. revert l2. induction H1 as [|[k1 v1] l1 Hk1 Hl1 IH];
    intros l2 H2 Hget.
  - destruct l2 as [|[k2 v2] l2]; [reflexivity|].
    specialize (Hget k2). simpl in Hget. now rewrite String.eqb_refl in Hget.
  - destruct H2 as [|[k2 v2] l2 Hk2 Hl2].
    + specialize (Hget k1). simpl in Hget. now rewrite String.eqb_refl in Hget.
    + simpl in Hk1, Hk2.
      assert (k1 = k2) as <-.
      { destruct (String.eqb_spec k1 k2) as [E|Hne]; [exact E|]. exfalso.
        destruct (String.ltb k1 k2) eqn:L.
        - pose proof (Hget k1) as G. rewrite !get_cons, String.eqb_refl in G.
          destruct (String.eqb_spec k2 k1) as [E|_]; [now subst|].
          rewrite get_below in G; [discriminate|].
          rewrite List.Forall_forall in *. intros z Hz.
          eapply string_ltb_trans; [exact L | now apply Hk2].
        - pose proof (string_ltb_total _ _ L Hne) as L'.
          pose proof (Hget k2) as G. rewrite !get_cons, String.eqb_refl in G.
          destruct (String.eqb_spec k1 k2) as [E|_]; [now subst|].
          rewrite get_below in G; [discriminate|].
          rewrite List.Forall_forall in *. intros z Hz.
          eapply string_ltb_trans; [exact L' | now apply Hk1]. }
      pose proof (Hget k1) as G. rewrite !get_cons, String.eqb_refl in G.
      inversion G; subst. f_equal. apply IH; [exact Hl2|].
      intros k. specialize (Hget k). rewrite !get_cons in Hget.
      destruct (String.eqb_spec k1 k) as [E|]; [|exact Hget].
      subst k. now rewrite !get_below.
Qed.

(** ** Induction on JSON values *)

Lemma json_ind' (P : json -> Prop)
    (Hnull : P JNull) (Hbool : forall b, P (JBool b)) (Hint : forall z, P (JInt z))
    (Hfloat : forall f, P (JFloat f)) (Hstr : forall s, P (JStr s))
    (Hlist : forall l, Forall P l -> P (JList l))
    (Hdict : forall items, Forall (fun kv => P (snd kv)) items -> P (JDict items)) :
  forall v, P v.
Proof.
  fix IH 1. intros [| b | z | f | s | l | items].
  - exact Hnull.
  - apply Hbool.
  - apply Hint.
  - apply Hfloat.
  - apply Hstr.
  - apply Hlist. induction l as [|x l IHl]; constructor; [apply IH | exact IHl].
  - apply Hdict. induction items as [|[k x] items IHl]; constructor;
      [apply IH | exact IHl].
Qed.

Lemma float_same_eq (x y : spec_float) : float_same x y = true -> x = y.
Proof.
  destruct x as [a|a| |s m e], y as [b|b| |s' m' e']; simpl; try discriminate;
    try reflexivity.
  - intros H. apply Bool.eqb_prop in H. now subst.
  - intros H. apply Bool.eqb_prop in H. now subst.
  - rewrite !andb_true_iff. intros [[H1 H2] H3].
    apply Bool.eqb_prop in H1. apply Pos.eqb_eq in H2. apply Z.eqb_eq in H3.
    now subst.
Qed.

(** ** The serialization does not depend on the order of the keys *)

Lemma get_map_snd {A B} (f : A -> B) (l : list (string * A)) (k : string) :
  PyDict.get (map (fun kv => (fst kv, f (snd kv))) l) k =
  option_map f (PyDict.get l k).
Proof.
  induction l as [|[k' v] l IH]; simpl; [reflexivity|].
  destruct (String.eqb k' k); [reflexivity | exact IH].
Qed.

Lemma keys_map_snd {A B} (f : A -> B) (l : list (string * A)) :
  PyDict.keys (map (fun kv => (fst kv, f (snd kv))) l) = PyDict.keys l.
Proof.
  unfold PyDict.keys. rewrite map_map. reflexivity.
Qed.

Lemma get_Some_In {A} (l : list (string * A)) (k : string) (v : A) :
  PyDict.get l k = Some v -> In (k, v) l.
Proof.
  induction l as [|[k' v'] l IH]; simpl; [discriminate|].
  destruct (String.eqb_spec k' k) as [->|].
  - intros E. inversion E. now left.
  - intros E. right. now apply IH.
Qed.

Lemma same_keys (d1 d2 : dict) :
  List.NoDup (PyDict.keys d1) -> length d1 = length d2 ->
  (forall k, In k (PyDict.keys d1) -> In k (PyDict.keys d2)) ->
  forall k, In k (PyDict.keys d2) -> In k (PyDict.keys d1).
Proof.
  intros Hnd Hlen Hincl.
  apply List.NoDup_length_incl; [exact Hnd | | exact Hincl].
  unfold PyDict.keys. rewrite !List.length_map. lia.
Qed.

Lemma dumps_same_value (a : json) :
  forall (b : json) (indent : option nat) (level : nat),
    same_value a b = true -> well_formed a = true -> well_formed b = true ->
    dumps_at true indent level a = dumps_at true indent level b.
Proof.
  induction a as [| x | x | x | x | l IH | d1 IH] using json_ind';
    intros b indent level Hs Ha Hb; destruct b as [| y | y | y | y | l2 | d2];
    simpl in Hs; try discriminate; try reflexivity.
  - apply Bool.eqb_prop in Hs. now subst.
  - apply Z.eqb_eq in Hs. now subst.
  - apply float_same_eq in Hs. now subst.
  - apply String.eqb_eq in Hs. now subst.
  - simpl. f_equal. simpl in Ha, Hb.
    revert l2 Hs Hb. induction IH as [|x l Hx Hl IHl]; intros [|y l2] Hs Hb;
      try discriminate; [reflexivity|].
    simpl in Ha, Hb. apply andb_prop in Ha as [Ha1 Ha2].
    apply andb_prop in Hb as [Hb1 Hb2]. apply andb_prop in Hs as [Hs1 Hs2].
    simpl. f_equal; [now apply Hx | now apply IHl].
  - simpl in Ha, Hb. apply andb_prop in Ha as [Ha1 Ha2].
    apply andb_prop in Hb as [Hb1 Hb2]. apply andb_prop in Hs as [Hlen Hs].
    apply Nat.eqb_eq in Hlen. apply distinct_NoDup in Ha1, Hb1.
    rewrite forallb_forall in Hs, Ha2, Hb2. rewrite List.Forall_forall in IH.
    simpl. do 2 f_equal.
    set (f := dumps_at true indent (S level)).
    apply increasing_ext.
    + apply increasing_sorted_items. now rewrite keys_map_snd.
    + apply increasing_sorted_items. now rewrite keys_map_snd.
    + intros k. rewrite !get_sorted_items by (now rewrite keys_map_snd).
      rewrite !get_map_snd.
      destruct (PyDict.get d1 k) as [v|] eqn:G1.
      * apply get_Some_In in G1. specialize (Hs _ G1). simpl in Hs.
        destruct (PyDict.get d2 k) as [v'|] eqn:G2; [|discriminate].
        simpl. f_equal. unfold f. apply (IH _ G1); [exact Hs | |].
        -- exact (Ha2 _ G1).
        -- apply get_Some_In in G2. exact (Hb2 _ G2).
      * destruct (PyDict.get d2 k) as [v'|] eqn:G2; [|reflexivity]. exfalso.
        apply get_None_keys in G1. apply G1.
        apply (same_keys d1 d2 Ha1 Hlen).
        -- intros k' Hk'. unfold PyDict.keys in Hk'.
           apply List.in_map_iff in Hk' as ([k0 v0] & E & Hin). simpl in E. subst k0.
           specialize (Hs _ Hin). simpl in Hs.
           destruct (PyDict.get d2 k') eqn:G; [|discriminate].
           apply get_Some_In in G. apply (List.in_map fst) in G. exact G.
        -- apply get_Some_In in G2. apply (List.in_map fst) in G2. exact G2.
Qed.

Lemma hash_8_same_value (a b : json) :
  same_value a b = true -> well_formed a = true -> well_formed b = true ->
  hash_8 a = hash_8 b.
Proof.
  intros Hs Ha Hb. unfold hash_8, dumps.
  now rewrite (dumps_same_value a b None 0%nat Hs Ha Hb).
Qed.

Lemma hash_keys_agree (keys : list string) (c1 c2 : dict) (acc : string) :
  agree_on keys c1 c2 = true ->
  hash_keys (Some c1) keys acc = hash_keys (Some c2) keys acc.
Proof.
  revert acc. induction keys as [|k keys IH]; intros acc H; [reflexivity|].
  simpl in H. apply andb_prop in H as [Hk H]. simpl.
  destruct (PyDict.get c1 k) as [v1|], (PyDict.get c2 k) as [v2|];
    try discriminate; [|reflexivity].
  apply andb_prop in Hk as [Hk Hw2]. apply andb_prop in Hk as [Hs Hw1].
  rewrite (hash_8_same_value v1 v2 Hs Hw1 Hw2).
  destruct (hash_8 v2); [now apply IH | reflexivity].
Qed.

(** C2: two configurations that agree on the value of every monitored key,
    whatever the order in which their dictionaries list their keys and
    whatever else they hold, get the same experiment identifier from the
    same manager. *)
Theorem experiment_id_order_independent (self : ExperimentManager) (c1 c2 : dict) :
  agree_on (monitored_param_keys self) c1 c2 = true ->
  get_experiment_id (with_params self (Some c1)) =
  get_experiment_id (with_params self (Some c2)).
Proof.
  intros H. unfold get_experiment_id. simpl.
  destruct (experiment_id_folder self); [reflexivity|].
  now rewrite (hash_keys_agree _ c1 c2 "" H).
Qed.

(** ** The hash of a value *)

Lemma hex_value_hex_digit (d : Z) :
  0 <= d < 16 -> PyStr.hex_value (PyStr.hex_digit d) = Some d.
Proof.
  intros H.
  assert (d = 0 \/ d = 1 \/ d = 2 \/ d = 3 \/ d = 4 \/ d = 5 \/ d = 6 \/ d = 7 \/
          d = 8 \/ d = 9 \/ d = 10 \/ d = 11 \/ d = 12 \/ d = 13 \/ d = 14 \/ d = 15)
    as Hd by lia.
  repeat (destruct Hd as [-> | Hd]; [reflexivity|]). subst. reflexivity.
Qed.

Lemma int16_aux_hex_byte (b : Z) (s : string) (acc : Z) :
  0 <= b < 256 ->
  PyStr.int16_aux (SHA256.hex_byte b ++ s) acc = PyStr.int16_aux s (256 * acc + b).
Proof.
  intros H. unfold SHA256.hex_byte. simpl.
  rewrite hex_value_hex_digit by (split; [apply Z.div_pos | apply Z.div_lt_upper_bound]; lia).
  rewrite hex_value_hex_digit by (apply Z.mod_pos_bound; lia).
  f_equal. pose proof (Z.div_mod b 16). lia.
Qed.

Lemma be_bytes_range (n : nat) (x : Z) :
  Forall (fun b => 0 <= b < 256) (SHA256.be_bytes n x).
Proof.
  induction n as [|n IH]; simpl; constructor; [|exact IH].
  apply Z.mod_pos_bound. lia.
Qed.

Lemma int16_aux_hex (bs : list Z) (acc : Z) :
  Forall (fun b => 0 <= b < 256) bs ->
  exists n,
    PyStr.int16_aux (fold_right (fun b s => SHA256.hex_byte b ++ s) "" bs) acc = Some n.
Proof.
  intros H. revert acc. induction H as [|b bs Hb Hbs IH]; intros acc.
  - now exists acc.
  - cbn [fold_right]. rewrite int16_aux_hex_byte by exact Hb. apply IH.
Qed.

Lemma blocks_not_nil (fuel : nat) (ws h : list Z) :
  h <> [] -> SHA256.blocks fuel ws h <> [].
Proof.
  revert ws h. induction fuel as [|fuel IH]; intros ws h Hh; simpl; [exact Hh|].
  destruct ws; [exact Hh|]. apply IH. discriminate.
Qed.

Lemma digest_words_not_nil (msg : list Z) : SHA256.digest_words msg <> [].
Proof.
  unfold SHA256.digest_words. apply blocks_not_nil. discriminate.
Qed.

Lemma int16_hex_cons (b : Z) (bs : list Z) :
  PyStr.int16 (fold_right (fun b s => SHA256.hex_byte b ++ s) "" (b :: bs)) =
  PyStr.int16_aux (fold_right (fun b s => SHA256.hex_byte b ++ s) "" (b :: bs)) 0.
Proof. reflexivity. Qed.

(** The digest is a non-empty string of hexadecimal digits: [int(_, 16)]
    reads it. *)
Lemma int16_hexdigest (data : string) :
  exists n, PyStr.int16 (SHA256.hexdigest data) = Some n.
Proof.
  unfold SHA256.hexdigest.
  pose proof (digest_words_not_nil (SHA256.bytes_of_string data)) as Hne.
  destruct (SHA256.digest_words (SHA256.bytes_of_string data)) as [|w ws];
    [contradiction|].
  assert (Forall (fun b => 0 <= b < 256) (flat_map (SHA256.be_bytes 4) (w :: ws)))
    as Hr.
  { apply List.Forall_forall. intros b Hb. apply in_flat_map in Hb as (x & _ & Hb).
    pose proof (be_bytes_range 4 x) as Hx. rewrite List.Forall_forall in Hx.
    now apply Hx. }
  destruct (flat_map (SHA256.be_bytes 4) (w :: ws)) as [|b bs] eqn:E.
  - discriminate E.
  - rewrite int16_hex_cons. apply int16_aux_hex. exact Hr.
Qed.

Lemma hash_8_segment (v : json) : exists h, hash_8 v = Ok h /\ segment_of v h.
Proof.
  unfold hash_8, segment_of.
  destruct (int16_hexdigest (dumps true None v)) as (n & Hn). rewrite Hn.
  eexists. split; [reflexivity|]. now exists n.
Qed.

(** ** The experiment identifier *)

Lemma hyphenated_join (h : string) (segs : list string) :
  hyphenated (h :: segs) = "-" ++ PyStr.join "-" (h :: segs).
Proof.
  revert h. induction segs as [|h' segs IH]; intros h.
  - simpl. now rewrite append_nil_r.
  - change (hyphenated (h :: h' :: segs)) with ("-" ++ h ++ hyphenated (h' :: segs)).
    rewrite IH. reflexivity.
Qed.

Lemma hash_keys_segments (cfg : dict) (keys : list string) (acc : string) :
  forallb (has_key cfg) keys = true ->
  exists segs,
    Forall2 (fun k h => exists v, PyDict.get cfg k = Some v /\ segment_of v h)
            keys segs
    /\ hash_keys (Some cfg) keys acc = Ok (acc ++ hyphenated segs).
Proof.
  revert acc. induction keys as [|k keys IH]; intros acc H.
  - exists []. split; [constructor|]. simpl. now rewrite append_nil_r.
  - simpl in H. apply andb_prop in H as [Hk H]. unfold has_key in Hk.
    cbn [hash_keys subscript].
    destruct (PyDict.get cfg k) as [v|] eqn:G; [|discriminate].
    destruct (hash_8_segment v) as (h & Hh & Hseg). rewrite Hh.
    destruct (IH (acc ++ "-" ++ h) H) as (segs & Hsegs & Hr).
    exists (h :: segs). split.
    + constructor; [|exact Hsegs]. now exists v.
    + rewrite Hr. cbn [hyphenated fold_right]. now rewrite !append_assoc.
Qed.

(** C1, as the code has it: on a manager without a resumed identity, whose
    configuration holds every monitored key, the identifier is [exp-]
    followed, for each monitored key in the order given, by a hyphen and the
    hash segment of the key's value: with at least one key that is
    [exp--{h1}-{h2}-...], two hyphens after [exp] and one between segments. *)
Theorem experiment_id_form (self : ExperimentManager) (cfg : dict) :
  experiment_id_folder self = None ->
  params self = Some cfg ->
  monitored_param_keys self <> [] ->
  forallb (has_key cfg) (monitored_param_keys self) = true ->
  exists segs,
    Forall2 (fun k h => exists v, PyDict.get cfg k = Some v /\ segment_of v h)
            (monitored_param_keys self) segs
    /\ get_experiment_id self = Ok ("exp--" ++ PyStr.join "-" segs).
Proof.
  intros Hf Hp Hne Hk. unfold get_experiment_id. rewrite Hf, Hp.
  destruct (hash_keys_segments cfg _ "" Hk) as (segs & Hsegs & Hr).
  exists segs. split; [exact Hsegs|]. rewrite Hr.
  destruct segs as [|h segs].
  - inversion Hsegs as [E|]. now rewrite <- E in Hne.
  - rewrite hyphenated_join. reflexivity.
Qed.

(** ** The file system only grows *)

Lemma extends_refl (m : FS.store) : extends m m.
Proof. intros l n H. now exists n. Qed.

Lemma extends_trans (m1 m2 m3 : FS.store) :
  extends m1 m2 -> extends m2 m3 -> extends m1 m3.
Proof.
  intros H12 H23 l n H. destruct (H12 l n H) as (n2 & H2 & K2).
  destruct (H23 l n2 H2) as (n3 & H3 & K3). exists n3. split; [exact H3|congruence].
Qed.

Lemma extends_insert_new (m : FS.store) (l : list string) (n : FS.node) :
  m !! l = None -> extends m (<[l := n]> m).
Proof.
  intros Hl l' n' H. exists n'. split; [|reflexivity].
  rewrite lookup_insert_ne; [exact H | congruence].
Qed.

Lemma extends_insert_same_kind (m : FS.store) (l : list string) (n0 n : FS.node) :
  m !! l = Some n0 -> FS.is_dir_node n = FS.is_dir_node n0 ->
  extends m (<[l := n]> m).
Proof.
  intros Hl Hk l' n' H. destruct (decide (l = l')) as [<-|Hne].
  - exists n. rewrite lookup_insert_eq. split; [reflexivity | congruence].
  - exists n'. rewrite lookup_insert_ne by exact Hne. now split.
Qed.

Lemma extends_touch (m : FS.store) (l : list string) (now : Z) :
  extends m (FS.touch m l now).
Proof.
  unfold FS.touch. destruct (m !! l) as [[t|c t]|] eqn:E; try apply extends_refl.
  now apply (extends_insert_same_kind m l (FS.Dir t)).
Qed.

Lemma same_files_refl (m : FS.store) : same_files m m.
Proof. intros l c t. tauto. Qed.

Lemma same_files_trans (m1 m2 m3 : FS.store) :
  same_files m1 m2 -> same_files m2 m3 -> same_files m1 m3.
Proof. intros H12 H23 l c t. rewrite (H12 l c t). apply H23. Qed.

Lemma same_files_touch (m : FS.store) (l : list string) (now : Z) :
  same_files m (FS.touch m l now).
Proof.
  unfold FS.touch. destruct (m !! l) as [[t|c t]|] eqn:E; try apply same_files_refl.
  intros l' c' t'. destruct (decide (l = l')) as [<-|Hne].
  - rewrite lookup_insert_eq, E. split; discriminate.
  - now rewrite lookup_insert_ne.
Qed.

Lemma same_files_new_dir (m : FS.store) (l : list string) (now : Z) :
  m !! l = None -> same_files m (<[l := FS.Dir now]> m).
Proof.
  intros Hl l' c' t'. destruct (decide (l = l')) as [<-|Hne].
  - rewrite lookup_insert_eq, Hl. split; discriminate.
  - now rewrite lookup_insert_ne.
Qed.

Lemma node_at_extends (m m' : FS.store) (l : list string) (n : FS.node) :
  extends m m' -> FS.node_at m l = Some n ->
  exists n', FS.node_at m' l = Some n' /\ FS.is_dir_node n' = FS.is_dir_node n.
Proof.
  intros He. destruct l as [|x l]; simpl.
  - intros H. now exists n.
  - apply He.
Qed.

Lemma node_at_cons (m : FS.store) (x : string) (l : list string) :
  FS.node_at m (x :: l) = m !! (x :: l).
Proof. reflexivity. Qed.

Lemma node_at_None (m : FS.store) (l : list string) :
  FS.node_at m l = None -> l <> [] /\ m !! l = None.
Proof. destruct l; simpl; [discriminate|]. intros H. split; [discriminate|exact H]. Qed.

Lemma node_at_file (m : FS.store) (l : list string) (c : string) (t : Z) :
  FS.node_at m l = Some (FS.File c t) -> l <> [] /\ m !! l = Some (FS.File c t).
Proof. destruct l; simpl; [discriminate|]. intros H. split; [discriminate|exact H]. Qed.

(** What a successful resolution finds does not depend on the name used in
    error messages, and stays the same when the file system grows. *)
Lemma walk_extends (m m' : FS.store) (comps : list string) :
  extends m m' ->
  forall cur f f' l, FS.walk m cur comps f = Ok l -> FS.walk m' cur comps f' = Ok l.
Proof.
  intros He. induction comps as [|c comps IH]; intros cur f f' l; simpl.
  - trivial.
  - destruct (FS.node_at m cur) as [[t|ct t]|] eqn:E; try discriminate.
    destruct (node_at_extends m m' cur _ He E) as (n' & E' & K). rewrite E'.
    destruct n'; [|discriminate]. apply IH.
Qed.

Lemma walk_app (m : FS.store) (a b : list string) (f : string) :
  forall cur,
    FS.walk m cur (a ++ b) f =
    match FS.walk m cur a f with
    | Ok l => FS.walk m l b f
    | Raise e => Raise e
    end.
Proof.
  induction a as [|c a IH]; intros cur; simpl; [reflexivity|].
  destruct (FS.node_at m cur) as [[t|ct t]|]; try reflexivity. apply IH.
Qed.

Lemma tl_neq {A} (l : list A) : l <> [] -> tl l <> l.
Proof.
  intros Hne E. apply (f_equal (@length A)) in E. destruct l; [contradiction|].
  simpl in E. lia.
Qed.

Lemma extends_add_entry (fs : FS.t) (l : list string) (n : FS.node) (now : Z) :
  FS.nodes fs !! l = None -> grows fs (FS.add_entry fs l n now).
Proof.
  intros Hl. split; [|reflexivity]. simpl.
  eapply extends_trans; [apply extends_insert_new, Hl | apply extends_touch].
Qed.

Lemma lookup_add_entry (fs : FS.t) (l : list string) (n : FS.node) (now : Z) :
  l <> [] -> FS.nodes (FS.add_entry fs l n now) !! l = Some n.
Proof.
  intros Hne. simpl. unfold FS.touch.
  destruct (<[l:=n]> (FS.nodes fs) !! tl l) as [[t|c t]|];
    rewrite ?lookup_insert_ne by (now apply tl_neq); apply lookup_insert_eq.
Qed.

Lemma same_files_add_dir (fs : FS.t) (l : list string) (now : Z) :
  FS.nodes fs !! l = None ->
  same_files (FS.nodes fs) (FS.nodes (FS.add_entry fs l (FS.Dir now) now)).
Proof.
  intros Hl. simpl.
  eapply same_files_trans; [apply same_files_new_dir, Hl | apply same_files_touch].
Qed.

Lemma grows_refl (fs : FS.t) : grows fs fs.
Proof. split; [apply extends_refl | reflexivity]. Qed.

Lemma grows_trans (fs1 fs2 fs3 : FS.t) : grows fs1 fs2 -> grows fs2 fs3 -> grows fs1 fs3.
Proof.
  intros [H12 C12] [H23 C23]. split; [eapply extends_trans; eassumption | congruence].
Qed.

Lemma locate_grows (fs fs' : FS.t) (p : PurePath.t) (l : list string) :
  grows fs fs' -> FS.locate fs p = Ok l -> FS.locate fs' p = Ok l.
Proof.
  intros [He Hc]. unfold FS.locate, FS.start. rewrite Hc.
  apply walk_extends. exact He.
Qed.

Lemma is_dir_grows (fs fs' : FS.t) (p : PurePath.t) :
  grows fs fs' -> FS.is_dir fs p = true -> FS.is_dir fs' p = true.
Proof.
  intros Hg. unfold FS.is_dir, FS.stat.
  destruct (FS.locate fs p) as [l|e] eqn:E; [|discriminate].
  rewrite (locate_grows fs fs' p l Hg E).
  destruct (FS.node_at (FS.nodes fs) l) as [n|] eqn:N; [|discriminate].
  destruct (node_at_extends _ _ l n (proj1 Hg) N) as (n' & N' & K). rewrite N'.
  destruct n, n'; try discriminate; reflexivity.
Qed.

(** ** Creating directories *)

Lemma os_mkdir_grows (fs fs' : FS.t) (now : Z) (p : PurePath.t) (r : result unit) :
  FS.os_mkdir fs now p = (r, fs') ->
  grows fs fs' /\ same_files (FS.nodes fs) (FS.nodes fs').
Proof.
  unfold FS.os_mkdir. destruct (FS.locate fs p) as [l|e].
  - destruct (FS.node_at (FS.nodes fs) l) as [n|] eqn:N.
    + intros E; inversion E; subst. split; [apply grows_refl | apply same_files_refl].
    + apply node_at_None in N as [Hne N].
      destruct (FS.creatable p); intros E; inversion E; subst.
      * split; [now apply extends_add_entry | now apply same_files_add_dir].
      * split; [apply grows_refl | apply same_files_refl].
  - intros E; inversion E; subst. split; [apply grows_refl | apply same_files_refl].
Qed.

Lemma os_mkdir_is_dir (fs fs' : FS.t) (now : Z) (p : PurePath.t) (u : unit) :
  FS.os_mkdir fs now p = (Ok u, fs') -> FS.is_dir fs' p = true.
Proof.
  intros H. pose proof (os_mkdir_grows _ _ _ _ _ H) as [Hg _]. revert H.
  unfold FS.os_mkdir. destruct (FS.locate fs p) as [l|e] eqn:L; [|discriminate].
  destruct (FS.node_at (FS.nodes fs) l) as [n|] eqn:N; [discriminate|].
  apply node_at_None in N as [Hne N].
  destruct (FS.creatable p); [|discriminate]. intros E; inversion E; subst.
  unfold FS.is_dir, FS.stat. rewrite (locate_grows _ _ _ _ Hg L).
  destruct l as [|x l]; [contradiction|]. rewrite node_at_cons.
  now rewrite lookup_add_entry.
Qed.

Lemma mkdir_leaf_grows (fs fs' : FS.t) (now : Z) (p : PurePath.t) (r : result unit) :
  FS.mkdir_leaf fs now p = (r, fs') ->
  grows fs fs' /\ same_files (FS.nodes fs) (FS.nodes fs').
Proof.
  unfold FS.mkdir_leaf. destruct (FS.os_mkdir fs now p) as [[u|e] fs1] eqn:E.
  - intros H; inversion H; subst. eapply os_mkdir_grows; eassumption.
  - destruct e; try destruct (FS.is_dir fs p); intros H; inversion H; subst;
      (split; [apply grows_refl | apply same_files_refl]).
Qed.

Lemma mkdir_leaf_is_dir (fs fs' : FS.t) (now : Z) (p : PurePath.t) (u : unit) :
  FS.mkdir_leaf fs now p = (Ok u, fs') -> FS.is_dir fs' p = true.
Proof.
  unfold FS.mkdir_leaf. destruct (FS.os_mkdir fs now p) as [[u'|e] fs1] eqn:E.
  - intros H; inversion H; subst. eapply os_mkdir_is_dir; eassumption.
  - destruct e; try discriminate;
      destruct (FS.is_dir fs p) eqn:D; intros H; inversion H; subst; exact D.
Qed.

Lemma mkdir_rev_eq (fs : FS.t) (now : Z) (r : string) (rparts : list string) :
  FS.mkdir_rev fs now r rparts =
  let p := PurePath.mk r (rev rparts) in
  match FS.os_mkdir fs now p with
  | (Ok u, fs') => (Ok u, fs')
  | (Raise (FileNotFoundError n s f), _) =>
      match rparts with
      | [] => (Raise (FileNotFoundError n s f), fs)
      | _ :: rparent =>
          match FS.mkdir_rev fs now r rparent with
          | (Ok _, fs1) => FS.mkdir_leaf fs1 now p
          | (Raise e, fs1) => (Raise e, fs1)
          end
      end
  | (Raise e, _) => if FS.is_dir fs p then (Ok tt, fs) else (Raise e, fs)
  end.
Proof. destruct rparts; reflexivity. Qed.

Lemma mkdir_rev_grows (now : Z) (r : string) (rparts : list string) :
  forall fs fs' res,
    FS.mkdir_rev fs now r rparts = (res, fs') ->
    grows fs fs' /\ same_files (FS.nodes fs) (FS.nodes fs').
Proof.
  induction rparts as [|c rparent IH]; intros fs fs' res; rewrite mkdir_rev_eq;
    cbv zeta;
    destruct (FS.os_mkdir fs now _) as [[u|e] fs1] eqn:E.
  - intros H; inversion H; subst. eapply os_mkdir_grows; eassumption.
  - destruct e; try destruct (FS.is_dir fs _); intros H; inversion H; subst;
      (split; [apply grows_refl | apply same_files_refl]).
  - intros H; inversion H; subst. eapply os_mkdir_grows; eassumption.
  - destruct e; try (destruct (FS.is_dir fs _); intros H; inversion H; subst;
      (split; [apply grows_refl | apply same_files_refl])).
    destruct (FS.mkdir_rev fs now r rparent) as [[u|e] fs2] eqn:E2.
    + intros H. destruct (IH _ _ _ E2) as [G2 S2].
      destruct (mkdir_leaf_grows _ _ _ _ _ H) as [G3 S3].
      split; [eapply grows_trans | eapply same_files_trans]; eassumption.
    + intros H; inversion H; subst. eapply IH; eassumption.
Qed.

Lemma mkdir_rev_is_dir (fs fs' : FS.t) (now : Z) (r : string) (rparts : list string)
    (u : unit) :
  FS.mkdir_rev fs now r rparts = (Ok u, fs') ->
  FS.is_dir fs' (PurePath.mk r (rev rparts)) = true.
Proof.
  rewrite mkdir_rev_eq. cbv zeta.
  destruct (FS.os_mkdir fs now _) as [[u'|e] fs1] eqn:E.
  - intros H; inversion H; subst. eapply os_mkdir_is_dir; eassumption.
  - destruct e;
      try (destruct (FS.is_dir fs _) eqn:D; intros H; inversion H; subst; exact D).
    destruct rparts as [|c rparent]; [discriminate|].
    destruct (FS.mkdir_rev fs now r rparent) as [[u'|e] fs2]; [|discriminate].
    apply mkdir_leaf_is_dir.
Qed.

Lemma path_eta (p : PurePath.t) :
  PurePath.mk (PurePath.root p) (rev (rev (PurePath.parts p))) = p.
Proof. destruct p as [r ps]. simpl. now rewrite rev_involutive. Qed.

Lemma mkdir_grows (fs fs' : FS.t) (now : Z) (p : PurePath.t) (res : result unit) :
  FS.mkdir fs now p = (res, fs') ->
  grows fs fs' /\ same_files (FS.nodes fs) (FS.nodes fs').
Proof. apply mkdir_rev_grows. Qed.

Lemma mkdir_is_dir (fs fs' : FS.t) (now : Z) (p : PurePath.t) (u : unit) :
  FS.mkdir fs now p = (Ok u, fs') -> FS.is_dir fs' p = true.
Proof.
  intros H. apply mkdir_rev_is_dir in H. now rewrite path_eta in H.
Qed.

(** Creating a directory that is there changes nothing and does not fail. *)
Lemma mkdir_existing (fs : FS.t) (now : Z) (p : PurePath.t) :
  FS.is_dir fs p = true -> FS.mkdir fs now p = (Ok tt, fs).
Proof.
  intros D. unfold FS.mkdir. rewrite mkdir_rev_eq. cbv zeta. rewrite path_eta.
  revert D. unfold FS.is_dir, FS.stat, FS.os_mkdir.
  destruct (FS.locate fs p) as [l|e] eqn:L; [|discriminate].
  destruct (FS.node_at (FS.nodes fs) l) as [[t|c t]|] eqn:N; try discriminate.
  intros _. reflexivity.
Qed.

(** ** Writing files *)

Lemma write_file_grows (fs fs' : FS.t) (now : Z) (p : PurePath.t) (c : string)
    (r : result unit) :
  FS.write_file fs now p c = (r, fs') -> grows fs fs'.
Proof.
  unfold FS.write_file. destruct (FS.locate fs p) as [l|e].
  - destruct (FS.node_at (FS.nodes fs) l) as [[t|c0 t]|] eqn:N.
    + intros E; inversion E; subst. apply grows_refl.
    + apply node_at_file in N as [Hne N]. intros E; inversion E; subst.
      split; [|reflexivity]. simpl.
      now apply (extends_insert_same_kind _ l (FS.File c0 t)).
    + apply node_at_None in N as [Hne N].
      destruct (FS.creatable p); intros E; inversion E; subst.
      * now apply extends_add_entry.
      * apply grows_refl.
  - intros E; inversion E; subst. apply grows_refl.
Qed.

(** After a successful write the file holds what was written. *)
Lemma write_file_read (fs fs' : FS.t) (now : Z) (p : PurePath.t) (c : string)
    (u : unit) :
  FS.write_file fs now p c = (Ok u, fs') -> FS.read_file fs' p = Some c.
Proof.
  intros H. pose proof (write_file_grows _ _ _ _ _ _ H) as Hg. revert H.
  unfold FS.write_file. destruct (FS.locate fs p) as [l|e] eqn:L; [|discriminate].
  unfold FS.read_file, FS.stat. rewrite (locate_grows _ _ _ _ Hg L).
  destruct (FS.node_at (FS.nodes fs) l) as [[t|c0 t]|] eqn:N; [discriminate| |].
  - apply node_at_file in N as [Hne N]. intros E; inversion E; subst.
    destruct l as [|x l]; [contradiction|]. rewrite node_at_cons. simpl.
    now rewrite lookup_insert_eq.
  - apply node_at_None in N as [Hne N].
    destruct (FS.creatable p); [|discriminate]. intros E; inversion E; subst.
    destruct l as [|x l]; [contradiction|]. rewrite node_at_cons.
    now rewrite lookup_add_entry.
Qed.

(** A file that is there can be written again. *)
Lemma write_file_again (fs : FS.t) (now : Z) (p : PurePath.t) (c0 c : string) :
  FS.read_file fs p = Some c0 ->
  exists fs', FS.write_file fs now p c = (Ok tt, fs').
Proof.
  unfold FS.read_file, FS.stat, FS.write_file.
  destruct (FS.locate fs p) as [l|e]; [|discriminate].
  destruct (FS.node_at (FS.nodes fs) l) as [[t|c1 t]|]; try discriminate.
  intros _. eexists. reflexivity.
Qed.

(** ** [make_experiment_path] and [prepare], step by step *)

Ltac run_py :=
  unfold bind, get_self, set_self, get_fs, lift, ret, raise, on_fs, print.

Lemma prepare_eq (clk : Clock) (cfg : dict) (self : ExperimentManager) (w : World) :
  prepare clk cfg self w =
  match make_experiment_path clk (with_params self (Some cfg)) w with
  | (Ok _, self', w') => (callbacks_of self', self', w')
  | (Raise e, self', w') => (Raise e, self', w')
  end.
Proof.
  unfold prepare, set_parameter_files. run_py.
  destruct (make_experiment_path clk (with_params self (Some cfg)) w)
    as [[[u|e] self'] w']; [|reflexivity].
  unfold callbacks_of.
  destruct (get_csv_path self') as [csv|e]; [|reflexivity].
  destruct (template_path self') as [t|e]; [|reflexivity].
  destruct (get_best_model_path self') as [m|e]; [|reflexivity].
  destruct (model_checkpoint _ _) as [mc|e]; [|reflexivity].
  destruct (get_best_perf_path self') as [pf|e]; reflexivity.
Qed.

Lemma resolve_cwd (fs fs' : FS.t) (p : PurePath.t) :
  FS.cwd fs' = FS.cwd fs -> FS.resolve fs' p = FS.resolve fs p.
Proof. intros H. unfold FS.resolve, FS.start. now rewrite H. Qed.

(** What a successful [make_experiment_path] has done. *)
Lemma make_experiment_path_ok (clk : Clock) (self self' : ExperimentManager)
    (w w' : World) (u : unit) :
  make_experiment_path clk self w = (Ok u, self', w') ->
  exists rp fs1 fs2,
    chosen_run_path clk self = Ok rp
    /\ FS.mkdir (fs w) (timestamp clk) rp = (Ok tt, fs1)
    /\ self' = with_run_path self (Some (FS.resolve (fs w) rp))
    /\ FS.mkdir fs1 (timestamp clk)
         (PurePath.truediv (FS.resolve (fs w) rp) "models") = (Ok tt, fs2)
    /\ stdout w' = (stdout w ++ [notice (FS.resolve (fs w) rp)])%list
    /\ match experiment_id_folder self with
       | None =>
           FS.write_file fs2 (timestamp clk)
             (PurePath.truediv (FS.resolve (fs w) rp) "hyperparameters.json")
             (dumps true (Some 2%nat) (params_json self)) = (Ok tt, fs w')
       | Some _ => fs w' = fs2
       end.
Proof.
  unfold make_experiment_path, chosen_run_path, write_parameters. run_py.
  destruct (subscript (params self) "debug") as [debug|e]; [|discriminate].
  destruct (if truthy debug then Ok (get_debug_path self) else get_run_path clk self)
    as [rp|e]; [|discriminate].
  destruct (FS.mkdir (fs w) (timestamp clk) rp) as [[[]|e] fs1] eqn:M1;
    [|discriminate].
  cbn [fs stdout].
  pose proof (proj2 (proj1 (mkdir_grows _ _ _ _ _ M1))) as C1.
  rewrite (resolve_cwd _ _ rp C1).
  unfold get_best_model_path, get_param_path, under_run_path.
  cbn [run_path with_run_path].
  destruct (FS.mkdir fs1 (timestamp clk) _) as [[[]|e] fs2] eqn:M2; [|discriminate].
  cbn [experiment_id_folder with_run_path run_path].
  destruct (experiment_id_folder self) as [f|] eqn:F.
  - intros E; inversion E; subst. exists rp, fs1, fs2. cbn [fs stdout].
    repeat split; try reflexivity; try assumption.
  - cbn [fs stdout].
    match goal with
    | |- context [FS.write_file ?a ?b ?c ?d] =>
        destruct (FS.write_file a b c d) as [[[]|e] fs3] eqn:W; [|discriminate]
    end.
    intros E; inversion E; subst. exists rp, fs1, fs2. cbn [fs stdout].
    repeat split; try reflexivity; try assumption.
Qed.

(** What [make_experiment_path] does once its two directories can be made. *)
Lemma make_experiment_path_run (clk : Clock) (self : ExperimentManager) (w : World)
    (rp : PurePath.t) (fs1 fs2 : FS.t) :
  chosen_run_path clk self = Ok rp ->
  FS.mkdir (fs w) (timestamp clk) rp = (Ok tt, fs1) ->
  FS.mkdir fs1 (timestamp clk)
    (PurePath.truediv (FS.resolve (fs w) rp) "models") = (Ok tt, fs2) ->
  make_experiment_path clk self w =
  match experiment_id_folder self with
  | Some _ =>
      (Ok tt, with_run_path self (Some (FS.resolve (fs w) rp)),
       mkWorld fs2 (stdout w ++ [notice (FS.resolve (fs w) rp)])%list)
  | None =>
      let '(r, fs3) :=
        FS.write_file fs2 (timestamp clk)
          (PurePath.truediv (FS.resolve (fs w) rp) "hyperparameters.json")
          (dumps true (Some 2%nat) (params_json self)) in
      (r, with_run_path self (Some (FS.resolve (fs w) rp)),
       mkWorld fs3 (stdout w ++ [notice (FS.resolve (fs w) rp)])%list)
  end.
Proof.
  intros Hc M1 M2.
  pose proof (proj2 (proj1 (mkdir_grows _ _ _ _ _ M1))) as C1.
  revert Hc. unfold make_experiment_path, chosen_run_path, write_parameters. run_py.
  destruct (subscript (params self) "debug") as [debug|e]; [|discriminate].
  intros ->. rewrite M1. cbn [fs stdout]. rewrite (resolve_cwd _ _ rp C1).
  unfold get_best_model_path, get_param_path, under_run_path.
  cbn [run_path with_run_path]. rewrite M2.
  cbn [experiment_id_folder with_run_path run_path fs stdout].
  destruct (experiment_id_folder self); [reflexivity|].
  cbv beta iota delta [fs stdout params_json params with_run_path notice].
  match goal with
  | |- context [FS.write_file ?a ?b ?c ?d] =>
      destruct (FS.write_file a b c d) as [[[]|e] fs3]; reflexivity
  end.
Qed.

Lemma strftime_same_minute (a b : datetime) :
  same_minute a b = true -> strftime a = strftime b.
Proof.
  unfold same_minute, strftime. rewrite !andb_true_iff.
  intros [[[[H1 H2] H3] H4] H5].
  apply Z.eqb_eq in H1, H2, H3, H4, H5. now rewrite H1, H2, H3, H4, H5.
Qed.

Lemma chosen_run_path_again (clk clk' : Clock) (self : ExperimentManager)
    (p : option PurePath.t) :
  same_minute (now clk) (now clk') = true ->
  chosen_run_path clk' (with_run_path self p) = chosen_run_path clk self.
Proof.
  intros H. unfold chosen_run_path, get_run_path, get_run_id, get_experiment_id,
    get_debug_path.
  cbn [params base_experiment_path experiment_id_folder run_id monitored_param_keys
       with_run_path].
  now rewrite (strftime_same_minute _ _ H).
Qed.

(** C6: a second [prepare] with the same configuration in the same minute
    finds the run directory and its [models] directory in place and does
    not fail on them: it succeeds with the same callbacks and leaves the
    manager as it was. *)
Theorem prepare_twice (clk clk' : Clock) (cfg : dict) (self self1 : ExperimentManager)
    (w w1 : World) (cbs : list callback) :
  prepare clk cfg self w = (Ok cbs, self1, w1) ->
  same_minute (now clk) (now clk') = true ->
  exists w2, prepare clk' cfg self1 w1 = (Ok cbs, self1, w2).
Proof.
  intros H Hm. rewrite prepare_eq in H.
  destruct (make_experiment_path clk (with_params self (Some cfg)) w)
    as [[[u|e] selfA] wA] eqn:E; [|discriminate].
  inversion H as [[Hcb Hs Hw]]. subst selfA wA. clear H.
  destruct (make_experiment_path_ok _ _ _ _ _ _ E)
    as (rp & fs1 & fs2 & Hc & M1 & Hself & M2 & Hout & Hwr).
  destruct (mkdir_grows _ _ _ _ _ M1) as [G1 _].
  destruct (mkdir_grows _ _ _ _ _ M2) as [G2 _].
  assert (grows fs2 (fs w1)) as G3.
  { cbn [experiment_id_folder with_params] in Hwr.
    destruct (experiment_id_folder self).
    - rewrite Hwr. apply grows_refl.
    - eapply write_file_grows. exact Hwr. }
  assert (grows (fs w) (fs w1)) as G
    by (eapply grows_trans; [exact G1 | eapply grows_trans; eassumption]).
  assert (FS.is_dir (fs w1) rp = true) as D1.
  { apply (is_dir_grows fs1); [exact (grows_trans _ _ _ G2 G3)|].
    eapply mkdir_is_dir. exact M1. }
  assert (FS.is_dir (fs w1) (PurePath.truediv (FS.resolve (fs w) rp) "models") = true)
    as D2.
  { apply (is_dir_grows fs2); [exact G3|]. eapply mkdir_is_dir. exact M2. }
  assert (FS.resolve (fs w1) rp = FS.resolve (fs w) rp) as R
    by (apply resolve_cwd, G).
  assert (with_params self1 (Some cfg) = self1) as P by (now rewrite Hself).
  rewrite prepare_eq, P.
  assert (chosen_run_path clk' self1 = Ok rp) as Hc'.
  { rewrite Hself, (chosen_run_path_again clk clk' _ _ Hm). exact Hc. }
  rewrite (make_experiment_path_run clk' self1 w1 rp (fs w1) (fs w1) Hc'
             (mkdir_existing _ _ _ D1)
             ltac:(rewrite R; apply mkdir_existing; exact D2)).
  rewrite R.
  assert (with_run_path self1 (Some (FS.resolve (fs w) rp)) = self1) as Q
    by (now rewrite Hself).
  rewrite Q.
  assert (experiment_id_folder self1 = experiment_id_folder self) as F
    by (now rewrite Hself).
  rewrite F. cbn [experiment_id_folder with_params] in Hwr.
  destruct (experiment_id_folder self).
  - eexists. reflexivity.
  - apply write_file_read in Hwr.
    destruct (write_file_again (fs w1) (timestamp clk') _ _
                (dumps true (Some 2%nat) (params_json self1)) Hwr) as (fs3 & W).
    rewrite W. eexists. reflexivity.
Qed.

(** ** Resuming a run *)

(** What a successful [resume_run] has found and recorded. *)
Lemma resume_run_ok (e r : string) (self self1 : ExperimentManager) (w w1 : World)
    (ckpt : string) :
  resume_run e r self w = (Ok ckpt, self1, w1) ->
  FS.exists_ (fs w) (supposed_run_path self e r) = true
  /\ self1 = with_experiment_id_folder (with_run_id self (Some r)) (Some e)
  /\ fs w1 = fs w.
Proof.
  unfold resume_run. run_py.
  destruct (FS.exists_ (fs w) (supposed_run_path self e r)); [|discriminate].
  destruct (latest (fs w) _) as [c|err]; [|discriminate].
  intros E; inversion E; subst. repeat split.
Qed.

(** With a resumed identity, [make_experiment_path] creates directories at
    most: whatever it returns, no file is written, changed or removed. *)
Lemma make_experiment_path_resumed (clk : Clock) (self self' : ExperimentManager)
    (w w' : World) (res : result unit) (folder : string) :
  experiment_id_folder self = Some folder ->
  make_experiment_path clk self w = (res, self', w') ->
  grows (fs w) (fs w') /\ same_files (FS.nodes (fs w)) (FS.nodes (fs w')).
Proof.
  intros F. unfold make_experiment_path, write_parameters. run_py.
  destruct (subscript (params self) "debug") as [debug|err];
    [|intros E; inversion E; subst; split; [apply grows_refl | apply same_files_refl]].
  destruct (if truthy debug then Ok (get_debug_path self) else get_run_path clk self)
    as [rp|err];
    [|intros E; inversion E; subst; split; [apply grows_refl | apply same_files_refl]].
  destruct (FS.mkdir (fs w) (timestamp clk) rp) as [[[]|err] fs1] eqn:M1;
    [|intros E; inversion E; subst; cbn [fs]; eapply mkdir_grows; exact M1].
  destruct (mkdir_grows _ _ _ _ _ M1) as [G1 S1].
  cbn [fs stdout].
  unfold get_best_model_path, get_param_path, under_run_path.
  cbn [run_path with_run_path].
  match goal with
  | |- context [FS.mkdir fs1 ?b ?c] =>
      destruct (FS.mkdir fs1 b c) as [[[]|err] fs2] eqn:M2
  end;
    destruct (mkdir_grows _ _ _ _ _ M2) as [G2 S2];
    cbn [experiment_id_folder with_run_path]; rewrite ?F;
    intros E; inversion E; subst; cbn [fs];
    (split; [eapply grows_trans | eapply same_files_trans]; eassumption).
Qed.

(** A file directly under an existing path is read the same way after the
    file system has grown without touching its files. *)
Lemma read_file_child_stable (fs fs' : FS.t) (q : PurePath.t) (name : string) :
  grows fs fs' -> same_files (FS.nodes fs) (FS.nodes fs') ->
  FS.exists_ fs q = true ->
  PurePath.parse name = PurePath.mk "" [name] -> name <> ".." ->
  FS.read_file fs' (PurePath.truediv q name) = FS.read_file fs (PurePath.truediv q name).
Proof.
  intros G S Hq Hname Hdots.
  unfold PurePath.truediv. rewrite Hname. cbn [PurePath.is_absolute PurePath.root
    PurePath.parts String.eqb negb].
  set (p := PurePath.mk (PurePath.root q) (PurePath.parts q ++ [name])%list).
  revert Hq. unfold FS.exists_, FS.stat.
  destruct (FS.locate fs q) as [l0|err] eqn:L0; [|discriminate].
  destruct (FS.node_at (FS.nodes fs) l0) as [n0|] eqn:N0; [|discriminate]. intros _.
  assert (forall fs0 : FS.t, FS.cwd fs0 = FS.cwd fs ->
            FS.locate fs0 p =
            match FS.walk (FS.nodes fs0) (FS.start fs q) (PurePath.parts q)
                    (PurePath.str p) with
            | Ok l => FS.walk (FS.nodes fs0) l [name] (PurePath.str p)
            | Raise e => Raise e
            end) as Hloc.
  { intros fs0 C. unfold FS.locate. subst p. cbn [PurePath.parts].
    rewrite walk_app. unfold FS.start, PurePath.is_absolute. cbn [PurePath.root].
    now rewrite C. }
  unfold FS.locate in L0.
  pose proof (walk_extends _ _ _ (extends_refl (FS.nodes fs)) _ _ (PurePath.str p) _ L0)
    as L1.
  pose proof (walk_extends _ _ _ (proj1 G) _ _ (PurePath.str p) _ L0) as L2.
  destruct (node_at_extends _ _ _ _ (proj1 G) N0) as (n0' & N0' & K).
  unfold FS.read_file, FS.stat.
  rewrite (Hloc fs eq_refl), (Hloc fs' (proj2 G)), L1, L2.
  cbn [FS.walk]. rewrite N0, N0'.
  destruct n0 as [t0|c0 t0], n0' as [t0'|c0' t0']; try discriminate; [|reflexivity].
  destruct (String.eqb_spec name "..") as [E|_]; [contradiction|].
  rewrite !node_at_cons.
  destruct (FS.nodes fs !! (name :: l0)) as [[t|c t]|] eqn:A.
  - destruct (FS.nodes fs' !! (name :: l0)) as [[t'|c' t']|] eqn:B; try reflexivity.
    apply (proj2 (S _ _ _)) in B. congruence.
  - apply (proj1 (S _ _ _)) in A. now rewrite A.
  - destruct (FS.nodes fs' !! (name :: l0)) as [[t'|c' t']|] eqn:B; try reflexivity.
    apply (proj2 (S _ _ _)) in B. congruence.
Qed.

(** C3: after [resume_run] has succeeded, a [prepare] with any
    configuration, whatever it returns, leaves every file as it was: none
    is written, changed or removed, and the parameters file of the resumed
    run reads the same before and after.  On a manager without a resumed
    identity, a successful [prepare] has written the configuration to the
    parameters file. *)
Theorem resumed_prepare_keeps_parameters (e r : string)
    (self self1 : ExperimentManager) (w w1 : World) (ckpt : string)
    (clk : Clock) (cfg : dict) :
  resume_run e r self w = (Ok ckpt, self1, w1) ->
  (let w2 := snd (prepare clk cfg self1 w1) in
   let parameters :=
     PurePath.truediv (supposed_run_path self e r) "hyperparameters.json" in
   same_files (FS.nodes (fs w1)) (FS.nodes (fs w2))
   /\ FS.read_file (fs w2) parameters = FS.read_file (fs w1) parameters)
  /\ (forall fresh w0 cbs fresh' w0',
        experiment_id_folder fresh = None ->
        prepare clk cfg fresh w0 = (Ok cbs, fresh', w0') ->
        exists p,
          get_param_path fresh' = Ok p
          /\ FS.read_file (fs w0') p = Some (dumps true (Some 2%nat) (JDict cfg))).
Proof.
  intros H. split.
  - destruct (resume_run_ok _ _ _ _ _ _ _ H) as (Hex & Hself & Hfs).
    cbv zeta. rewrite prepare_eq.
    destruct (make_experiment_path clk (with_params self1 (Some cfg)) w1)
      as [[res self2] w2] eqn:E.
    assert (grows (fs w1) (fs w2) /\ same_files (FS.nodes (fs w1)) (FS.nodes (fs w2)))
      as [G S].
    { eapply (make_experiment_path_resumed clk _ _ _ _ _ e); [|exact E].
      now rewrite Hself. }
    assert (snd (match res with
                 | Ok _ => (callbacks_of self2, self2, w2)
                 | Raise err => (Raise err, self2, w2)
                 end) = w2) as -> by (destruct res; reflexivity).
    split; [exact S|].
    apply read_file_child_stable; try assumption.
    + now rewrite Hfs.
    + reflexivity.
    + discriminate.
  - intros fresh w0 cbs fresh' w0' F P. rewrite prepare_eq in P.
    destruct (make_experiment_path clk (with_params fresh (Some cfg)) w0)
      as [[[u|err] selfA] wA] eqn:E; [|discriminate].
    inversion P; subst. clear P.
    destruct (make_experiment_path_ok _ _ _ _ _ _ E)
      as (rp & fs1 & fs2 & Hc & M1 & Hself & M2 & Hout & Hwr).
    cbn [experiment_id_folder with_params] in Hwr. rewrite F in Hwr.
    exists (PurePath.truediv (FS.resolve (fs w0) rp) "hyperparameters.json").
    split; [now rewrite Hself|].
    eapply write_file_read. exact Hwr.
Qed.

(** ** Resuming a run that is not there *)

(** C4: when the path [Path(base) / experiment_id_folder / run_id_folder]
    does not exist, [resume_run] raises [FileNotFoundError] with
    [errno.ENOENT], and the file name the error carries is the text of that
    very path. *)
Theorem resume_run_not_found (self : ExperimentManager) (w : World) (e r : string) :
  FS.exists_ (fs w) (supposed_run_path self e r) = false ->
  fst (fst (resume_run e r self w)) =
  Raise (FileNotFoundError FS.ENOENT FS.strerror_ENOENT
           (PurePath.str (supposed_run_path self e r))).
Proof.
  intros H. unfold resume_run. run_py. now rewrite H.
Qed.

Lemma join_snoc (sep : string) (l : list string) (x : string) :
  l <> [] -> PyStr.join sep (l ++ [x]) = PyStr.join sep l ++ sep ++ x.
Proof.
  induction l as [|a l IH]; [contradiction|]. intros _.
  destruct l as [|b l]; [reflexivity|].
  change (PyStr.join sep ((a :: b :: l) ++ [x]))
    with (a ++ sep ++ PyStr.join sep ((b :: l) ++ [x])).
  rewrite IH by discriminate.
  change (PyStr.join sep (a :: b :: l)) with (a ++ sep ++ PyStr.join sep (b :: l)).
  now rewrite !append_assoc.
Qed.

Lemma str_parts (r : string) (ps : list string) :
  ps <> [] -> PurePath.str (PurePath.mk r ps) = r ++ PyStr.join "/" ps.
Proof.
  intros H. unfold PurePath.str. cbn [PurePath.root PurePath.parts].
  destruct r; [|reflexivity]. destruct ps; [contradiction | reflexivity].
Qed.

(** For a base directory written as [pathlib] prints it and two plain
    folder names, the text of the path is [{base}/{e}/{r}] letter for
    letter. *)
Lemma supposed_run_text (self : ExperimentManager) (e r : string) :
  PurePath.str (PurePath.parse (base_experiment_path self)) = base_experiment_path self ->
  PurePath.parts (PurePath.parse (base_experiment_path self)) <> [] ->
  PurePath.parse e = PurePath.mk "" [e] ->
  PurePath.parse r = PurePath.mk "" [r] ->
  PurePath.str (supposed_run_path self e r) =
  base_experiment_path self ++ "/" ++ e ++ "/" ++ r.
Proof.
  intros Hb Hne He Hr. unfold supposed_run_path, PurePath.truediv.
  rewrite He, Hr. cbn [PurePath.is_absolute PurePath.root PurePath.parts String.eqb negb].
  destruct (PurePath.parse (base_experiment_path self)) as [rt ps].
  cbn [PurePath.root PurePath.parts] in *.
  rewrite str_parts in Hb by exact Hne.
  rewrite str_parts by (destruct ps; [contradiction | discriminate]).
  rewrite join_snoc by (destruct ps; [contradiction | discriminate]).
  rewrite join_snoc by exact Hne.
  rewrite <- Hb. now rewrite !append_assoc.
Qed.

(** C10: when [resume_run] fails because the run path does not exist, the
    manager is left as it was, the recorded run id and experiment folder in
    particular, and so is the world; the experiment and run identifiers
    derived afterwards are those derived before the call. *)
Theorem resume_run_not_found_keeps_identity (self : ExperimentManager) (w : World)
    (e r : string) :
  FS.exists_ (fs w) (supposed_run_path self e r) = false ->
  let self' := snd (fst (resume_run e r self w)) in
  self' = self
  /\ snd (resume_run e r self w) = w
  /\ run_id self' = run_id self
  /\ experiment_id_folder self' = experiment_id_folder self
  /\ get_experiment_id self' = get_experiment_id self
  /\ (forall clk, get_run_id clk self' = get_run_id clk self).
Proof.
  intros H. unfold resume_run. run_py. rewrite H. cbn [fst snd]. repeat split.
Qed.

(** ** Preparing without a configuration *)

(** C9, as the code has it: [prepare] takes the configuration as its
    argument and stores it before anything else, so what it does never
    depends on a configuration set earlier and it has no failure for a
    missing one; it is [make_experiment_path], called on a manager whose
    configuration was never set, that fails, with a [TypeError] and without
    touching the manager or the world. *)
Theorem prepare_sets_configuration (clk : Clock) (cfg : dict)
    (self : ExperimentManager) (w : World) :
  prepare clk cfg self w = prepare clk cfg (with_params self None) w
  /\ make_experiment_path clk (with_params self None) w =
     (Raise (TypeError "'NoneType' object is not subscriptable"),
      with_params self None, w).
Proof.
  split.
  - rewrite !prepare_eq. reflexivity.
  - reflexivity.
Qed.

(** ** The order of floating-point numbers *)

Ltac cases_compare :=
  repeat match goal with
         | |- context [Pos.compare_cont Eq ?a ?b] =>
             change (Pos.compare_cont Eq a b) with (Pos.compare a b)
         | H : context [Pos.compare_cont Eq ?a ?b] |- _ =>
             change (Pos.compare_cont Eq a b) with (Pos.compare a b) in H
         end;
  repeat match goal with
         | H : context [Z.compare ?a ?b] |- _ =>
             destruct (Z.compare_spec a b); simpl in H; try discriminate H
         | H : context [Pos.compare ?a ?b] |- _ =>
             destruct (Pos.compare_spec a b); simpl in H; try discriminate H
         end;
  repeat match goal with
         | |- context [Z.compare ?a ?b] =>
             destruct (Z.compare_spec a b); simpl; try reflexivity
         | |- context [Pos.compare ?a ?b] =>
             destruct (Pos.compare_spec a b); simpl; try reflexivity
         end;
  try reflexivity; try discriminate; try lia.

Lemma SFleb_trans (x y z : spec_float) :
  SFleb x y = true -> SFleb y z = true -> SFleb x z = true.
Proof.
  unfold SFleb, SFcompare.
  destruct x as [sx|sx| |sx mx ex], y as [sy|sy| |sy my ey], z as [sz|sz| |sz mz ez];
    try destruct sx; try destruct sy; try destruct sz;
    try discriminate; try reflexivity; intros H1 H2; cases_compare.
Qed.

Lemma SFleb_total (x y : spec_float) :
  PyFloat.is_nan x = false -> PyFloat.is_nan y = false ->
  SFltb x y = false -> SFleb y x = true.
Proof.
  unfold SFleb, SFltb, SFcompare.
  destruct x as [sx|sx| |sx mx ex], y as [sy|sy| |sy my ey];
    try destruct sx; try destruct sy;
    try discriminate; try reflexivity; intros _ _ H; cases_compare.
Qed.

Lemma SFltb_leb (x y : spec_float) : SFltb x y = true -> SFleb x y = true.
Proof.
  unfold SFleb, SFltb. destruct (SFcompare x y) as [[]|]; try discriminate; reflexivity.
Qed.

Lemma SFleb_refl (x : spec_float) : PyFloat.is_nan x = false -> SFleb x x = true.
Proof.
  unfold SFleb, SFcompare. destruct x as [sx|sx| |sx mx ex]; try destruct sx;
    try discriminate; try reflexivity; intros _; cases_compare.
Qed.

Lemma SFleb_not_nan (x y : spec_float) :
  SFleb x y = true -> PyFloat.is_nan x = false /\ PyFloat.is_nan y = false.
Proof.
  unfold SFleb, SFcompare. destruct x, y; try discriminate; split; reflexivity.
Qed.

Lemma SFeqb_leb (x y : spec_float) :
  SFeqb x y = true <-> SFleb x y = true /\ SFleb y x = true.
Proof.
  unfold SFeqb, SFleb, SFcompare.
  destruct x as [sx|sx| |sx mx ex], y as [sy|sy| |sy my ey];
    try destruct sx; try destruct sy; split; try intros [H1 H2]; try intros H;
    try discriminate; try (split; reflexivity); try reflexivity;
    try split; cases_compare.
Qed.

(** ** The minimum of a column *)

Lemma fold_min_spec (vals : list spec_float) :
  forall acc,
    match acc with Some a => PyFloat.is_nan a = false | None => True end ->
    match fold_left Pandas.min_step vals acc with
    | None => acc = None /\ Forall (fun x => PyFloat.is_nan x = true) vals
    | Some m =>
        PyFloat.is_nan m = false
        /\ (acc = Some m \/ In m vals)
        /\ (forall a, acc = Some a -> SFleb m a = true)
        /\ Forall (fun x => PyFloat.is_nan x = true \/ SFleb m x = true) vals
    end.
Proof.
  induction vals as [|x vals IH]; intros acc Hacc.
  - simpl. destruct acc as [a|]; [|split; [reflexivity|constructor]].
    repeat split; [exact Hacc | now left | | constructor].
    intros a' E. inversion E; subst. now apply SFleb_refl.
  - cbn [fold_left]. specialize (IH (Pandas.min_step acc x)).
    unfold Pandas.min_step in *.
    destruct (PyFloat.is_nan x) eqn:Nx.
    + specialize (IH Hacc).
      destruct (fold_left _ vals acc) as [m|].
      * destruct IH as (Hm & Hin & Hle & Hall). repeat split; try assumption.
        -- destruct Hin; [now left | right; now right].
        -- constructor; [now left | exact Hall].
      * destruct IH as [Ha Hall]. split; [exact Ha | now constructor].
    + destruct acc as [a|].
      * destruct (SFltb x a) eqn:Lt.
        -- specialize (IH Nx).
           destruct (fold_left _ vals (Some x)) as [m|]; [|destruct IH; discriminate].
           destruct IH as (Hm & Hin & Hle & Hall).
           pose proof (Hle x eq_refl) as Hmx. repeat split; try assumption.
           ++ right. destruct Hin as [E|Hin]; [inversion E; now left | now right].
           ++ intros a' E. inversion E; subst.
              eapply SFleb_trans; [exact Hmx | now apply SFltb_leb].
           ++ constructor; [now right | exact Hall].
        -- specialize (IH Hacc).
           destruct (fold_left _ vals (Some a)) as [m|]; [|destruct IH; discriminate].
           destruct IH as (Hm & Hin & Hle & Hall).
           pose proof (Hle a eq_refl) as Hma. repeat split; try assumption.
           ++ destruct Hin as [E|Hin]; [now left | right; now right].
           ++ constructor; [|exact Hall]. right.
              eapply SFleb_trans; [exact Hma | now apply SFleb_total].
      * specialize (IH Nx).
        destruct (fold_left _ vals (Some x)) as [m|]; [|destruct IH; discriminate].
        destruct IH as (Hm & Hin & Hle & Hall).
        pose proof (Hle x eq_refl) as Hmx. repeat split; try assumption.
        -- right. destruct Hin as [E|Hin]; [inversion E; now left | now right].
        -- discriminate.
        -- constructor; [now right | exact Hall].
Qed.

(** A value of the column equals the column's minimum exactly when it is a
    least number of the column. *)
Lemma eq_min_is_least (vals : list spec_float) (v : spec_float) :
  In v vals -> SFeqb v (Pandas.series_min vals) = is_least vals v.
Proof.
  intros Hv. unfold Pandas.series_min, is_least.
  pose proof (fold_min_spec vals None I) as H.
  destruct (fold_left Pandas.min_step vals None) as [m|].
  - destruct H as (Hm & [E|Hin] & _ & Hall); [discriminate|].
    rewrite List.Forall_forall in Hall.
    destruct (SFeqb v m) eqn:E.
    + symmetry. apply SFeqb_leb in E as [Hvm Hmv].
      destruct (SFleb_not_nan _ _ Hvm) as [Nv _]. rewrite Nv. simpl.
      apply forallb_forall. intros x Hx.
      destruct (Hall x Hx) as [Nx|Hmx]; [now rewrite Nx|].
      rewrite (SFleb_trans _ _ _ Hvm Hmx). apply orb_true_r.
    + symmetry. apply not_true_is_false. intros L.
      apply andb_prop in L as [Nv L]. apply negb_true_iff in Nv.
      rewrite forallb_forall in L.
      assert (SFleb v m = true) as Hvm.
      { specialize (L m Hin). rewrite Hm in L. exact L. }
      assert (SFleb m v = true) as Hmv.
      { destruct (Hall v Hv) as [N|Hmv]; [congruence | exact Hmv]. }
      assert (SFeqb v m = true) by (apply SFeqb_leb; now split). congruence.
  - destruct H as [_ Hall]. rewrite List.Forall_forall in Hall.
    rewrite (Hall v Hv). destruct v; reflexivity.
Qed.

Lemma select_map {A} (f : A -> bool) (l : list A) :
  Pandas.select l (map f l) = List.filter f l.
Proof.
  induction l as [|x l IH]; simpl; [reflexivity|]. rewrite IH. reflexivity.
Qed.

Lemma index_of_lt (c : string) (cols : list string) (i : nat) :
  Pandas.index_of c cols = Some i -> (i < length cols)%nat.
Proof.
  revert i. induction cols as [|c' cols IH]; simpl; intros i; [discriminate|].
  destruct (String.eqb c' c).
  - intros E; inversion E; lia.
  - destruct (Pandas.index_of c cols) as [j|]; [|discriminate].
    intros E; inversion E; subst. specialize (IH j eq_refl). lia.
Qed.

Lemma index_of_snoc (c : string) (cols : list string) :
  Pandas.index_of c cols = None ->
  Pandas.index_of c (cols ++ [c]) = Some (length cols).
Proof.
  induction cols as [|c' cols IH]; simpl.
  - now rewrite String.eqb_refl.
  - destruct (String.eqb c' c); [discriminate|].
    destruct (Pandas.index_of c cols); [discriminate|].
    intros _. now rewrite (IH eq_refl).
Qed.

Lemma index_of_snoc_other (c d : string) (cols : list string) :
  Pandas.index_of c cols = None -> c <> d ->
  Pandas.index_of c (cols ++ [d]) = None.
Proof.
  intros H Hne. induction cols as [|c' cols IH]; simpl in *.
  - destruct (String.eqb_spec d c); [congruence | reflexivity].
  - destruct (String.eqb c' c); [discriminate|].
    destruct (Pandas.index_of c cols); [discriminate|].
    now rewrite (IH eq_refl).
Qed.

Lemma length_pad_row (n : nat) (r : list spec_float) :
  length (Pandas.pad_row n r) = n.
Proof.
  unfold Pandas.pad_row. rewrite List.length_firstn, List.length_app, List.repeat_length.
  lia.
Qed.

Lemma cell_set_cell (i : nat) (x : spec_float) (r : list spec_float) :
  (i < length r)%nat -> Pandas.cell i (Pandas.set_cell i x r) = x.
Proof.
  revert r. induction i as [|i IH]; intros [|y r] H; simpl in *; try lia.
  - reflexivity.
  - apply IH. lia.
Qed.

Lemma cell_snoc (x : spec_float) (r : list spec_float) :
  Pandas.cell (length r) (r ++ [x]) = x.
Proof.
  unfold Pandas.cell. induction r as [|y r IH]; simpl; [reflexivity | exact IH].
Qed.

(** Every row of the frame holds the elapsed time in the [elapsed] column. *)
Lemma with_elapsed_column (header : list string) (lines : list (list spec_float))
    (elapsed : spec_float) :
  exists j,
    Pandas.index_of "elapsed" (Pandas.columns (with_elapsed header lines elapsed)) = Some j
    /\ Forall (fun r => Pandas.cell j r = elapsed)
              (Pandas.rows (with_elapsed header lines elapsed)).
Proof.
  unfold with_elapsed, Pandas.setitem. cbn [Pandas.columns Pandas.rows].
  destruct (Pandas.index_of "elapsed" header) as [j|] eqn:E.
  - exists j. cbn [Pandas.columns Pandas.rows]. split; [exact E|].
    apply List.Forall_forall. intros r Hr.
    apply List.in_map_iff in Hr as (r0 & <- & Hr0).
    apply List.in_map_iff in Hr0 as (r1 & <- & _).
    apply cell_set_cell. rewrite length_pad_row. eapply index_of_lt. exact E.
  - exists (length header). cbn [Pandas.columns Pandas.rows].
    split; [now apply index_of_snoc|].
    apply List.Forall_forall. intros r Hr.
    apply List.in_map_iff in Hr as (r0 & <- & Hr0).
    apply List.in_map_iff in Hr0 as (r1 & <- & _).
    rewrite <- (length_pad_row (length header) r1) at 1. apply cell_snoc.
Qed.

Lemma on_train_end_eq (self : WriteBestPerformances) (t0 timer : spec_float)
    (c : string) (header : list string) (lines : list (list spec_float)) :
  BestPerformances.on_train_end timer (Pandas.CsvText (c :: header) lines)
    (BestPerformances.on_train_begin t0 self) =
  let df := with_elapsed (c :: header) lines (SFsub 53 1024 timer t0) in
  match Pandas.getitem df (watched_metric self) with
  | Raise e => Raise e
  | Ok col =>
      Ok (output_path self,
          Pandas.getitem_mask df (Pandas.series_eq col (Pandas.series_min col)))
  end.
Proof. reflexivity. Qed.

(** C7: on a log with a header in which the watched metric is a column,
    the extractor emits, in the order of the log, exactly the rows whose
    watched value is a least number of the column: every row tied for the
    minimum and no other; each emitted row holds the same elapsed time, the
    difference of the two clock readings, in the [elapsed] column. *)
Theorem best_rows (self : WriteBestPerformances) (t0 timer : spec_float)
    (header : list string) (lines : list (list spec_float)) (i : nat) :
  header <> [] ->
  Pandas.index_of (watched_metric self)
    (Pandas.columns (with_elapsed header lines (SFsub 53 1024 timer t0))) = Some i ->
  let elapsed := SFsub 53 1024 timer t0 in
  let df := with_elapsed header lines elapsed in
  exists best j,
    BestPerformances.on_train_end timer (Pandas.CsvText header lines)
      (BestPerformances.on_train_begin t0 self) = Ok (output_path self, best)
    /\ Pandas.columns best = Pandas.columns df
    /\ Pandas.rows best =
       List.filter
         (fun r => is_least (map (Pandas.cell i) (Pandas.rows df)) (Pandas.cell i r))
         (Pandas.rows df)
    /\ Pandas.index_of "elapsed" (Pandas.columns best) = Some j
    /\ Forall (fun r => Pandas.cell j r = elapsed) (Pandas.rows best).
Proof.
  intros Hne Hi. cbv zeta.
  destruct header as [|c header]; [contradiction|].
  pose proof (on_train_end_eq self t0 timer c header lines) as Heq. cbv zeta in Heq.
  destruct (with_elapsed_column (c :: header) lines (SFsub 53 1024 timer t0))
    as (j & Hj & Hall).
  set (df := with_elapsed (c :: header) lines (SFsub 53 1024 timer t0)) in *.
  unfold Pandas.getitem in Heq. rewrite Hi in Heq.
  assert (Pandas.rows (Pandas.getitem_mask df
            (Pandas.series_eq (map (Pandas.cell i) (Pandas.rows df))
               (Pandas.series_min (map (Pandas.cell i) (Pandas.rows df))))) =
          List.filter
            (fun r => is_least (map (Pandas.cell i) (Pandas.rows df)) (Pandas.cell i r))
            (Pandas.rows df)) as Hrows.
  { unfold Pandas.getitem_mask, Pandas.series_eq. cbn [Pandas.rows].
    rewrite map_map, select_map. apply List.filter_ext_in. intros r Hr.
    apply eq_min_is_least. now apply List.in_map. }
  eexists. exists j.
  split; [exact Heq|]. split; [reflexivity|]. split; [exact Hrows|].
  split; [exact Hj|]. rewrite Hrows.
  rewrite List.Forall_forall in *. intros r Hr. apply List.filter_In in Hr as [Hr _].
  now apply Hall.
Qed.

(** C8, as the code has it: a log file without a header line makes the
    extractor fail with [EmptyDataError], and a watched metric that is
    neither a column of the log nor [elapsed] makes it fail with
    [KeyError]; a log that has its header, the watched column in it, and no
    row does not make it fail: the extractor emits no record. *)
Theorem extractor_failures (self : WriteBestPerformances) (t0 timer : spec_float) :
  let cb := BestPerformances.on_train_begin t0 self in
  (forall lines,
      BestPerformances.on_train_end timer (Pandas.CsvText [] lines) cb =
      Raise (EmptyDataError "No columns to parse from file"))
  /\ (forall header lines,
        header <> [] ->
        Pandas.index_of (watched_metric self) header = None ->
        watched_metric self <> "elapsed" ->
        BestPerformances.on_train_end timer (Pandas.CsvText header lines) cb =
        Raise (KeyError (watched_metric self)))
  /\ (forall header i,
        Pandas.index_of (watched_metric self) header = Some i ->
        exists columns,
          BestPerformances.on_train_end timer (Pandas.CsvText header []) cb =
          Ok (output_path self, Pandas.mk columns [])).
Proof.
  cbv zeta. split; [reflexivity|]. split.
  - intros header lines Hne Hi Hel. destruct header as [|c header]; [contradiction|].
    rewrite on_train_end_eq. cbv zeta.
    unfold with_elapsed, Pandas.setitem, Pandas.getitem. cbn [Pandas.columns Pandas.rows].
    destruct (Pandas.index_of "elapsed" (c :: header)); cbn [Pandas.columns].
    + now rewrite Hi.
    + now rewrite (index_of_snoc_other _ _ _ Hi Hel).
  - intros header i Hi. destruct header as [|c header]; [discriminate|].
    rewrite on_train_end_eq. cbv zeta.
    unfold with_elapsed, Pandas.setitem, Pandas.getitem. cbn [Pandas.columns Pandas.rows map].
    destruct (Pandas.index_of "elapsed" (c :: header)) as [j|] eqn:E;
      cbn [Pandas.columns Pandas.rows map].
    + rewrite Hi. eexists. reflexivity.
    + assert (exists k, Pandas.index_of (watched_metric self)
                          ((c :: header) ++ ["elapsed"]) = Some k) as (k & Hk).
      { clear E. revert i Hi. generalize (c :: header).
        induction l as [|c' l IH]; simpl; intros i Hi; [discriminate|].
        destruct (String.eqb c' (watched_metric self)); [now eexists|].
        destruct (Pandas.index_of (watched_metric self) l) as [i'|]; [|discriminate].
        destruct (IH i' eq_refl) as (k & Hk). simpl in Hk. rewrite Hk. now eexists. }
      rewrite Hk. eexists. reflexivity.
Qed.

(** ** Resuming a run without checkpoints *)

Lemma chars_app (a b : string) :
  Fnmatch.chars (a ++ b) = (Fnmatch.chars a ++ Fnmatch.chars b)%list.
Proof.
  unfold Fnmatch.chars. induction a as [|c a IH]; simpl; [reflexivity|].
  now rewrite IH.
Qed.

Lemma has_magic_app (a b : string) :
  Glob.has_magic (a ++ b) = Glob.has_magic a || Glob.has_magic b.
Proof. unfold Glob.has_magic. now rewrite chars_app, existsb_app. Qed.

Lemma append_not_empty (a : string) (c : ascii) (b : string) :
  String.eqb (a ++ String c b) "" = false.
Proof. destruct a; reflexivity. Qed.

Lemma truediv_name (p : PurePath.t) (name : string) :
  PurePath.parse name = PurePath.mk "" [name] ->
  PurePath.truediv p name = PurePath.mk (PurePath.root p) (PurePath.parts p ++ [name]).
Proof. intros H. unfold PurePath.truediv. now rewrite H. Qed.

Lemma str_snoc (r : string) (ps : list string) (x : string) :
  exists a, PurePath.str (PurePath.mk r (ps ++ [x])) = a ++ x.
Proof.
  rewrite str_parts by (destruct ps; discriminate).
  destruct ps as [|p ps].
  - exists r. reflexivity.
  - rewrite join_snoc by discriminate. exists (r ++ PyStr.join "/" (p :: ps) ++ "/").
    now rewrite !append_assoc.
Qed.

Lemma iglob_eq (fs : FS.t) (r : string) (rparts : list string) (dironly : bool) :
  Glob.iglob fs r rparts dironly =
  let pathname := PurePath.str (PurePath.mk r (rev rparts)) in
  if negb (Glob.has_magic pathname) then
    if FS.exists_ fs (PurePath.mk r (rev rparts)) then [pathname] else []
  else
    match rparts with
    | [] => []
    | basename :: rdir =>
        let dirname := Glob.dirname_of r rdir in
        if String.eqb dirname "" then Glob.glob1 fs "." basename dironly
        else
          let dirs :=
            if Glob.has_magic dirname then Glob.iglob fs r rdir true else [dirname] in
          flat_map
            (fun d =>
               map (Glob.join d)
                   (if Glob.has_magic basename then Glob.glob1 fs d basename dironly
                    else Glob.glob0 fs d basename))
            dirs
    end.
Proof. destruct rparts; reflexivity. Qed.

(** The pattern [{run}/models/*] finds nothing when the text of
    [{run}/models] has no wildcard and the directory has no visible
    entry. *)
Lemma glob_models_empty (fs : FS.t) (run : PurePath.t) :
  let models := PurePath.truediv run "models" in
  Glob.has_magic (PurePath.str models) = false ->
  List.filter (fun x => negb (Glob.ishidden x))
              (FS.iterdir fs (PurePath.str models) false) = [] ->
  Glob.glob fs (PurePath.truediv models "*") = [].
Proof.
  cbv zeta. rewrite !truediv_name by reflexivity. cbn [PurePath.root PurePath.parts].
  intros Hm Hempty. unfold Glob.glob. cbn [PurePath.root PurePath.parts].
  rewrite iglob_eq. cbv zeta. rewrite rev_involutive.
  destruct (str_snoc (PurePath.root run) (PurePath.parts run ++ ["models"]) "*")
    as (a & Ha).
  rewrite Ha, has_magic_app. replace (Glob.has_magic "*") with true by reflexivity.
  rewrite orb_true_r. cbn [negb].
  rewrite !rev_app_distr. cbn [rev app].
  unfold Glob.dirname_of.
  replace (PurePath.mk (PurePath.root run) (rev ("models" :: rev (PurePath.parts run))))
    with (PurePath.mk (PurePath.root run) (PurePath.parts run ++ ["models"])%list)
    by (cbn [rev]; now rewrite rev_involutive).
  destruct (str_snoc (PurePath.root run) (PurePath.parts run) "models") as (b & Hb).
  rewrite Hb in *. change "models" with (String "m" "odels") at 1.
  rewrite append_not_empty. change (String "m" "odels") with "models".
  rewrite Hm. cbn [flat_map].
  unfold Glob.glob1. replace (Glob.ishidden "*") with false by reflexivity.
  rewrite Hempty. reflexivity.
Qed.

(** When the run directory exists, the text of its [models] path has no
    wildcard in it and that directory has no visible entry, [resume_run]
    fails with the [ValueError] of [max] on an empty sequence, after having
    recorded the two identifiers. *)
Lemma resume_run_no_checkpoint (self : ExperimentManager) (w : World) (e r : string) :
  let models := PurePath.truediv (supposed_run_path self e r) "models" in
  FS.exists_ (fs w) (supposed_run_path self e r) = true ->
  Glob.has_magic (PurePath.str models) = false ->
  List.filter (fun x => negb (Glob.ishidden x))
              (FS.iterdir (fs w) (PurePath.str models) false) = [] ->
  resume_run e r self w =
  (Raise (ValueError "max() arg is an empty sequence"),
   with_experiment_id_folder (with_run_id self (Some r)) (Some e), w).
Proof.
  cbv zeta. intros Hex Hm Hempty. unfold resume_run. run_py. rewrite Hex.
  rewrite (glob_models_empty (fs w) _ Hm Hempty). reflexivity.
Qed.

(** * The model at work *)

Example experiment_id_sample :
  get_experiment_id (with_params Sample.manager (Some Sample.config)) =
  Ok "exp--53014830-11079130".
Proof. vm_compute. reflexivity. Qed.

(** C1, as stated, fails: with the two default monitored keys the
    identifier has two hyphens after [exp], so it is not [exp-] followed by
    the segments joined by single hyphens. *)
Lemma experiment_id_double_hyphen :
  let self := with_params Sample.manager (Some Sample.config) in
  hash_8 (JDict [("units", JInt 64); ("act", JStr "relu")]) = Ok "53014830"
  /\ hash_8 (JDict [("lr", JFloat Sample.lr); ("epochs", JInt 10)]) = Ok "11079130"
  /\ get_experiment_id self = Ok "exp--53014830-11079130"
  /\ get_experiment_id self <> Ok ("exp-" ++ PyStr.join "-" ["53014830"; "11079130"]).
Proof. vm_compute. repeat split. discriminate. Qed.

Lemma experiment_id_form_witness :
  exists segs,
    Forall2 (fun k h => exists v, PyDict.get Sample.config k = Some v /\ segment_of v h)
            ["model"; "training"] segs
    /\ get_experiment_id (with_params Sample.manager (Some Sample.config)) =
       Ok ("exp--" ++ PyStr.join "-" segs).
Proof.
  apply (experiment_id_form (with_params Sample.manager (Some Sample.config))
           Sample.config);
    [reflexivity | reflexivity | discriminate | reflexivity].
Defined.

Lemma experiment_id_order_independent_witness :
  get_experiment_id (with_params Sample.manager (Some Sample.config)) =
  get_experiment_id (with_params Sample.manager (Some Sample.config')).
Proof.
  apply (experiment_id_order_independent Sample.manager Sample.config Sample.config').
  vm_compute. reflexivity.
Defined.

Example resume_run_sample :
  fst (fst Sample.resumed) =
  Ok "experiments/exp--1/run--20-05-07--14-03/models/model.02-0.6000.hdf5".
Proof. vm_compute. reflexivity. Qed.

Lemma resumed_prepare_keeps_parameters_witness :
  let self1 := snd (fst Sample.resumed) in
  let w1 := snd Sample.resumed in
  let w2 := snd (prepare Sample.later Sample.config self1 w1) in
  let parameters :=
    PurePath.truediv (supposed_run_path Sample.manager "exp--1" Sample.run_name)
      "hyperparameters.json" in
  same_files (FS.nodes (fs w1)) (FS.nodes (fs w2))
  /\ FS.read_file (fs w2) parameters = FS.read_file (fs w1) parameters.
Proof.
  refine (proj1 (resumed_prepare_keeps_parameters "exp--1" Sample.run_name
                   Sample.manager (snd (fst Sample.resumed)) Sample.with_run
                   (snd Sample.resumed)
                   "experiments/exp--1/run--20-05-07--14-03/models/model.02-0.6000.hdf5"
                   Sample.later Sample.config _)).
  vm_compute. reflexivity.
Defined.

Example resumed_prepare_sample :
  let self1 := snd (fst Sample.resumed) in
  let w1 := snd Sample.resumed in
  let out := prepare Sample.later Sample.config self1 w1 in
  let parameters :=
    PurePath.parse "experiments/exp--1/run--20-05-07--14-03/hyperparameters.json" in
  is_ok (fst (fst out)) = true
  /\ FS.read_file (fs w1) parameters = Some "the original parameters"
  /\ FS.read_file (fs (snd out)) parameters = Some "the original parameters".
Proof. vm_compute. repeat split. Qed.

Example fresh_prepare_sample :
  let out := Sample.prepared in
  fst (fst out) = Ok Sample.callbacks
  /\ get_param_path (snd (fst out)) =
     Ok (PurePath.parse
           "/home/u/experiments/exp--53014830-11079130/run--20-05-07--14-03/hyperparameters.json")
  /\ FS.read_file (fs (snd out))
       (PurePath.parse
          "experiments/exp--53014830-11079130/run--20-05-07--14-03/hyperparameters.json")
     = Some (dumps true (Some 2%nat) (JDict Sample.config)).
Proof. vm_compute. repeat split. Qed.

Lemma resume_run_not_found_witness :
  fst (fst (resume_run "exp--1" "run--1" Sample.manager Sample.empty_home)) =
  Raise (FileNotFoundError 2 "No such file or directory" "experiments/exp--1/run--1").
Proof.
  apply (resume_run_not_found Sample.manager Sample.empty_home "exp--1" "run--1").
  vm_compute. reflexivity.
Defined.

Lemma resume_run_not_found_keeps_identity_witness :
  let self' := snd (fst (resume_run "exp--1" "run--1" Sample.manager Sample.empty_home)) in
  self' = Sample.manager
  /\ snd (resume_run "exp--1" "run--1" Sample.manager Sample.empty_home)
     = Sample.empty_home
  /\ run_id self' = run_id Sample.manager
  /\ experiment_id_folder self' = experiment_id_folder Sample.manager
  /\ get_experiment_id self' = get_experiment_id Sample.manager
  /\ (forall clk, get_run_id clk self' = get_run_id clk Sample.manager).
Proof.
  apply (resume_run_not_found_keeps_identity Sample.manager Sample.empty_home
           "exp--1" "run--1").
  vm_compute. reflexivity.
Defined.

(** C5 fails on the code: the run directory [run[1]] exists and its
    [models] directory is empty, yet [resume_run] does not fail.  The
    brackets are read as a wildcard by [glob], which then lists the
    checkpoints of the run [run1] beside it, and the latest of these is
    returned. *)
Theorem resume_run_bracket_folder :
  let fs0 := fs Sample.with_bracket_run in
  let run := supposed_run_path Sample.manager "exp--1" "run[1]" in
  let models := PurePath.truediv run "models" in
  FS.exists_ fs0 run = true
  /\ FS.is_dir fs0 models = true
  /\ FS.iterdir fs0 (PurePath.str models) false = []
  /\ fst (fst (resume_run "exp--1" "run[1]" Sample.manager Sample.with_bracket_run)) =
     Ok "experiments/exp--1/run1/models/model.01-0.7000.hdf5".
Proof. vm_compute. repeat split. Qed.

Example resume_run_no_checkpoint_sample :
  resume_run "exp--1" "run1" Sample.manager
    (mkWorld (FS.mk (delete (rev ["home"; "u"; "experiments"; "exp--1"; "run1";
                                  "models"; "model.01-0.7000.hdf5"])
                            (FS.nodes (fs Sample.with_bracket_run)))
                    ["u"; "home"]) []) =
  (Raise (ValueError "max() arg is an empty sequence"),
   with_experiment_id_folder (with_run_id Sample.manager (Some "run1")) (Some "exp--1"),
   mkWorld (FS.mk (delete (rev ["home"; "u"; "experiments"; "exp--1"; "run1";
                                "models"; "model.01-0.7000.hdf5"])
                          (FS.nodes (fs Sample.with_bracket_run)))
                  ["u"; "home"]) []).
Proof.
  apply resume_run_no_checkpoint; vm_compute; reflexivity.
Qed.

Lemma prepare_twice_witness :
  exists w2,
    prepare Sample.later Sample.config (snd (fst Sample.prepared)) (snd Sample.prepared)
    = (Ok Sample.callbacks, snd (fst Sample.prepared), w2).
Proof.
  apply (prepare_twice Sample.clock Sample.later Sample.config Sample.manager
           (snd (fst Sample.prepared)) Sample.empty_home (snd Sample.prepared)
           Sample.callbacks).
  - vm_compute. reflexivity.
  - vm_compute. reflexivity.
Defined.

Lemma best_rows_witness :
  BestPerformances.on_train_end Sample.f12_5 Sample.log Sample.extractor =
  Ok ("performances.json",
      Pandas.mk ["loss"; "elapsed"]
        [[Sample.f0_2; Sample.f2_5]; [Sample.f0_2; Sample.f2_5]])
  /\ exists best j,
       BestPerformances.on_train_end Sample.f12_5 Sample.log Sample.extractor =
       Ok ("performances.json", best)
       /\ Pandas.columns best = ["loss"; "elapsed"]
       /\ Pandas.rows best =
          List.filter
            (fun r => is_least [Sample.f0_5; Sample.f0_2; Sample.f0_2; Sample.f0_8]
                               (Pandas.cell 0 r))
            [[Sample.f0_5; Sample.f2_5]; [Sample.f0_2; Sample.f2_5];
             [Sample.f0_2; Sample.f2_5]; [Sample.f0_8; Sample.f2_5]]
       /\ Pandas.index_of "elapsed" (Pandas.columns best) = Some j
       /\ Forall (fun r => Pandas.cell j r = Sample.f2_5) (Pandas.rows best).
Proof.
  split; [vm_compute; reflexivity|].
  apply (best_rows Sample.callback Sample.f10 Sample.f12_5 ["loss"]
           [[Sample.f0_5]; [Sample.f0_2]; [Sample.f0_2]; [Sample.f0_8]] 0%nat).
  - discriminate.
  - reflexivity.
Defined.

(** C8, as stated, fails: a log that has its header line and no row does
    not make the extractor fail; it emits an empty list of records. *)
Lemma header_only_log_does_not_fail :
  BestPerformances.on_train_end Sample.f12_5 Sample.header_only Sample.extractor =
  Ok ("performances.json", Pandas.mk ["epoch"; "loss"; "elapsed"] []).
Proof. vm_compute. reflexivity. Qed.

(** C9, as stated, fails: on a manager whose configuration was never set,
    [prepare] succeeds. *)
Lemma prepare_without_configuration :
  params Sample.manager = None
  /\ fst (fst (prepare Sample.clock Sample.config Sample.manager Sample.empty_home))
     = Ok Sample.callbacks.
Proof. vm_compute. split; reflexivity. Qed.

(** * Further properties of the code *)

(** ** The experiment identifier: missing keys and the shape of a segment *)

Lemma hash_keys_first_missing (cfg : dict) (keys : list string) (acc : string) :
  match first_missing cfg keys with
  | Some k => hash_keys (Some cfg) keys acc = Raise (KeyError k)
  | None => is_ok (hash_keys (Some cfg) keys acc) = true
  end.
Proof.
  revert acc. induction keys as [|k keys IH]; intros acc; [reflexivity|].
  cbn [first_missing hash_keys subscript]. unfold has_key.
  destruct (PyDict.get cfg k) as [v|]; [|reflexivity].
  destruct (hash_8_segment v) as (h & -> & _). apply IH.
Qed.

(** X1: on a manager that was not resumed, [get_experiment_id] returns an
    identifier exactly when the configuration has every monitored key;
    otherwise it raises the [KeyError] of the first monitored key, in the
    order of the list, that the configuration lacks. *)
Theorem experiment_id_missing_key (self : ExperimentManager) (cfg : dict) :
  experiment_id_folder self = None ->
  params self = Some cfg ->
  match first_missing cfg (monitored_param_keys self) with
  | Some k => get_experiment_id self = Raise (KeyError k)
  | None => is_ok (get_experiment_id self) = true
  end.
Proof.
  intros F P. unfold get_experiment_id. rewrite F, P.
  pose proof (hash_keys_first_missing cfg (monitored_param_keys self) "") as H.
  destruct (first_missing cfg (monitored_param_keys self)) as [k|].
  - now rewrite H.
  - destruct (hash_keys (Some cfg) (monitored_param_keys self) ""); [reflexivity|].
    discriminate.
Qed.

(** ** Decimal digits *)

Lemma string_of_uint_digits (d : Decimal.uint) :
  all_digits (NilEmpty.string_of_uint d) = true.
Proof.
  unfold all_digits. induction d; simpl; try reflexivity; exact IHd.
Qed.

Lemma of_int_digits (n : Z) :
  0 <= n -> all_digits (PyStr.of_int n) = true /\ PyStr.of_int n <> "".
Proof.
  intros Hn. unfold PyStr.of_int.
  destruct n as [|p|p]; [split; [reflexivity | cbv; discriminate] | | lia].
  cbn [Z.to_int NilZero.string_of_int].
  unfold NilZero.string_of_uint.
  destruct (Pos.to_uint p) eqn:E.
  - split; [reflexivity | discriminate].
  - split; [apply (string_of_uint_digits (Decimal.D0 u)) | discriminate].
  - split; [apply (string_of_uint_digits (Decimal.D1 u)) | discriminate].
  - split; [apply (string_of_uint_digits (Decimal.D2 u)) | discriminate].
  - split; [apply (string_of_uint_digits (Decimal.D3 u)) | discriminate].
  - split; [apply (string_of_uint_digits (Decimal.D4 u)) | discriminate].
  - split; [apply (string_of_uint_digits (Decimal.D5 u)) | discriminate].
  - split; [apply (string_of_uint_digits (Decimal.D6 u)) | discriminate].
  - split; [apply (string_of_uint_digits (Decimal.D7 u)) | discriminate].
  - split; [apply (string_of_uint_digits (Decimal.D8 u)) | discriminate].
  - split; [apply (string_of_uint_digits (Decimal.D9 u)) | discriminate].
Qed.

Lemma take_digits (n : nat) (s : string) :
  all_digits s = true -> all_digits (PyStr.take n s) = true.
Proof.
  unfold all_digits. revert s. induction n as [|n IH]; intros [|c s]; simpl;
    try reflexivity.
  intros H. apply andb_prop in H as [H1 H2]. rewrite H1. now apply IH.
Qed.


Lemma hex_value_nonneg (c : ascii) (d : Z) : PyStr.hex_value c = Some d -> 0 <= d.
Proof.
  unfold PyStr.hex_value. cbv zeta.
  repeat match goal with
         | |- (if ?b then _ else _) = _ -> _ => destruct b eqn:?
         end;
    intros E; inversion E; subst;
    match goal with
    | H : _ && _ = true |- _ => apply andb_prop in H as [H _]; apply Z.leb_le in H; lia
    end.
Qed.

Lemma int16_aux_nonneg (s : string) (acc n : Z) :
  PyStr.int16_aux s acc = Some n -> 0 <= acc -> 0 <= n.
Proof.
  revert acc. induction s as [|c s IH]; simpl; intros acc.
  - intros E; inversion E; subst; auto.
  - destruct (PyStr.hex_value c) as [d|] eqn:D; [|discriminate].
    intros E Hacc. apply hex_value_nonneg in D. apply (IH _ E). lia.
Qed.


(** ** The run identifier *)

Lemma zero_pad_2 (n : Z) :
  0 <= n < 100 ->
  PyStr.zero_pad 2 n =
  String (PyStr.chr (48 + n / 10)) (String (PyStr.chr (48 + n mod 10)) "").
Proof.
  intros H.
  assert (forallb
            (fun k : nat =>
               String.eqb (PyStr.zero_pad 2 (Z.of_nat k))
                 (String (PyStr.chr (48 + Z.of_nat k / 10))
                    (String (PyStr.chr (48 + Z.of_nat k mod 10)) "")))
            (seq 0 100) = true) as A by (vm_compute; reflexivity).
  rewrite forallb_forall in A. specialize (A (Z.to_nat n)).
  rewrite Z2Nat.id in A by lia. apply String.eqb_eq, A, in_seq. lia.
Qed.

Lemma code_chr (z : Z) : 0 <= z < 256 -> PyStr.code (PyStr.chr z) = z.
Proof.
  intros H. unfold PyStr.code, PyStr.chr.
  rewrite N_ascii_embedding by lia. lia.
Qed.

Lemma zero_pad_2_inj (a b : Z) :
  0 <= a < 100 -> 0 <= b < 100 ->
  PyStr.zero_pad 2 a = PyStr.zero_pad 2 b -> a = b.
Proof.
  intros Ha Hb. rewrite !zero_pad_2 by assumption. intros E.
  injection E as E1 E2.
  apply (f_equal PyStr.code) in E1, E2.
  assert (0 <= a / 10 < 10) by (split; [apply Z.div_pos | apply Z.div_lt_upper_bound]; lia).
  assert (0 <= b / 10 < 10) by (split; [apply Z.div_pos | apply Z.div_lt_upper_bound]; lia).
  pose proof (Z.mod_pos_bound a 10 ltac:(lia)).
  pose proof (Z.mod_pos_bound b 10 ltac:(lia)).
  rewrite !code_chr in E1, E2 by lia.
  rewrite (Z.div_mod a 10), (Z.div_mod b 10) by lia. lia.
Qed.

Lemma run_id_inj (clk clk' : Clock) (self : ExperimentManager) :
  run_id self = None ->
  valid_datetime (now clk) = true ->
  valid_datetime (now clk') = true ->
  get_run_id clk self = get_run_id clk' self ->
  same_minute_of_century (now clk) (now clk') = true.
Proof.
  intros R V V'. unfold get_run_id. rewrite R.
  unfold valid_datetime in V, V'. rewrite !andb_true_iff, !Z.leb_le in V, V'.
  destruct V as [[[[[[[[[? ?] ?] ?] ?] ?] ?] ?] ?] ?].
  destruct V' as [[[[[[[[[? ?] ?] ?] ?] ?] ?] ?] ?] ?].
  pose proof (Z.mod_pos_bound (year (now clk)) 100 ltac:(lia)).
  pose proof (Z.mod_pos_bound (year (now clk')) 100 ltac:(lia)).
  unfold same_minute_of_century. rewrite !andb_true_iff, !Z.eqb_eq.
  unfold strftime.
  rewrite (zero_pad_2 (year (now clk) mod 100)), (zero_pad_2 (year (now clk') mod 100)),
    (zero_pad_2 (month (now clk))), (zero_pad_2 (month (now clk'))),
    (zero_pad_2 (day (now clk))), (zero_pad_2 (day (now clk'))),
    (zero_pad_2 (hour (now clk))), (zero_pad_2 (hour (now clk'))),
    (zero_pad_2 (minute (now clk))), (zero_pad_2 (minute (now clk'))) by lia.
  cbn [String.append]. intros E.
  injection E as Ey1 Ey2 Em1 Em2 Ed1 Ed2 Eh1 Eh2 En1 En2.
  repeat split; apply zero_pad_2_inj; try lia; rewrite !zero_pad_2 by lia; congruence.
Qed.

(** X3: on a manager without a recorded run id, the run identifier is the
    20 characters [run--yy-mm-dd--HH-MM], and two clock readings give the
    same identifier exactly when they fall in the same minute of the same
    day of years with the same last two digits: the seconds never count. *)
Theorem run_id_same_minute (clk clk' : Clock) (self : ExperimentManager) :
  run_id self = None ->
  valid_datetime (now clk) = true ->
  valid_datetime (now clk') = true ->
  String.length (get_run_id clk self) = 20%nat
  /\ (get_run_id clk self = get_run_id clk' self
      <-> same_minute_of_century (now clk) (now clk') = true).
Proof.
  intros R V V'. split; [|split; [now apply run_id_inj|]].
  - unfold get_run_id. rewrite R.
    unfold valid_datetime in V. rewrite !andb_true_iff, !Z.leb_le in V.
    destruct V as [[[[[[[[[? ?] ?] ?] ?] ?] ?] ?] ?] ?].
    pose proof (Z.mod_pos_bound (year (now clk)) 100 ltac:(lia)).
    unfold strftime. rewrite !zero_pad_2 by lia. cbn [String.append String.length].
    reflexivity.
  - unfold same_minute_of_century. rewrite !andb_true_iff, !Z.eqb_eq.
    intros [[[[Y M] D] Hh] N]. unfold get_run_id. rewrite R. unfold strftime.
    now rewrite Y, M, D, Hh, N.
Qed.

(** ** The checkpoint a resumed run starts from *)

Lemma max_by_mtime_spec (fs : FS.t) (paths : list string) :
  forall best k c,
    max_by_mtime fs best k paths = Ok c ->
    (c = best
     /\ Forall (fun q => exists t', FS.getmtime fs q = Ok t' /\ t' <= k) paths)
    \/ (exists l1 l2 t,
          paths = (l1 ++ c :: l2)%list
          /\ FS.getmtime fs c = Ok t /\ k < t
          /\ Forall (fun q => exists t', FS.getmtime fs q = Ok t' /\ t' < t) l1
          /\ Forall (fun q => exists t', FS.getmtime fs q = Ok t' /\ t' <= t) l2).
Proof.
  induction paths as [|p rest IH]; intros best k c; cbn [max_by_mtime].
  - intros E; inversion E; subst. left. split; [reflexivity | constructor].
  - destruct (FS.getmtime fs p) as [kp|err] eqn:G; [|discriminate].
    destruct (k <? kp) eqn:L.
    + apply Z.ltb_lt in L. intros E.
      destruct (IH _ _ _ E) as [[-> Hall] | (l1 & l2 & t & -> & Gc & Lt & H1 & H2)].
      * right. exists [], rest, kp. repeat split; try assumption. constructor.
      * right. exists (p :: l1), l2, t. repeat split; try assumption; [lia|].
        constructor; [|exact H1]. exists kp. split; [exact G | lia].
    + apply Z.ltb_ge in L. intros E.
      destruct (IH _ _ _ E) as [[-> Hall] | (l1 & l2 & t & -> & Gc & Lt & H1 & H2)].
      * left. split; [reflexivity|]. constructor; [|exact Hall].
        exists kp. split; [exact G | lia].
      * right. exists (p :: l1), l2, t. repeat split; try assumption.
        constructor; [|exact H1]. exists kp. split; [exact G | lia].
Qed.

Lemma latest_first_newest (fs : FS.t) (paths : list string) (c : string) :
  latest fs paths = Ok c -> first_newest fs paths c.
Proof.
  unfold latest, first_newest. destruct paths as [|p rest]; [discriminate|].
  destruct (FS.getmtime fs p) as [k|err] eqn:G; [|discriminate]. intros E.
  destruct (max_by_mtime_spec _ _ _ _ _ E)
    as [[-> Hall] | (l1 & l2 & t & -> & Gc & Lt & H1 & H2)].
  - exists [], rest, k. repeat split; try assumption. constructor.
  - exists (p :: l1), l2, t. repeat split; try assumption.
    constructor; [|exact H1]. exists k. split; [exact G | lia].
Qed.

(** X4: when [resume_run] returns, the checkpoint it returns is one of the
    paths the pattern [{run}/models/*] matches, the first of them with the
    greatest modification time; the two identifiers are recorded, one line
    naming the checkpoint is printed, and the file system is as it was. *)
Theorem resume_run_latest (e r : string) (self self1 : ExperimentManager)
    (w w1 : World) (ckpt : string) :
  resume_run e r self w = (Ok ckpt, self1, w1) ->
  first_newest (fs w)
    (Glob.glob (fs w)
       (PurePath.truediv (PurePath.truediv (supposed_run_path self e r) "models") "*"))
    ckpt
  /\ run_id self1 = Some r
  /\ experiment_id_folder self1 = Some e
  /\ w1 = mkWorld (fs w) (stdout w ++ [("Latest checkpoint is: " ++ ckpt)%string])%list.
Proof.
  unfold resume_run. run_py.
  destruct (FS.exists_ (fs w) (supposed_run_path self e r)); [|discriminate].
  destruct (latest (fs w) _) as [c|err] eqn:L; [|discriminate].
  intros E; inversion E; subst. split; [now apply latest_first_newest|].
  repeat split.
Qed.

(** ** Where [prepare] works *)

(** What a successful [prepare] has done. *)
Lemma prepare_ok (clk : Clock) (cfg : dict) (self self' : ExperimentManager)
    (w w' : World) (cbs : list callback) :
  prepare clk cfg self w = (Ok cbs, self', w') ->
  exists rp fs1 fs2,
    chosen_run_path clk (with_params self (Some cfg)) = Ok rp
    /\ FS.mkdir (fs w) (timestamp clk) rp = (Ok tt, fs1)
    /\ self' = with_run_path (with_params self (Some cfg))
                 (Some (FS.resolve (fs w) rp))
    /\ FS.mkdir fs1 (timestamp clk)
         (PurePath.truediv (FS.resolve (fs w) rp) "models") = (Ok tt, fs2)
    /\ stdout w' = (stdout w ++ [notice (FS.resolve (fs w) rp)])%list
    /\ grows fs2 (fs w')
    /\ callbacks_of self' = Ok cbs.
Proof.
  intros H. rewrite prepare_eq in H.
  destruct (make_experiment_path clk (with_params self (Some cfg)) w)
    as [[[u|e] selfA] wA] eqn:E; [|discriminate].
  inversion H as [[Hcb Hs Hw]]. subst selfA wA.
  destruct (make_experiment_path_ok _ _ _ _ _ _ E)
    as (rp & fs1 & fs2 & Hc & M1 & Hself & M2 & Hout & Hwr).
  exists rp, fs1, fs2. repeat split; try assumption.
  - cbn [experiment_id_folder with_params] in Hwr.
    destruct (experiment_id_folder self).
    + rewrite Hwr. apply grows_refl.
    + eapply write_file_grows. exact Hwr.
  - cbn [experiment_id_folder with_params] in Hwr.
    destruct (experiment_id_folder self).
    + now rewrite Hwr.
    + apply (proj2 (write_file_grows _ _ _ _ _ _ Hwr)).
Qed.

(** X5: a [prepare] that succeeds after a successful [resume_run], with a
    configuration whose [debug] entry is false, works in the directory that
    was resumed, made absolute: whatever the clock says, and whether or not
    the configuration has the monitored keys. *)
Theorem resumed_prepare_run_path (e r : string) (self self1 self2 : ExperimentManager)
    (w w1 w2 : World) (ckpt : string) (clk : Clock) (cfg : dict) (debug : json)
    (cbs : list callback) :
  resume_run e r self w = (Ok ckpt, self1, w1) ->
  PyDict.get cfg "debug" = Some debug ->
  truthy debug = false ->
  prepare clk cfg self1 w1 = (Ok cbs, self2, w2) ->
  run_path self2 = Some (FS.resolve (fs w) (supposed_run_path self e r)).
Proof.
  intros R D T P.
  destruct (resume_run_ok _ _ _ _ _ _ _ R) as (_ & -> & Hfs).
  destruct (prepare_ok _ _ _ _ _ _ _ P) as (rp & fs1 & fs2 & Hc & _ & -> & _).
  revert Hc. unfold chosen_run_path, subscript, get_run_path, get_experiment_id, get_run_id.
  cbn [params with_params experiment_id_folder with_experiment_id_folder run_id
       with_run_id base_experiment_path].
  rewrite D, T. intros E; inversion E; subst.
  cbn [run_path with_run_path]. now rewrite Hfs.
Qed.

(** X6: with a configuration whose [debug] entry is true, the directory
    [make_experiment_path] chooses is [{base}/debug], whatever the clock,
    the monitored keys and the recorded identifiers are; a [prepare] that
    succeeds leaves that directory, made absolute, as the run path. *)
Theorem debug_run_path (clk : Clock) (cfg : dict) (self : ExperimentManager)
    (debug : json) :
  PyDict.get cfg "debug" = Some debug ->
  truthy debug = true ->
  chosen_run_path clk (with_params self (Some cfg)) = Ok (get_debug_path self)
  /\ forall w cbs self' w',
       prepare clk cfg self w = (Ok cbs, self', w') ->
       run_path self' = Some (FS.resolve (fs w) (get_debug_path self)).
Proof.
  intros D T.
  assert (chosen_run_path clk (with_params self (Some cfg)) = Ok (get_debug_path self))
    as Hc.
  { unfold chosen_run_path, subscript. cbn [params with_params]. now rewrite D, T. }
  split; [exact Hc|]. intros w cbs self' w' P.
  destruct (prepare_ok _ _ _ _ _ _ _ P) as (rp & fs1 & fs2 & Hc' & _ & -> & _).
  rewrite Hc in Hc'. inversion Hc'; subst. reflexivity.
Qed.

(** X7: a configuration without a [debug] entry makes [prepare] fail with
    [KeyError('debug')]; a configuration that is not for debugging and
    lacks a monitored key makes it fail, on a manager that was not resumed,
    with the [KeyError] of the first such key.  In both cases nothing is
    created or printed, and the manager keeps the configuration. *)
Theorem prepare_missing_key (clk : Clock) (cfg : dict) (self : ExperimentManager)
    (w : World) :
  (PyDict.get cfg "debug" = None ->
   prepare clk cfg self w = (Raise (KeyError "debug"), with_params self (Some cfg), w))
  /\ (forall debug k,
        PyDict.get cfg "debug" = Some debug ->
        truthy debug = false ->
        experiment_id_folder self = None ->
        first_missing cfg (monitored_param_keys self) = Some k ->
        prepare clk cfg self w = (Raise (KeyError k), with_params self (Some cfg), w)).
Proof.
  split.
  - intros D. rewrite prepare_eq. unfold make_experiment_path, subscript. run_py.
    cbn [params with_params]. now rewrite D.
  - intros debug k D T F M. rewrite prepare_eq.
    unfold make_experiment_path, subscript. run_py.
    cbn [params with_params]. rewrite D, T.
    unfold get_run_path, get_experiment_id.
    cbn [experiment_id_folder with_params params monitored_param_keys]. rewrite F.
    pose proof (hash_keys_first_missing cfg (monitored_param_keys self) "") as H.
    rewrite M in H. now rewrite H.
Qed.

Lemma is_dir_parent (fs : FS.t) (p : PurePath.t) (name : string) :
  PurePath.parse name = PurePath.mk "" [name] ->
  FS.is_dir fs (PurePath.truediv p name) = true -> FS.is_dir fs p = true.
Proof.
  intros Hn. rewrite (truediv_name p name Hn).
  unfold FS.is_dir, FS.stat, FS.locate, FS.start, PurePath.is_absolute.
  cbn [PurePath.root PurePath.parts]. rewrite walk_app.
  set (l0 := if negb (String.eqb (PurePath.root p) "") then [] else FS.cwd fs).
  destruct (FS.walk (FS.nodes fs) l0 (PurePath.parts p) _) as [l|e] eqn:W;
    [|discriminate].
  rewrite (walk_extends _ _ _ (extends_refl _) _ _ (PurePath.str p) _ W).
  cbn [FS.walk]. destruct (FS.node_at (FS.nodes fs) l) as [[t|c t]|]; try discriminate.
  reflexivity.
Qed.

(** X8: after a successful [prepare] the run path is an absolute path, it
    and its [models] entry are directories of the file system, and exactly
    one line was printed, which names the run path. *)
Theorem prepare_makes_directories (clk : Clock) (cfg : dict)
    (self self' : ExperimentManager) (w w' : World) (cbs : list callback) :
  prepare clk cfg self w = (Ok cbs, self', w') ->
  exists p,
    run_path self' = Some p
    /\ PurePath.is_absolute p = true
    /\ FS.is_dir (fs w') p = true
    /\ FS.is_dir (fs w') (PurePath.truediv p "models") = true
    /\ stdout w' =
       (stdout w ++ [("Now everything is happening in " ++ PurePath.str p)%string])%list.
Proof.
  intros P.
  destruct (prepare_ok _ _ _ _ _ _ _ P)
    as (rp & fs1 & fs2 & Hc & M1 & -> & M2 & Hout & G & _).
  exists (FS.resolve (fs w) rp).
  assert (FS.is_dir (fs w') (PurePath.truediv (FS.resolve (fs w) rp) "models") = true)
    as D.
  { apply (is_dir_grows fs2); [exact G|]. eapply mkdir_is_dir. exact M2. }
  split; [reflexivity|]. split.
  { unfold FS.resolve, PurePath.is_absolute. cbn [PurePath.root].
    destruct (String.eqb (PurePath.root rp) "") eqn:E; [reflexivity|].
    cbn [negb]. now rewrite E. }
  split; [eapply is_dir_parent; [|exact D]; reflexivity|].
  split; [exact D | exact Hout].
Qed.

(** ** What [prepare] leaves alone *)

Lemma write_file_frame (fs fs' : FS.t) (now : Z) (p : PurePath.t) (c : string)
    (r : result unit) (l0 : list string) :
  FS.write_file fs now p c = (r, fs') ->
  FS.locate fs p <> Ok l0 ->
  forall c0 t0,
    FS.nodes fs !! l0 = Some (FS.File c0 t0)
    <-> FS.nodes fs' !! l0 = Some (FS.File c0 t0).
Proof.
  unfold FS.write_file. destruct (FS.locate fs p) as [l|e].
  - intros H Hne. assert (l <> l0) as Hl by congruence. revert H.
    destruct (FS.node_at (FS.nodes fs) l) as [[t|c1 t]|] eqn:N.
    + intros E; inversion E; subst. tauto.
    + intros E; inversion E; subst. intros c0 t0. cbn [FS.nodes].
      now rewrite lookup_insert_ne.
    + destruct (FS.creatable p); intros E; inversion E; subst; [|tauto].
      intros c0 t0. cbn [FS.nodes FS.add_entry].
      rewrite <- (same_files_touch _ (tl l) now l0 c0 t0).
      now rewrite lookup_insert_ne.
  - intros E _; inversion E; subst. tauto.
Qed.

(** Whatever [make_experiment_path] returns, it removes nothing, and the
    only file it may create or change is the parameters file of a manager
    that was not resumed. *)
Lemma make_experiment_path_frame (clk : Clock) (self self' : ExperimentManager)
    (w w' : World) (res : result unit) :
  make_experiment_path clk self w = (res, self', w') ->
  grows (fs w) (fs w')
  /\ forall l c t,
       (FS.nodes (fs w) !! l = Some (FS.File c t)
        <-> FS.nodes (fs w') !! l = Some (FS.File c t))
       \/ (experiment_id_folder self = None
           /\ exists p, get_param_path self' = Ok p /\ FS.locate (fs w') p = Ok l).
Proof.
  unfold make_experiment_path, write_parameters. run_py.
  destruct (subscript (params self) "debug") as [debug|err];
    [|intros E; inversion E; subst; split; [apply grows_refl | left; tauto]].
  destruct (if truthy debug then Ok (get_debug_path self) else get_run_path clk self)
    as [rp|err];
    [|intros E; inversion E; subst; split; [apply grows_refl | left; tauto]].
  destruct (FS.mkdir (fs w) (timestamp clk) rp) as [[[]|err] fs1] eqn:M1;
    destruct (mkdir_grows _ _ _ _ _ M1) as [G1 S1];
    [|intros E; inversion E; subst; cbn [fs]; split; [exact G1 | left; apply S1]].
  cbn [fs stdout].
  unfold get_best_model_path, get_param_path, under_run_path.
  cbn [run_path with_run_path].
  match goal with
  | |- context [FS.mkdir fs1 ?b ?c] =>
      destruct (FS.mkdir fs1 b c) as [[[]|err] fs2] eqn:M2
  end;
    destruct (mkdir_grows _ _ _ _ _ M2) as [G2 S2];
    pose proof (grows_trans _ _ _ G1 G2) as G12;
    pose proof (same_files_trans _ _ _ S1 S2) as S12;
    cbn [experiment_id_folder with_run_path run_path fs stdout];
    [|intros E; inversion E; subst; cbn [fs]; split; [exact G12 | left; apply S12]].
  destruct (experiment_id_folder self) as [folder|] eqn:F.
  - intros E; inversion E; subst; cbn [fs]. split; [exact G12 | left; apply S12].
  - match goal with
    | |- context [FS.write_file ?a ?b ?c ?d] =>
        destruct (FS.write_file a b c d) as [r3 fs3] eqn:W
    end.
    pose proof (write_file_grows _ _ _ _ _ _ W) as G3.
    intros E; inversion E; subst; cbn [fs run_path with_run_path].
    split; [exact (grows_trans _ _ _ G12 G3)|]. intros l c t.
    match type of W with
    | FS.write_file _ _ ?p _ = _ =>
        destruct (FS.locate fs2 p) as [lp|err] eqn:L
    end.
    + destruct (decide (lp = l)) as [->|Hne].
      * right. split; [reflexivity|]. eexists. split; [reflexivity|].
        eapply locate_grows; [exact G3 | exact L].
      * left. rewrite (S12 l c t).
        apply (write_file_frame _ _ _ _ _ _ l W). cbn [fs]. rewrite L. congruence.
    + left. rewrite (S12 l c t).
      apply (write_file_frame _ _ _ _ _ _ l W). cbn [fs]. rewrite L. discriminate.
Qed.

(** X9: whatever [prepare] returns, every entry of the file system is
    still there afterwards, a directory still a directory and a file still
    a file; and every file is there afterwards, with its content and time,
    exactly when it was there before, the one exception being the
    parameters file of the run on a manager that was not resumed. *)
Theorem prepare_keeps_other_files (clk : Clock) (cfg : dict)
    (self : ExperimentManager) (w : World) :
  let self' := snd (fst (prepare clk cfg self w)) in
  let w' := snd (prepare clk cfg self w) in
  grows (fs w) (fs w')
  /\ forall l c t,
       (FS.nodes (fs w) !! l = Some (FS.File c t)
        <-> FS.nodes (fs w') !! l = Some (FS.File c t))
       \/ (experiment_id_folder self = None
           /\ exists p, get_param_path self' = Ok p /\ FS.locate (fs w') p = Ok l).
Proof.
  cbv zeta. rewrite prepare_eq.
  destruct (make_experiment_path clk (with_params self (Some cfg)) w)
    as [[res self1] w1] eqn:E.
  pose proof (make_experiment_path_frame _ _ _ _ _ _ E) as H.
  cbn [experiment_id_folder with_params] in H.
  destruct res; exact H.
Qed.

(** ** The callbacks [prepare] returns *)

(** X10: the callbacks of a successful [prepare] are, in this order, a
    logger that appends to [{run}/training-logs.csv] with a comma as
    separator, a checkpoint writer for
    [{run}/models/model.{epoch:02d}-{monitor:.4f}.hdf5] that saves the best
    model only and is given the checkpoint parameters, and an extractor
    that reads the file the logger writes, watches [loss], whatever the
    monitored quantity of the checkpoints is, and writes
    [{run}/performances.json]. *)
Theorem prepare_callbacks (clk : Clock) (cfg : dict) (self self' : ExperimentManager)
    (w w' : World) (cbs : list callback) :
  prepare clk cfg self w = (Ok cbs, self', w') ->
  exists p monitor,
    run_path self' = Some p
    /\ PyDict.get (checkpoint_params self) "monitor" = Some (JStr monitor)
    /\ cbs =
       [ CSVLogger (PurePath.str (PurePath.truediv p "training-logs.csv")) "," true;
         ModelCheckpoint
           (PurePath.str
              (PurePath.truediv (PurePath.truediv p "models")
                 ("model.{epoch:02d}-{" ++ monitor ++ ":.4f}.hdf5")))
           true (checkpoint_params self);
         BestPerformancesCallback
           (mkWriteBestPerformances
              (PurePath.str (PurePath.truediv p "training-logs.csv"))
              (PurePath.str (PurePath.truediv p "performances.json"))
              "loss" None) ].
Proof.
  intros P.
  destruct (prepare_ok _ _ _ _ _ _ _ P) as (rp & fs1 & fs2 & _ & _ & -> & _ & _ & _ & C).
  revert C. unfold callbacks_of, get_csv_path, get_best_model_path, get_best_perf_path,
    under_run_path, template_path, model_checkpoint, BestPerformances.init.
  cbn [run_path with_run_path checkpoint_params with_params].
  destruct (PyDict.get (checkpoint_params self) "monitor") as [[| | | |monitor| |]|];
    try discriminate.
  destruct (existsb _ _); [discriminate|].
  intros E; inversion E; subst. exists (FS.resolve (fs w) rp), monitor.
  repeat split.
Qed.

Lemma has_key_keys (d : dict) (k : string) (f : string -> bool) :
  has_key d k = true -> f k = true -> existsb f (PyDict.keys d) = true.
Proof.
  unfold has_key. induction d as [|[k' v] d IH]; simpl; [discriminate|].
  destruct (String.eqb_spec k' k) as [->|_].
  - intros _ ->. reflexivity.
  - intros H1 H2. rewrite (IH H1 H2). apply orb_true_r.
Qed.

(** X11: the checkpoint parameters are looked at only after the
    directories are made: once [make_experiment_path] has succeeded,
    [prepare] fails with [KeyError('monitor')] when they have no [monitor]
    entry, and with a [TypeError] when they name [filepath] or
    [save_best_only], which [prepare] passes itself; the manager and the
    world are then left as [make_experiment_path] left them. *)
Theorem prepare_bad_checkpoint_params (clk : Clock) (cfg : dict)
    (self self' : ExperimentManager) (w w' : World) (u : unit) :
  make_experiment_path clk (with_params self (Some cfg)) w = (Ok u, self', w') ->
  (PyDict.get (checkpoint_params self) "monitor" = None ->
   prepare clk cfg self w = (Raise (KeyError "monitor"), self', w'))
  /\ (forall monitor,
        PyDict.get (checkpoint_params self) "monitor" = Some (JStr monitor) ->
        has_key (checkpoint_params self) "filepath"
        || has_key (checkpoint_params self) "save_best_only" = true ->
        exists msg, prepare clk cfg self w = (Raise (TypeError msg), self', w')).
Proof.
  intros E. rewrite prepare_eq, E.
  destruct (make_experiment_path_ok _ _ _ _ _ _ E) as (rp & _ & _ & _ & _ & -> & _).
  unfold callbacks_of, get_csv_path, get_best_model_path, get_best_perf_path,
    under_run_path, template_path, model_checkpoint.
  cbn [run_path with_run_path checkpoint_params with_params].
  split.
  - intros ->. reflexivity.
  - intros monitor -> K.
    assert (existsb (fun k => String.eqb k "filepath" || String.eqb k "save_best_only")
              (PyDict.keys (checkpoint_params self)) = true) as ->.
    { apply orb_prop in K as [K|K];
        apply (has_key_keys _ _ _ K); reflexivity. }
    eexists. reflexivity.
Qed.

(** ** What [prepare] and [resume_run] leave of the manager *)

Lemma make_experiment_path_self (clk : Clock) (self self' : ExperimentManager)
    (w w' : World) (res : result unit) :
  make_experiment_path clk self w = (res, self', w') ->
  self' = self \/ exists p, self' = with_run_path self (Some p).
Proof.
  unfold make_experiment_path, write_parameters. run_py.
  destruct (subscript (params self) "debug") as [debug|err];
    [|intros E; inversion E; now left].
  destruct (if truthy debug then Ok (get_debug_path self) else get_run_path clk self)
    as [rp|err]; [|intros E; inversion E; now left].
  destruct (FS.mkdir (fs w) (timestamp clk) rp) as [[[]|err] fs1];
    [|intros E; inversion E; now left].
  cbn [fs stdout].
  unfold get_best_model_path, get_param_path, under_run_path.
  cbn [run_path with_run_path].
  match goal with
  | |- context [FS.mkdir fs1 ?b ?c] => destruct (FS.mkdir fs1 b c) as [[[]|err] fs2]
  end; [|intros E; inversion E; right; now eexists].
  cbn [experiment_id_folder with_run_path run_path fs stdout].
  destruct (experiment_id_folder self); [intros E; inversion E; right; now eexists|].
  match goal with
  | |- context [FS.write_file ?a ?b ?c ?d] => destruct (FS.write_file a b c d) as [r3 fs3]
  end.
  intros E; inversion E; right; now eexists.
Qed.

(** X12: whatever [prepare] returns, it has stored the configuration and
    changed, of the rest of the manager, the run path at most: the base
    directory, the recorded run id and experiment folder, the monitored keys
    and the checkpoint parameters are as before.  So the run id is not
    fixed by [prepare]: the one derived afterwards is the one the manager
    would have derived before, at the same reading of the clock. *)
Theorem prepare_keeps_identity (clk : Clock) (cfg : dict) (self : ExperimentManager)
    (w : World) :
  let self' := snd (fst (prepare clk cfg self w)) in
  params self' = Some cfg
  /\ base_experiment_path self' = base_experiment_path self
  /\ run_id self' = run_id self
  /\ experiment_id_folder self' = experiment_id_folder self
  /\ monitored_param_keys self' = monitored_param_keys self
  /\ checkpoint_params self' = checkpoint_params self
  /\ forall clk', get_run_id clk' self' = get_run_id clk' self.
Proof.
  cbv zeta. rewrite prepare_eq.
  destruct (make_experiment_path clk (with_params self (Some cfg)) w)
    as [[res self1] w1] eqn:E.
  assert (snd (fst (match res with
                    | Ok _ => (callbacks_of self1, self1, w1)
                    | Raise err => (Raise err, self1, w1)
                    end)) = self1) as -> by (destruct res; reflexivity).
  destruct (make_experiment_path_self _ _ _ _ _ _ E) as [->|(p & ->)];
    repeat split.
Qed.

(** X13: the five methods that give a path under the run path fail with a
    [TypeError] on a manager whose run path was never set, and so they do
    after a [resume_run], which does not set it, whatever it returned;
    after a successful [prepare] each of them returns a path. *)
Theorem path_getters_need_prepare (self : ExperimentManager) :
  run_path self = None ->
  (forall e r w,
      Forall (fun getter =>
                exists msg,
                  getter (snd (fst (resume_run e r self w))) = Raise (TypeError msg))
             path_getters)
  /\ (forall clk cfg w cbs self' w',
        prepare clk cfg self w = (Ok cbs, self', w') ->
        Forall (fun getter => is_ok (getter self') = true) path_getters).
Proof.
  intros R. split.
  - intros e r w.
    assert (run_path (snd (fst (resume_run e r self w))) = None) as R'.
    { unfold resume_run. run_py.
      destruct (FS.exists_ (fs w) (supposed_run_path self e r)); [|exact R].
      destruct (latest (fs w) _); exact R. }
    repeat constructor; eexists;
      unfold get_log_error_path, get_csv_path, get_best_model_path, get_param_path,
        get_best_perf_path, under_run_path;
      rewrite R'; reflexivity.
  - intros clk cfg w cbs self' w' P.
    destruct (prepare_ok _ _ _ _ _ _ _ P) as (rp & _ & _ & _ & _ & -> & _).
    repeat constructor.
Qed.

(** ** More on the rows the extractor emits *)

Lemma SFeqb_nan_l (x y : spec_float) : PyFloat.is_nan x = true -> SFeqb x y = false.
Proof. destruct x; try discriminate. reflexivity. Qed.

Lemma SFeqb_refl (x : spec_float) : PyFloat.is_nan x = false -> SFeqb x x = true.
Proof. intros H. apply SFeqb_leb. split; now apply SFleb_refl. Qed.

Lemma filter_nil_iff {A} (f : A -> bool) (l : list A) :
  List.filter f l = [] <-> Forall (fun x => f x = false) l.
Proof.
  induction l as [|x l IH]; simpl.
  - split; [constructor | reflexivity].
  - destruct (f x) eqn:E.
    + split; [discriminate|]. intros H. inversion H; subst. congruence.
    + rewrite IH. split; [now constructor|]. intros H. now inversion H.
Qed.

Lemma filter_all {A} (f : A -> bool) (l : list A) :
  Forall (fun x => f x = true) l -> List.filter f l = l.
Proof.
  induction 1 as [|x l Hx _ IH]; simpl; [reflexivity|]. now rewrite Hx, IH.
Qed.

(** The rows [on_train_end] keeps, on a log with a header in which the
    watched metric is a column. *)
Lemma on_train_end_rows (self : WriteBestPerformances) (t0 timer : spec_float)
    (header : list string) (lines : list (list spec_float)) (i : nat) :
  header <> [] ->
  let df := with_elapsed header lines (SFsub 53 1024 timer t0) in
  Pandas.index_of (watched_metric self) (Pandas.columns df) = Some i ->
  BestPerformances.on_train_end timer (Pandas.CsvText header lines)
    (BestPerformances.on_train_begin t0 self) =
  Ok (output_path self,
      Pandas.mk (Pandas.columns df)
        (List.filter
           (fun r => SFeqb (Pandas.cell i r)
                       (Pandas.series_min (map (Pandas.cell i) (Pandas.rows df))))
           (Pandas.rows df))).
Proof.
  intros Hne df Hi. destruct header as [|c header]; [contradiction|].
  rewrite on_train_end_eq. cbv zeta. fold df.
  unfold Pandas.getitem. rewrite Hi.
  unfold Pandas.getitem_mask, Pandas.series_eq.
  now rewrite map_map, select_map.
Qed.

(** X14: on a log with a header in which the watched metric is a column,
    the extractor emits no record exactly when no row of the log has a
    number in that column (an empty log in particular): as soon as one row
    has a number there, at least one record is emitted. *)
Theorem no_best_row_iff_no_number (self : WriteBestPerformances)
    (t0 timer : spec_float) (header : list string) (lines : list (list spec_float))
    (i : nat) :
  header <> [] ->
  Pandas.index_of (watched_metric self)
    (Pandas.columns (with_elapsed header lines (SFsub 53 1024 timer t0))) = Some i ->
  let df := with_elapsed header lines (SFsub 53 1024 timer t0) in
  exists best,
    BestPerformances.on_train_end timer (Pandas.CsvText header lines)
      (BestPerformances.on_train_begin t0 self) = Ok (output_path self, best)
    /\ (Pandas.rows best = []
        <-> Forall (fun r => PyFloat.is_nan (Pandas.cell i r) = true) (Pandas.rows df)).
Proof.
  intros Hne Hi df. eexists. split; [apply (on_train_end_rows _ _ _ _ _ i Hne Hi)|].
  fold df. cbn [Pandas.rows]. rewrite filter_nil_iff.
  set (col := map (Pandas.cell i) (Pandas.rows df)).
  pose proof (fold_min_spec col None I) as H. unfold Pandas.series_min.
  destruct (fold_left Pandas.min_step col None) as [m|].
  - destruct H as (Hm & [E|Hin] & _ & _); [discriminate|].
    apply List.in_map_iff in Hin as (r & Hr & Hin).
    split; intros H; rewrite List.Forall_forall in H; specialize (H r Hin);
      rewrite Hr in H; [|congruence].
    rewrite (SFeqb_refl m Hm) in H. discriminate.
  - destruct H as [_ Hall]. split; intros _.
    + apply List.Forall_forall. intros r Hr. rewrite List.Forall_forall in Hall.
      apply Hall. now apply List.in_map.
    + apply List.Forall_forall. intros r Hr. apply SFeqb_nan_l.
      rewrite List.Forall_forall in Hall. apply Hall. now apply List.in_map.
Qed.

(** X15: when the watched metric is [elapsed] itself, the column the
    extractor has just filled with the elapsed time, and whatever the log
    holds in a column of that name, the extractor emits every row of the
    log, each with the elapsed time; it emits none when the elapsed time is
    not a number. *)
Theorem watching_elapsed_keeps_every_row (self : WriteBestPerformances)
    (t0 timer : spec_float) (header : list string) (lines : list (list spec_float)) :
  header <> [] ->
  watched_metric self = "elapsed" ->
  let elapsed := SFsub 53 1024 timer t0 in
  let df := with_elapsed header lines elapsed in
  BestPerformances.on_train_end timer (Pandas.CsvText header lines)
    (BestPerformances.on_train_begin t0 self) =
  Ok (output_path self,
      if PyFloat.is_nan elapsed then Pandas.mk (Pandas.columns df) [] else df).
Proof.
  intros Hne Hw elapsed df.
  destruct (with_elapsed_column header lines elapsed) as (j & Hj & Hall).
  fold df in Hj, Hall. rewrite <- Hw in Hj.
  rewrite (on_train_end_rows _ _ _ _ _ j Hne Hj). fold elapsed df.
  f_equal. f_equal.
  set (col := map (Pandas.cell j) (Pandas.rows df)).
  assert (forall r, In r (Pandas.rows df) ->
            SFeqb (Pandas.cell j r) (Pandas.series_min col)
            = negb (PyFloat.is_nan elapsed)) as Hkeep.
  { intros r Hr. rewrite eq_min_is_least by (now apply List.in_map).
    rewrite List.Forall_forall in Hall. rewrite (Hall r Hr). unfold is_least.
    destruct (PyFloat.is_nan elapsed) eqn:N; [reflexivity|]. cbn [negb andb].
    apply forallb_forall. intros x Hx.
    apply List.in_map_iff in Hx as (r' & <- & Hr'). rewrite (Hall r' Hr').
    rewrite (SFleb_refl _ N). apply orb_true_r. }
  destruct (PyFloat.is_nan elapsed).
  - f_equal. apply filter_nil_iff, List.Forall_forall. exact Hkeep.
  - rewrite filter_all by (apply List.Forall_forall; exact Hkeep).
    now destruct df.
Qed.

(** ** A run directory without checkpoints *)

(** X16: when the run directory exists, the text of its [models] path has
    no wildcard in it and that directory has no visible entry, [resume_run]
    fails with the [ValueError] of [max] on an empty sequence and leaves
    the world as it was, but the manager has recorded the two identifiers:
    it counts as resumed, and a [prepare] that follows, whatever it is
    given and whatever it returns, writes no parameters file. *)
Theorem resume_run_without_checkpoint (self : ExperimentManager) (w : World)
    (e r : string) (clk : Clock) (cfg : dict) :
  let models := PurePath.truediv (supposed_run_path self e r) "models" in
  FS.exists_ (fs w) (supposed_run_path self e r) = true ->
  Glob.has_magic (PurePath.str models) = false ->
  List.filter (fun x => negb (Glob.ishidden x))
              (FS.iterdir (fs w) (PurePath.str models) false) = [] ->
  let out := resume_run e r self w in
  fst (fst out) = Raise (ValueError "max() arg is an empty sequence")
  /\ run_id (snd (fst out)) = Some r
  /\ experiment_id_folder (snd (fst out)) = Some e
  /\ snd out = w
  /\ same_files (FS.nodes (fs w))
       (FS.nodes (fs (snd (prepare clk cfg (snd (fst out)) (snd out))))).
Proof.
  cbv zeta. intros Hex Hm Hempty.
  rewrite (resume_run_no_checkpoint self w e r Hex Hm Hempty). cbn [fst snd].
  do 4 (split; [reflexivity|]). rewrite prepare_eq.
  destruct (make_experiment_path clk _ w) as [[res self2] w2] eqn:E.
  assert (snd (match res with
               | Ok _ => (callbacks_of self2, self2, w2)
               | Raise err => (Raise err, self2, w2)
               end) = w2) as -> by (destruct res; reflexivity).
  refine (proj2 (make_experiment_path_resumed clk _ _ _ _ _ e _ E)). reflexivity.
Qed.

(** ** The layout of the run directories *)

Lemma split_no_slash (s : string) : no_slash s = true -> PurePath.split s = [s].
Proof.
  unfold no_slash. induction s as [|c s IH]; simpl; [reflexivity|].
  intros H. apply andb_prop in H as [H1 H2]. apply negb_true_iff in H1.
  rewrite H1, (IH H2). reflexivity.
Qed.

(** A string without a slash that is neither empty nor a single dot is a
    path of one name. *)
Lemma parse_name (s : string) :
  no_slash s = true -> PurePath.is_name s = true ->
  PurePath.parse s = PurePath.mk "" [s].
Proof.
  intros H N. unfold PurePath.parse. rewrite (split_no_slash s H). simpl. rewrite N.
  f_equal. unfold PurePath.splitroot. destruct s as [|c s]; [reflexivity|].
  simpl. unfold no_slash in H. simpl in H. apply andb_prop in H as [H _].
  apply negb_true_iff in H. now rewrite H.
Qed.

Lemma no_slash_app (a b : string) :
  no_slash (a ++ b) = no_slash a && no_slash b.
Proof.
  unfold no_slash. induction a as [|c a IH]; simpl; [reflexivity|].
  now rewrite IH, andb_assoc.
Qed.

Lemma digit_no_slash (s : string) : all_digits s = true -> no_slash s = true.
Proof.
  unfold all_digits, no_slash. induction s as [|c s IH]; simpl; [reflexivity|].
  intros H. apply andb_prop in H as [H1 H2]. rewrite (IH H2), andb_true_r.
  apply negb_true_iff. destruct (Ascii.eqb_spec c PurePath.slash) as [->|]; [|reflexivity].
  discriminate.
Qed.

Lemma hash_8_no_slash (v : json) (h : string) : hash_8 v = Ok h -> no_slash h = true.
Proof.
  intros H. destruct (hash_8_segment v) as (h' & Hh & n & Hn & ->).
  assert (h = PyStr.take 8 (PyStr.of_int n)) as -> by congruence.
  apply digit_no_slash, take_digits.
  apply of_int_digits. unfold PyStr.int16 in Hn.
  destruct (SHA256.hexdigest _); [discriminate|].
  eapply int16_aux_nonneg; [exact Hn | lia].
Qed.

Lemma hash_keys_no_slash (ps : option dict) (keys : list string) :
  forall acc s, hash_keys ps keys acc = Ok s -> no_slash acc = true -> no_slash s = true.
Proof.
  induction keys as [|k keys IH]; intros acc s; cbn [hash_keys].
  - intros E; inversion E; subst; auto.
  - destruct (subscript ps k) as [v|]; [|discriminate].
    destruct (hash_8 v) as [h|] eqn:Hh; [|discriminate].
    intros E Hacc. apply (IH _ _ E).
    rewrite !no_slash_app, Hacc, (hash_8_no_slash _ _ Hh). reflexivity.
Qed.

Lemma experiment_id_name (self : ExperimentManager) (id : string) :
  experiment_id_folder self = None ->
  get_experiment_id self = Ok id ->
  PurePath.parse id = PurePath.mk "" [id].
Proof.
  intros F. unfold get_experiment_id. rewrite F.
  destruct (hash_keys _ _ _) as [s|] eqn:H; [|discriminate].
  intros E. assert (id = ("exp-" ++ s)%string) as -> by congruence.
  apply parse_name; [|reflexivity].
  rewrite no_slash_app. apply (hash_keys_no_slash _ _ _ _ H). reflexivity.
Qed.

Lemma digit_char_no_slash (d : Z) :
  0 <= d < 10 -> Ascii.eqb (PyStr.chr (48 + d)) PurePath.slash = false.
Proof.
  intros H. destruct (Ascii.eqb_spec (PyStr.chr (48 + d)) PurePath.slash) as [E|];
    [|reflexivity].
  apply (f_equal PyStr.code) in E. rewrite code_chr in E by lia.
  change (PyStr.code PurePath.slash) with 47 in E. lia.
Qed.

Lemma run_id_name (clk : Clock) (self : ExperimentManager) :
  run_id self = None -> valid_datetime (now clk) = true ->
  PurePath.parse (get_run_id clk self) = PurePath.mk "" [get_run_id clk self].
Proof.
  intros R V. unfold get_run_id. rewrite R.
  unfold valid_datetime in V. rewrite !andb_true_iff, !Z.leb_le in V.
  destruct V as [[[[[[[[[? ?] ?] ?] ?] ?] ?] ?] ?] ?].
  pose proof (Z.mod_pos_bound (year (now clk)) 100 ltac:(lia)).
  apply parse_name; [|reflexivity].
  unfold strftime. rewrite !zero_pad_2 by lia.
  cbn [String.append]. unfold no_slash. cbn [list_ascii_of_string forallb].
  rewrite !digit_char_no_slash; [reflexivity | ..];
    try (split; [apply Z.div_pos | apply Z.div_lt_upper_bound]; lia);
    apply Z.mod_pos_bound; lia.
Qed.

(** X17: on a manager that was not resumed the run path lies exactly two
    names below the base directory, the experiment identifier and then the
    run identifier: neither can hold a separator or be a dot.  So the run
    paths of one configuration at two readings of the clock are in the same
    experiment directory, and they are the same directory exactly when the
    two readings agree up to the minute (and the last two digits of the
    year). *)
Theorem run_path_layout (clk clk' : Clock) (self : ExperimentManager) (p p' : PurePath.t) :
  experiment_id_folder self = None ->
  run_id self = None ->
  valid_datetime (now clk) = true ->
  valid_datetime (now clk') = true ->
  get_run_path clk self = Ok p ->
  get_run_path clk' self = Ok p' ->
  let base := PurePath.parse (base_experiment_path self) in
  exists exp_id,
    get_experiment_id self = Ok exp_id
    /\ p = PurePath.mk (PurePath.root base)
             (PurePath.parts base ++ [exp_id; get_run_id clk self])
    /\ p' = PurePath.mk (PurePath.root base)
              (PurePath.parts base ++ [exp_id; get_run_id clk' self])
    /\ (p = p' <-> same_minute_of_century (now clk) (now clk') = true).
Proof.
  intros F R V V'. unfold get_run_path.
  destruct (get_experiment_id self) as [id|] eqn:Hid; [|discriminate].
  intros E E'; inversion E; inversion E'; subst. cbv zeta. exists id.
  pose proof (experiment_id_name self id F Hid) as Nid.
  assert (forall c, valid_datetime (now c) = true ->
            PurePath.truediv
              (PurePath.truediv (PurePath.parse (base_experiment_path self)) id)
              (get_run_id c self) =
            PurePath.mk (PurePath.root (PurePath.parse (base_experiment_path self)))
              (PurePath.parts (PurePath.parse (base_experiment_path self))
               ++ [id; get_run_id c self])) as Hp.
  { intros c Vc. rewrite (truediv_name _ id Nid).
    rewrite (truediv_name _ _ (run_id_name c self R Vc)).
    cbn [PurePath.root PurePath.parts]. now rewrite <- app_assoc. }
  rewrite (Hp clk V), (Hp clk' V').
  repeat split; try reflexivity.
  - intros Eq. apply (run_id_inj clk clk' self R V V').
    injection Eq as Eq. apply app_inv_head in Eq. congruence.
  - intros S. unfold get_run_id. rewrite R. unfold strftime.
    unfold same_minute_of_century in S. rewrite !andb_true_iff, !Z.eqb_eq in S.
    destruct S as [[[[Y M] D] Hh] N]. now rewrite Y, M, D, Hh, N.
Qed.

(** ** The order of the keys of the configuration *)

Lemma same_value_get (c1 c2 : dict) (k : string) :
  same_value (JDict c1) (JDict c2) = true ->
  well_formed (JDict c1) = true -> well_formed (JDict c2) = true ->
  match PyDict.get c1 k, PyDict.get c2 k with
  | Some v1, Some v2 =>
      same_value v1 v2 = true /\ well_formed v1 = true /\ well_formed v2 = true
  | None, None => True
  | _, _ => False
  end.
Proof.
  intros Hs Ha Hb. simpl in Hs, Ha, Hb.
  apply andb_prop in Ha as [Ha1 Ha2]. apply andb_prop in Hb as [Hb1 Hb2].
  apply andb_prop in Hs as [Hlen Hs]. apply Nat.eqb_eq in Hlen.
  apply distinct_NoDup in Ha1, Hb1. rewrite forallb_forall in Hs, Ha2, Hb2.
  destruct (PyDict.get c1 k) as [v1|] eqn:G1.
  - apply get_Some_In in G1. pose proof (Hs _ G1) as H. simpl in H.
    destruct (PyDict.get c2 k) as [v2|] eqn:G2; [|discriminate].
    apply get_Some_In in G2. repeat split; [exact H | exact (Ha2 _ G1) | exact (Hb2 _ G2)].
  - destruct (PyDict.get c2 k) as [v2|] eqn:G2; [|exact I].
    apply get_None_keys in G1. apply G1. apply (same_keys c1 c2 Ha1 Hlen).
    + intros k' Hk'. unfold PyDict.keys in Hk'.
      apply List.in_map_iff in Hk' as ([k0 v0] & E & Hin). simpl in E. subst k0.
      specialize (Hs _ Hin). simpl in Hs.
      destruct (PyDict.get c2 k') eqn:G; [|discriminate].
      apply get_Some_In in G. apply (List.in_map fst) in G. exact G.
    + apply get_Some_In in G2. apply (List.in_map fst) in G2. exact G2.
Qed.

Lemma same_value_truthy (a b : json) : same_value a b = true -> truthy a = truthy b.
Proof.
  destruct a as [| x | x | x | x | l | d], b as [| y | y | y | y | l2 | d2];
    simpl; try discriminate; try reflexivity.
  - intros H. apply Bool.eqb_prop in H. now subst.
  - intros H. apply Z.eqb_eq in H. now subst.
  - intros H. apply float_same_eq in H. now subst.
  - intros H. apply String.eqb_eq in H. now subst.
  - destruct l, l2; try discriminate; reflexivity.
  - destruct d, d2; try discriminate; reflexivity.
Qed.

Lemma same_value_agree_on (keys : list string) (c1 c2 : dict) :
  same_value (JDict c1) (JDict c2) = true ->
  well_formed (JDict c1) = true -> well_formed (JDict c2) = true ->
  agree_on keys c1 c2 = true.
Proof.
  intros Hs Ha Hb. unfold agree_on. apply forallb_forall. intros k _.
  pose proof (same_value_get c1 c2 k Hs Ha Hb) as H.
  destruct (PyDict.get c1 k), (PyDict.get c2 k); try contradiction; [|reflexivity].
  destruct H as (-> & -> & ->). reflexivity.
Qed.

(** X18: two configurations that are the same up to the order of the keys
    of their dictionaries are the same to [prepare]: from the same manager,
    file system and clock it returns the same callbacks, or raises the same
    exception, and leaves the same file system (the same text in the
    parameters file in particular), the same output and the same run
    path. *)
Theorem prepare_key_order (clk : Clock) (c1 c2 : dict) (self : ExperimentManager)
    (w : World) :
  same_value (JDict c1) (JDict c2) = true ->
  well_formed (JDict c1) = true ->
  well_formed (JDict c2) = true ->
  fst (fst (prepare clk c1 self w)) = fst (fst (prepare clk c2 self w))
  /\ snd (prepare clk c1 self w) = snd (prepare clk c2 self w)
  /\ run_path (snd (fst (prepare clk c1 self w)))
     = run_path (snd (fst (prepare clk c2 self w))).
Proof.
  intros Hs Ha Hb.
  pose proof (same_value_get c1 c2 "debug" Hs Ha Hb) as Hd.
  pose proof (dumps_same_value _ _ (Some 2%nat) 0%nat Hs Ha Hb) as Ht.
  pose proof (hash_keys_agree (monitored_param_keys self) c1 c2 ""
                (same_value_agree_on _ c1 c2 Hs Ha Hb)) as Hh.
  unfold prepare, set_parameter_files, make_experiment_path, write_parameters. run_py.
  unfold subscript, get_run_path, get_experiment_id, get_run_id, get_debug_path,
    get_best_model_path, get_param_path, get_csv_path, get_best_perf_path,
    under_run_path, template_path, params_json, dumps.
  cbn [params with_params experiment_id_folder run_id monitored_param_keys
       base_experiment_path with_run_path run_path checkpoint_params fs stdout].
  rewrite Hh. fold (dumps_at true (Some 2%nat) 0 (JDict c1)). unfold dumps in Ht.
  destruct (PyDict.get c1 "debug") as [d1|], (PyDict.get c2 "debug") as [d2|];
    try contradiction; [|repeat split].
  destruct Hd as (Hd & _ & _). rewrite (same_value_truthy _ _ Hd).
  destruct (if truthy d2 then _ else _) as [rp|err]; [|repeat split].
  destruct (FS.mkdir (fs w) (timestamp clk) rp) as [[[]|err] fs1]; [|repeat split].
  cbn [params with_params experiment_id_folder run_id monitored_param_keys
       base_experiment_path with_run_path run_path checkpoint_params fs stdout].
  match goal with
  | |- context [FS.mkdir fs1 ?b ?c] => destruct (FS.mkdir fs1 b c) as [[[]|err] fs2]
  end; [|repeat split].
  cbn [params with_params experiment_id_folder run_id monitored_param_keys
       base_experiment_path with_run_path run_path checkpoint_params fs stdout].
  destruct (experiment_id_folder self).
  - cbn [params with_params experiment_id_folder run_id monitored_param_keys
         base_experiment_path with_run_path run_path checkpoint_params fs stdout].
    destruct (PyDict.get (checkpoint_params self) "monitor") as [[| | | |m| |]|];
      try (repeat split; fail).
    destruct (model_checkpoint _ _); repeat split.
  - rewrite <- Ht.
    match goal with
    | |- context [FS.write_file ?a ?b ?c ?d] =>
        destruct (FS.write_file a b c d) as [[[]|err] fs3]
    end; [|repeat split].
    cbn [params with_params experiment_id_folder run_id monitored_param_keys
         base_experiment_path with_run_path run_path checkpoint_params fs stdout].
    destruct (PyDict.get (checkpoint_params self) "monitor") as [[| | | |m| |]|];
      try (repeat split; fail).
    destruct (model_checkpoint _ _); repeat split.
Qed.

(** * The further properties at work *)

(** An outcome is made of its own three parts. *)
Lemma outcome_eta {A B C} (x : A * B * C) (a : A) :
  fst (fst x) = a -> x = (a, snd (fst x), snd x).
Proof. destruct x as [[a' b] c]. simpl. now intros ->. Qed.

Lemma experiment_id_missing_key_witness :
  first_missing Sample.partial_config ["model"; "training"] = Some "training"
  /\ get_experiment_id (with_params Sample.manager (Some Sample.partial_config)) =
     Raise (KeyError "training").
Proof.
  split; [reflexivity|].
  exact (experiment_id_missing_key
           (with_params Sample.manager (Some Sample.partial_config))
           Sample.partial_config eq_refl eq_refl).
Defined.

Lemma run_id_same_minute_witness :
  String.length (get_run_id Sample.clock Sample.manager) = 20%nat
  /\ (get_run_id Sample.clock Sample.manager = get_run_id Sample.later Sample.manager
      <-> same_minute_of_century (now Sample.clock) (now Sample.later) = true).
Proof.
  apply (run_id_same_minute Sample.clock Sample.later Sample.manager); reflexivity.
Defined.

Lemma resume_run_latest_witness :
  let out := resume_run "exp--1" Sample.run_name Sample.manager Sample.with_run in
  let ckpt := "experiments/exp--1/run--20-05-07--14-03/models/model.02-0.6000.hdf5" in
  first_newest (fs Sample.with_run)
    (Glob.glob (fs Sample.with_run)
       (PurePath.truediv
          (PurePath.truediv
             (supposed_run_path Sample.manager "exp--1" Sample.run_name) "models")
          "*"))
    ckpt
  /\ run_id (snd (fst out)) = Some Sample.run_name
  /\ experiment_id_folder (snd (fst out)) = Some "exp--1"
  /\ snd out =
     mkWorld (fs Sample.with_run)
       (stdout Sample.with_run ++ [("Latest checkpoint is: " ++ ckpt)%string])%list.
Proof.
  cbv zeta.
  apply (resume_run_latest "exp--1" Sample.run_name Sample.manager _ Sample.with_run _
           "experiments/exp--1/run--20-05-07--14-03/models/model.02-0.6000.hdf5").
  apply outcome_eta. vm_compute. reflexivity.
Defined.

Lemma resumed_prepare_run_path_witness :
  let resumed := resume_run "exp--1" Sample.run_name Sample.manager Sample.with_run in
  let out := prepare Sample.later Sample.config (snd (fst resumed)) (snd resumed) in
  is_ok (fst (fst out)) = true
  /\ run_path (snd (fst out)) =
     Some (FS.resolve (fs Sample.with_run)
             (supposed_run_path Sample.manager "exp--1" Sample.run_name)).
Proof.
  cbv zeta. split; [vm_compute; reflexivity|].
  eapply (resumed_prepare_run_path "exp--1" Sample.run_name Sample.manager _ _
            Sample.with_run _ _ _ Sample.later Sample.config (JBool false)).
  - apply outcome_eta. vm_compute. reflexivity.
  - reflexivity.
  - reflexivity.
  - apply outcome_eta. vm_compute. reflexivity.
Defined.

Lemma debug_run_path_witness :
  let out := prepare Sample.clock Sample.debug_config Sample.manager Sample.empty_home in
  chosen_run_path Sample.clock (with_params Sample.manager (Some Sample.debug_config))
  = Ok (get_debug_path Sample.manager)
  /\ is_ok (fst (fst out)) = true
  /\ run_path (snd (fst out))
     = Some (FS.resolve (fs Sample.empty_home) (get_debug_path Sample.manager)).
Proof.
  cbv zeta.
  destruct (debug_run_path Sample.clock Sample.debug_config Sample.manager (JBool true)
              eq_refl eq_refl) as [H1 H2].
  split; [exact H1|]. split; [vm_compute; reflexivity|].
  eapply (H2 Sample.empty_home). apply outcome_eta. vm_compute. reflexivity.
Defined.

Lemma prepare_missing_key_witness :
  prepare Sample.clock [] Sample.manager Sample.empty_home
  = (Raise (KeyError "debug"), with_params Sample.manager (Some []), Sample.empty_home)
  /\ prepare Sample.clock Sample.partial_config Sample.manager Sample.empty_home
     = (Raise (KeyError "training"),
        with_params Sample.manager (Some Sample.partial_config), Sample.empty_home).
Proof.
  split.
  - apply (proj1 (prepare_missing_key Sample.clock [] Sample.manager Sample.empty_home)).
    reflexivity.
  - apply (proj2 (prepare_missing_key Sample.clock Sample.partial_config Sample.manager
                    Sample.empty_home) (JBool false) "training"); reflexivity.
Defined.

Lemma prepare_makes_directories_witness :
  let out := prepare Sample.clock Sample.config Sample.manager Sample.empty_home in
  exists p,
    run_path (snd (fst out)) = Some p
    /\ PurePath.is_absolute p = true
    /\ FS.is_dir (fs (snd out)) p = true
    /\ FS.is_dir (fs (snd out)) (PurePath.truediv p "models") = true
    /\ stdout (snd out) =
       (stdout Sample.empty_home
        ++ [("Now everything is happening in " ++ PurePath.str p)%string])%list.
Proof.
  cbv zeta.
  eapply (prepare_makes_directories Sample.clock Sample.config Sample.manager _
            Sample.empty_home).
  apply outcome_eta. vm_compute. reflexivity.
Defined.

Lemma prepare_callbacks_witness :
  let out := prepare Sample.clock Sample.config Sample.manager Sample.empty_home in
  exists p monitor,
    run_path (snd (fst out)) = Some p
    /\ PyDict.get (checkpoint_params Sample.manager) "monitor" = Some (JStr monitor)
    /\ Sample.callbacks =
       [ CSVLogger (PurePath.str (PurePath.truediv p "training-logs.csv")) "," true;
         ModelCheckpoint
           (PurePath.str
              (PurePath.truediv (PurePath.truediv p "models")
                 ("model.{epoch:02d}-{" ++ monitor ++ ":.4f}.hdf5")))
           true (checkpoint_params Sample.manager);
         BestPerformancesCallback
           (mkWriteBestPerformances
              (PurePath.str (PurePath.truediv p "training-logs.csv"))
              (PurePath.str (PurePath.truediv p "performances.json"))
              "loss" None) ].
Proof.
  cbv zeta.
  eapply (prepare_callbacks Sample.clock Sample.config Sample.manager _
            Sample.empty_home).
  apply outcome_eta. vm_compute. reflexivity.
Defined.

Lemma prepare_bad_checkpoint_params_witness :
  let made :=
    make_experiment_path Sample.clock
      (with_params Sample.unmonitored (Some Sample.config)) Sample.empty_home in
  fst (fst made) = Ok tt
  /\ prepare Sample.clock Sample.config Sample.unmonitored Sample.empty_home
     = (Raise (KeyError "monitor"), snd (fst made), snd made).
Proof.
  cbv zeta.
  assert (fst (fst (make_experiment_path Sample.clock
                      (with_params Sample.unmonitored (Some Sample.config))
                      Sample.empty_home)) = Ok tt) as H
    by (vm_compute; reflexivity).
  split; [exact H|].
  refine (proj1 (prepare_bad_checkpoint_params Sample.clock Sample.config
                   Sample.unmonitored _ Sample.empty_home _ tt (outcome_eta _ _ H)) _).
  reflexivity.
Defined.

Lemma path_getters_need_prepare_witness :
  let resumed := resume_run "exp--1" Sample.run_name Sample.manager Sample.with_run in
  let out := prepare Sample.clock Sample.config Sample.manager Sample.empty_home in
  Forall (fun getter =>
            exists msg, getter (snd (fst resumed)) = Raise (TypeError msg))
         path_getters
  /\ Forall (fun getter => is_ok (getter (snd (fst out))) = true) path_getters.
Proof.
  cbv zeta.
  destruct (path_getters_need_prepare Sample.manager eq_refl) as [H1 H2]. split.
  - exact (H1 "exp--1" Sample.run_name Sample.with_run).
  - eapply (H2 Sample.clock Sample.config Sample.empty_home).
    apply outcome_eta. vm_compute. reflexivity.
Defined.

Lemma no_best_row_iff_no_number_witness :
  exists best,
    BestPerformances.on_train_end Sample.f12_5 Sample.log Sample.extractor =
    Ok ("performances.json", best)
    /\ (Pandas.rows best = []
        <-> Forall (fun r => PyFloat.is_nan (Pandas.cell 0 r) = true)
                   (Pandas.rows
                      (with_elapsed ["loss"]
                         [[Sample.f0_5]; [Sample.f0_2]; [Sample.f0_2]; [Sample.f0_8]]
                         (SFsub 53 1024 Sample.f12_5 Sample.f10)))).
Proof.
  apply (no_best_row_iff_no_number Sample.callback Sample.f10 Sample.f12_5 ["loss"]
           [[Sample.f0_5]; [Sample.f0_2]; [Sample.f0_2]; [Sample.f0_8]] 0%nat).
  - discriminate.
  - reflexivity.
Defined.

Lemma watching_elapsed_keeps_every_row_witness :
  BestPerformances.on_train_end Sample.f12_5 Sample.log Sample.elapsed_extractor =
  Ok ("performances.json",
      Pandas.mk ["loss"; "elapsed"]
        [[Sample.f0_5; Sample.f2_5]; [Sample.f0_2; Sample.f2_5];
         [Sample.f0_2; Sample.f2_5]; [Sample.f0_8; Sample.f2_5]]).
Proof.
  apply (watching_elapsed_keeps_every_row
           (BestPerformances.init "training-logs.csv" "performances.json"
              (Some "elapsed"))
           Sample.f10 Sample.f12_5 ["loss"]
           [[Sample.f0_5]; [Sample.f0_2]; [Sample.f0_2]; [Sample.f0_8]]).
  - discriminate.
  - reflexivity.
Defined.

Lemma resume_run_without_checkpoint_witness :
  let out := resume_run "exp--1" "run1" Sample.manager Sample.without_checkpoint in
  fst (fst out) = Raise (ValueError "max() arg is an empty sequence")
  /\ run_id (snd (fst out)) = Some "run1"
  /\ experiment_id_folder (snd (fst out)) = Some "exp--1"
  /\ snd out = Sample.without_checkpoint
  /\ same_files (FS.nodes (fs Sample.without_checkpoint))
       (FS.nodes (fs (snd (prepare Sample.later Sample.config (snd (fst out))
                             (snd out))))).
Proof.
  apply (resume_run_without_checkpoint Sample.manager Sample.without_checkpoint
           "exp--1" "run1" Sample.later Sample.config); vm_compute; reflexivity.
Defined.

Lemma run_path_layout_witness :
  let self := with_params Sample.manager (Some Sample.config) in
  let base := PurePath.parse (base_experiment_path self) in
  let p := PurePath.parse "experiments/exp--53014830-11079130/run--20-05-07--14-03" in
  exists exp_id,
    get_experiment_id self = Ok exp_id
    /\ p = PurePath.mk (PurePath.root base)
             (PurePath.parts base ++ [exp_id; get_run_id Sample.clock self])
    /\ p = PurePath.mk (PurePath.root base)
             (PurePath.parts base ++ [exp_id; get_run_id Sample.later self])
    /\ (p = p <-> same_minute_of_century (now Sample.clock) (now Sample.later) = true).
Proof.
  cbv zeta.
  apply (run_path_layout Sample.clock Sample.later
           (with_params Sample.manager (Some Sample.config))
           (PurePath.parse "experiments/exp--53014830-11079130/run--20-05-07--14-03")
           (PurePath.parse "experiments/exp--53014830-11079130/run--20-05-07--14-03"));
    vm_compute; reflexivity.
Defined.

Lemma prepare_key_order_witness :
  let out := prepare Sample.clock Sample.config Sample.manager Sample.empty_home in
  let out' :=
    prepare Sample.clock Sample.reordered_config Sample.manager Sample.empty_home in
  is_ok (fst (fst out)) = true
  /\ fst (fst out) = fst (fst out')
  /\ snd out = snd out'
  /\ run_path (snd (fst out)) = run_path (snd (fst out')).
Proof.
  cbv zeta. split; [vm_compute; reflexivity|].
  apply (prepare_key_order Sample.clock Sample.config Sample.reordered_config
           Sample.manager Sample.empty_home); vm_compute; reflexivity.
Defined.

